(** * Marzban-node: the Sing-box supervisor and the RPyC service

    A shallow embedding of [singbox.py] (SingBoxConfig, SingBoxCore) and of
    [rpyc_service.py] (CoreLogsHandler, XrayService), and the properties of
    the node agent proved over it.

    Python objects that are mutated in place are modelled by explicit state
    passing; the operating system (files, subprocesses, threads, sockets) is
    a [World] value that the methods read and update. A thread is recorded
    when it is started; what it runs is a sequence of steps of its own (the
    statements of the reader loop, those of a subscriber), interleaved with
    the steps of the other threads. The logger and the clock are left
    out. *)

From Stdlib Require Import String Ascii ZArith List Lia.
From stdpp Require Import base list gmap strings.

Set Warnings "-register-all".

Open Scope string_scope.
Open Scope list_scope.

(** ** Python strings: [str.strip]

    A [str] is represented by its UTF-8 encoding, one [ascii] per byte. *)

(** [str.isspace] on the ASCII range: TAB, LF, VT, FF, CR, the separators
    FS, GS, RS, US and the space. *)
Definition py_isspace (a : ascii) : bool :=
  let n := nat_of_ascii a in
  (((9 <=? n) && (n <=? 13)) || ((28 <=? n) && (n <=? 32)))%nat.

(** The white space of two bytes: U+0085 and U+00A0. *)
Definition py_isspace2 (a b : ascii) : bool :=
  let x := nat_of_ascii a in
  let y := nat_of_ascii b in
  ((x =? 194) && ((y =? 133) || (y =? 160)))%nat.

(** The white space of three bytes: U+1680, U+2000 to U+200A, U+2028,
    U+2029, U+202F, U+205F and U+3000. *)
Definition py_isspace3 (a b c : ascii) : bool :=
  let x := nat_of_ascii a in
  let y := nat_of_ascii b in
  let z := nat_of_ascii c in
  (((x =? 225) && (y =? 154) && (z =? 128))
   || ((x =? 226) && (y =? 128)
       && (((128 <=? z) && (z <=? 138)) || (z =? 168) || (z =? 169) || (z =? 175)))
   || ((x =? 226) && (y =? 129) && (z =? 159))
   || ((x =? 227) && (y =? 128) && (z =? 128)))%nat.

(** [lstrip] on the bytes of a text. *)
Fixpoint lstrip_bytes (l : list ascii) : list ascii :=
  match l with
  | [] => []
  | a :: l1 =>
      if py_isspace a then lstrip_bytes l1
      else
        match l1 with
        | b :: l2 =>
            if py_isspace2 a b then lstrip_bytes l2
            else
              match l2 with
              | c :: l3 => if py_isspace3 a b c then lstrip_bytes l3 else l
              | [] => l
              end
        | [] => l
        end
  end.

(** [rstrip] on the bytes of a text, last byte first. *)
Fixpoint rstrip_bytes_rev (l : list ascii) : list ascii :=
  match l with
  | [] => []
  | c :: l1 =>
      if py_isspace c then rstrip_bytes_rev l1
      else
        match l1 with
        | b :: l2 =>
            if py_isspace2 b c then rstrip_bytes_rev l2
            else
              match l2 with
              | a :: l3 => if py_isspace3 a b c then rstrip_bytes_rev l3 else l
              | [] => l
              end
        | [] => l
        end
  end.

Definition py_lstrip (s : string) : string :=
  string_of_list_ascii (lstrip_bytes (list_ascii_of_string s)).

Definition py_rstrip (s : string) : string :=
  string_of_list_ascii (rev (rstrip_bytes_rev (rev (list_ascii_of_string s)))).

Definition py_strip (s : string) : string := py_lstrip (py_rstrip s).

(** Truth value of a [str]: the empty string is false. *)
Definition py_truthy_str (s : string) : bool :=
  match s with EmptyString => false | _ => true end.

(** ** [collections.deque] with a [maxlen] *)

Module Deque.

(** [deque.append]: the item is added on the right, and a deque that has
    grown past [maxlen] loses its leftmost item. *)
Definition append (maxlen : nat) (d : list string) (x : string) : list string :=
  let d' := d ++ [x] in
  if (maxlen <? length d')%nat then drop 1 d' else d'.

(** [deque(iterable, maxlen=...)]: the items are appended one by one. *)
Definition make (maxlen : nat) (iterable : list string) : list string :=
  foldl (append maxlen) [] iterable.

(** [deque.popleft]; [None] stands for the IndexError of an empty deque. *)
Definition popleft (d : list string) : option (string * list string) :=
  match d with
  | [] => None
  | x :: d' => Some (x, d')
  end.

(** The last [n] items of a list. *)
Definition lastn (n : nat) (l : list string) : list string :=
  drop (length l - n) l.

End Deque.

(** ** The log buffers of SingBoxCore *)

(** [SingBoxCore.__init__]: [deque(maxlen=100)]. *)
Definition LOGS_MAXLEN : nat := 100.

(** The two log attributes of a core: [_logs_buffer], the ring, and
    [_temp_log_buffers], the registry of the subscribers' deques keyed by
    [id(buf)]. A subscriber holds its deque by reference: it is the entry of
    the registry under its key. *)
Record LogBuffers := mkLogBuffers {
  _logs_buffer : list string;
  _temp_log_buffers : gmap nat (list string)
}.

Definition empty_logs : LogBuffers := mkLogBuffers [] ∅.

(** The body of the reader loop for a line that was read ([capture_only],
    and [capture_and_debug_log] up to the debug log), statement by
    statement. Under the interpreter lock each of the three is one step;
    another thread may run between any two of them.
    [[
      output = output.strip()
      self._logs_buffer.append(output)
    ]] *)
Definition ring_append (output : string) (b : LogBuffers) : LogBuffers :=
  mkLogBuffers (Deque.append LOGS_MAXLEN (_logs_buffer b) output) (_temp_log_buffers b).

(** [list(self._temp_log_buffers.values())]: the deques registered at that
    moment, each by its identity. Python lists them in the order of their
    registration, the map in the order of its keys; the deques are
    independent of one another. *)
Definition registered_bufs (b : LogBuffers) : list nat :=
  (map_to_list (_temp_log_buffers b)).*1.

(** [buf.append(output)] for one deque of that list. A deque that has left
    the registry in between is not observed any more. *)
Definition buf_append (buf_id : nat) (output : string) (b : LogBuffers) : LogBuffers :=
  mkLogBuffers (_logs_buffer b)
    (alter (fun buf => Deque.append LOGS_MAXLEN buf output) buf_id (_temp_log_buffers b)).

(** The whole body, when no other thread runs in between:
    [[
      output = output.strip()
      self._logs_buffer.append(output)
      for buf in list(self._temp_log_buffers.values()):
          buf.append(output)
    ]] *)
Definition capture_line (output : string) (b : LogBuffers) : LogBuffers :=
  let output := py_strip output in
  let b := ring_append output b in
  foldl (fun b buf_id => buf_append buf_id output b) b (registered_bufs b).

Definition capture_lines (outputs : list string) (b : LogBuffers) : LogBuffers :=
  foldl (fun b output => capture_line output b) b outputs.

(** [get_logs], the two steps of its entry:
    [[
      buf = deque(self._logs_buffer, maxlen=100)
    ]] *)
Definition get_logs_copy (b : LogBuffers) : list string :=
  Deque.make LOGS_MAXLEN (_logs_buffer b).

(** [[
      buf_id = id(buf)
      self._temp_log_buffers[buf_id] = buf
      yield buf
    ]] *)
Definition get_logs_register (buf_id : nat) (buf : list string) (b : LogBuffers)
  : LogBuffers :=
  mkLogBuffers (_logs_buffer b) (<[buf_id := buf]> (_temp_log_buffers b)).

(** The entry of [get_logs] when no other thread runs between its two
    steps. [id(buf)] is the identity of a live object: it differs from the
    key of every deque still registered. *)
Definition get_logs_enter (b : LogBuffers) : nat * LogBuffers :=
  let buf := get_logs_copy b in
  let buf_id := fresh (dom (_temp_log_buffers b)) in
  (buf_id, get_logs_register buf_id buf b).

(** [get_logs], exit of the scope (the [finally] clause):
    [[
      if buf_id in self._temp_log_buffers:
          del self._temp_log_buffers[buf_id]
    ]] *)
Definition get_logs_exit (buf_id : nat) (b : LogBuffers) : LogBuffers :=
  mkLogBuffers (_logs_buffer b) (delete buf_id (_temp_log_buffers b)).

(** What a subscriber does with its deque ([CoreLogsHandler.cast]):
    [[
      if not logs:
          time.sleep(0.2)
          continue
      log = logs.popleft()
    ]]
    The result is the line taken, if any. Only the holder of a deque takes
    from it, so that a deque found not empty is not empty at [popleft]. *)
Definition consume (buf_id : nat) (b : LogBuffers) : option string * LogBuffers :=
  match _temp_log_buffers b !! buf_id with
  | Some buf =>
      match Deque.popleft buf with
      | Some (log, buf') =>
          (Some log, mkLogBuffers (_logs_buffer b) (<[buf_id := buf']> (_temp_log_buffers b)))
      | None => (None, b)
      end
  | None => (None, b)
  end.

(** *** The interleavings of the reader thread with the subscribers *)

(** Where the reader thread of the running process stands in its loop. *)
Inductive reader :=
| AtReadline                                  (* about to read a line *)
| AtValues (output : string)                  (* the line is in the ring;
                                                 [list(...values())] comes next *)
| InLoop (output : string) (bufs : list nat). (* in the [for] loop, [bufs] still to come *)

(** The steps of a trace, each one statement of one thread. *)
Inductive log_event :=
| EvLine (output : string)        (* the reader: a line read, stripped, appended to the ring *)
| EvValues                        (* the reader: [list(self._temp_log_buffers.values())] *)
| EvAppend                        (* the reader: [buf.append(output)] for the next deque *)
| EvCopy                          (* a thread enters [get_logs]: [buf = deque(...)] *)
| EvRegister (buf_id : nat)       (* the thread that made [buf_id] registers it *)
| EvUnsubscribe (buf_id : nat)    (* the scope of [buf_id] exits *)
| EvConsume (buf_id : nat).       (* the holder of [buf_id] takes a line *)

(** The state of a trace: the buffers, the place of the reader, the deques
    that were made and are not registered yet, and for every subscriber the
    lines it has taken so far, oldest first. *)
Record LogTrace := mkLogTrace {
  lt_buffers : LogBuffers;
  lt_reader : reader;
  lt_copies : gmap nat (list string);
  lt_taken : gmap nat (list string)
}.

(** A core that was just built, its reader about to read. *)
Definition new_trace : LogTrace := mkLogTrace empty_logs AtReadline ∅ ∅.

(** The deques the reader still holds in its list. *)
Definition reader_bufs (r : reader) : list nat :=
  match r with
  | InLoop _ bufs => bufs
  | _ => []
  end.

(** The identities of the deques that are alive: in the registry, yet to
    be registered, or in the list of the reader. *)
Definition live_ids (t : LogTrace) : gset nat :=
  dom (_temp_log_buffers (lt_buffers t)) ∪ dom (lt_copies t)
  ∪ list_to_set (reader_bufs (lt_reader t)).

(** [id(buf)] of a deque made now: the identity of no other live deque. *)
Definition next_id (t : LogTrace) : nat := fresh (live_ids t).

Definition log_step (t : LogTrace) (e : log_event) : LogTrace :=
  match e with
  | EvLine output =>
      let output := py_strip output in
      mkLogTrace (ring_append output (lt_buffers t)) (AtValues output)
        (lt_copies t) (lt_taken t)
  | EvValues =>
      match lt_reader t with
      | AtValues output =>
          mkLogTrace (lt_buffers t) (InLoop output (registered_bufs (lt_buffers t)))
            (lt_copies t) (lt_taken t)
      | _ => t
      end
  | EvAppend =>
      match lt_reader t with
      | InLoop output (buf_id :: bufs) =>
          mkLogTrace (buf_append buf_id output (lt_buffers t)) (InLoop output bufs)
            (lt_copies t) (lt_taken t)
      | _ => t
      end
  | EvCopy =>
      let buf_id := next_id t in
      mkLogTrace (lt_buffers t) (lt_reader t)
        (<[buf_id := get_logs_copy (lt_buffers t)]> (lt_copies t))
        (delete buf_id (lt_taken t))
  | EvRegister buf_id =>
      match lt_copies t !! buf_id with
      | Some buf =>
          mkLogTrace (get_logs_register buf_id buf (lt_buffers t)) (lt_reader t)
            (delete buf_id (lt_copies t)) (lt_taken t)
      | None => t
      end
  | EvUnsubscribe buf_id =>
      mkLogTrace (get_logs_exit buf_id (lt_buffers t)) (lt_reader t)
        (lt_copies t) (lt_taken t)
  | EvConsume buf_id =>
      match consume buf_id (lt_buffers t) with
      | (Some log, b) =>
          mkLogTrace b (lt_reader t) (lt_copies t)
            (<[buf_id := default [] (lt_taken t !! buf_id) ++ [log]]> (lt_taken t))
      | (None, b) => mkLogTrace b (lt_reader t) (lt_copies t) (lt_taken t)
      end
  end.

Definition log_run (t : LogTrace) (evs : list log_event) : LogTrace :=
  foldl log_step t evs.

(** The reader follows its program: it reads its next line only when it
    is through with the one before. *)
Definition reader_ready (r : reader) (e : log_event) : bool :=
  match e, r with
  | EvLine _, AtReadline => true
  | EvLine _, InLoop _ [] => true
  | EvLine _, _ => false
  | _, _ => true
  end.

Fixpoint in_order (t : LogTrace) (evs : list log_event) : bool :=
  match evs with
  | [] => true
  | e :: evs' => reader_ready (lt_reader t) e && in_order (log_step t e) evs'
  end.

(** The deque of a subscriber, registered or yet to be. *)
Definition held (buf_id : nat) (t : LogTrace) : list string :=
  match _temp_log_buffers (lt_buffers t) !! buf_id with
  | Some buf => buf
  | None => default [] (lt_copies t !! buf_id)
  end.

(** What a subscriber has seen and can still see: the lines it took, then
    the lines waiting in its deque. *)
Definition view (buf_id : nat) (t : LogTrace) : list string :=
  default [] (lt_taken t !! buf_id) ++ held buf_id t.

(** The line the reader is about to append to the deque [buf_id], when it
    is in the middle of its loop and has this deque still to come. *)
Definition owed (buf_id : nat) (t : LogTrace) : list string :=
  match lt_reader t with
  | InLoop output bufs => if bool_decide (buf_id ∈ bufs) then [output] else []
  | _ => []
  end.

(** The lines a trace appends to the ring, in order. *)
Fixpoint appended (evs : list log_event) : list string :=
  match evs with
  | [] => []
  | EvLine output :: evs' => py_strip output :: appended evs'
  | _ :: evs' => appended evs'
  end.

(** The line that is in the ring and whose fan-out has not begun. *)
Definition pending (r : reader) : option string :=
  match r with
  | AtValues output => Some output
  | _ => None
  end.

(** The lines whose fan-out begins in a trace while the deque [buf_id] is
    registered, in order. [registered] tells whether it is registered at
    the start, [waiting] is the line in the ring whose fan-out has not
    begun. *)
Fixpoint fanned_out (buf_id : nat) (registered : bool) (waiting : option string)
    (evs : list log_event) : list string :=
  match evs with
  | [] => []
  | EvLine output :: evs' => fanned_out buf_id registered (Some (py_strip output)) evs'
  | EvValues :: evs' =>
      (if registered then option_list waiting else [])
      ++ fanned_out buf_id registered None evs'
  | EvRegister i :: evs' => fanned_out buf_id (registered || (i =? buf_id)%nat) waiting evs'
  | _ :: evs' => fanned_out buf_id registered waiting evs'
  end.

(** The scope of [buf_id] stays open along the trace. *)
Fixpoint stays_subscribed (buf_id : nat) (evs : list log_event) : bool :=
  match evs with
  | [] => true
  | EvUnsubscribe i :: evs' => negb (i =? buf_id)%nat && stays_subscribed buf_id evs'
  | _ :: evs' => stays_subscribed buf_id evs'
  end.

(** Whenever the reader appends a line to the deque [buf_id], the deque
    holds fewer than [LOGS_MAXLEN] lines: its holder keeps up with the
    reader. *)
Definition has_room (buf_id : nat) (t : LogTrace) (e : log_event) : bool :=
  match e, lt_reader t with
  | EvAppend, InLoop _ (i :: _) =>
      negb (i =? buf_id)%nat || (length (held buf_id t) <? LOGS_MAXLEN)%nat
  | _, _ => true
  end.

Fixpoint keeps_up (buf_id : nat) (t : LogTrace) (evs : list log_event) : bool :=
  match evs with
  | [] => true
  | e :: evs' => has_room buf_id t e && keeps_up buf_id (log_step t e) evs'
  end.

(** ** Exceptions and results *)

Inductive exn :=
| JSONDecodeError
| TypeError
| ValueError
| AttributeError
| RuntimeError (msg : string)
| FileNotFoundError
| PermissionError
| BrokenPipeError
| CalledProcessError
| EOFError
| TimeoutError
| OtherError (name : string).

Inductive result (A : Type) :=
| Ok (a : A)
| Raise (e : exn).
Arguments Ok {A} a.
Arguments Raise {A} e.

Definition result_bind {A B} (r : result A) (k : A -> result B) : result B :=
  match r with
  | Ok a => k a
  | Raise e => Raise e
  end.

Notation "'let?' x := r 'in' k" := (result_bind r (fun x => k))
  (at level 10, x name, r at level 100, k at level 200).

(** ** JSON values and Python dictionaries *)

(** A [float], by its value: [FFin m e] is [m * 2 ^ e]. *)
Inductive pyfloat :=
| FNaN
| FInf (negative : bool)
| FNegZero
| FFin (m e : Z).

(** The keys of a dict made of JSON values: [json.loads] gives objects
    whose keys are str; [dict(...)] of a list of pairs takes every hashable
    value as a key. *)
Inductive pykey :=
| KStr (s : string)
| KNone
| KBool (b : bool)
| KInt (z : Z)
| KFloat (f : pyfloat).

Coercion KStr : string >-> pykey.

(** A str is read as a key where a key is expected, also in the items of
    a dict that is written out. *)
Arguments pair {A B} & a b.
Arguments cons {A} & a l.
Arguments Ok {A} & a.

(** What [json.loads] returns. A [dict] keeps its keys in insertion order;
    [json.loads] leaves no key twice in an object. *)
Inductive json :=
| JNull
| JBool (b : bool)
| JInt (z : Z)
| JFloat (f : pyfloat)
| JStr (s : string)
| JArr (items : list json)
| JObj (members : list (pykey * json)).

Definition dict := list (pykey * json).

(** [==] between a float and an int, which Python decides exactly. *)
Definition float_eq_int (f : pyfloat) (z : Z) : bool :=
  match f with
  | FFin m e => if (0 <=? e)%Z then (m * 2 ^ e =? z)%Z else (m =? z * 2 ^ (- e))%Z
  | FNegZero => (z =? 0)%Z
  | FNaN | FInf _ => false
  end.

(** Two floats as keys of one dict. [json.loads] gives the same object for
    every NaN, which a dict finds by identity. *)
Definition float_eq (f g : pyfloat) : bool :=
  match f, g with
  | FNaN, FNaN => true
  | FInf a, FInf b => Bool.eqb a b
  | FNegZero, FNegZero => true
  | FNegZero, FFin m _ => (m =? 0)%Z
  | FFin m _, FNegZero => (m =? 0)%Z
  | FFin m e, FFin m' e' =>
      if (e <=? e')%Z then (m =? m' * 2 ^ (e' - e))%Z else (m * 2 ^ (e - e') =? m')%Z
  | _, _ => false
  end.

(** The value of a key that is a bool or an int: [True == 1]. *)
Definition key_int (k : pykey) : option Z :=
  match k with
  | KBool b => Some (if b then 1 else 0)%Z
  | KInt z => Some z
  | _ => None
  end.

(** Two keys are the same key of a dict: equal, with equal hashes. *)
Definition key_eqb (k k' : pykey) : bool :=
  match k, k' with
  | KStr s, KStr s' => String.eqb s s'
  | KNone, KNone => true
  | KFloat f, KFloat g => float_eq f g
  | KFloat f, _ => match key_int k' with Some z => float_eq_int f z | None => false end
  | _, KFloat f => match key_int k with Some z => float_eq_int f z | None => false end
  | _, _ =>
      match key_int k, key_int k' with
      | Some z, Some z' => (z =? z')%Z
      | _, _ => false
      end
  end.

(** A key is the str [key]. *)
Definition key_is (key : string) (k : pykey) : bool :=
  match k with
  | KStr s => String.eqb s key
  | _ => false
  end.

(** [d.get(key)] for a key that is a str, before the default is taken. *)
Fixpoint dict_lookup (key : string) (d : dict) : option json :=
  match d with
  | [] => None
  | (k, v) :: d' => if key_is key k then Some v else dict_lookup key d'
  end.

(** [d.get(key, dflt)]. *)
Definition dict_get (key : string) (dflt : json) (d : dict) : json :=
  default dflt (dict_lookup key d).

(** [d[key] = v] for a key that is a str: the value of an existing key is
    replaced where it stands, a new key goes to the end. *)
Fixpoint dict_set (key : string) (v : json) (d : dict) : dict :=
  match d with
  | [] => [(KStr key, v)]
  | (k, v0) :: d' =>
      if key_is key k then (k, v) :: d' else (k, v0) :: dict_set key v d'
  end.

(** [d[key] = v] for any key: the key that is there stays, with the new
    value. *)
Fixpoint dict_store (key : pykey) (v : json) (d : dict) : dict :=
  match d with
  | [] => [(key, v)]
  | (k, v0) :: d' =>
      if key_eqb k key then (k, v) :: d' else (k, v0) :: dict_store key v d'
  end.

(** [x.get(key, dflt)] on an arbitrary value: only a dict has [get]. *)
Definition py_get (x : json) (key : string) (dflt : json) : result json :=
  match x with
  | JObj d => Ok (dict_get key dflt d)
  | _ => Raise AttributeError
  end.

(** A key as a value. *)
Definition key_json (k : pykey) : json :=
  match k with
  | KStr s => JStr s
  | KNone => JNull
  | KBool b => JBool b
  | KInt z => JInt z
  | KFloat f => JFloat f
  end.

(** The characters of a str: a byte from 128 to 191 continues the
    character before it. *)
Definition is_continuation (a : ascii) : bool :=
  let n := nat_of_ascii a in ((128 <=? n) && (n <=? 191))%nat.

Fixpoint utf8_chars (s : string) : list string :=
  match s with
  | EmptyString => []
  | String a s' =>
      match utf8_chars s' with
      | String b c :: chars =>
          if is_continuation b then String a (String b c) :: chars
          else String a EmptyString :: String b c :: chars
      | chars => String a EmptyString :: chars
      end
  end.

(** [for item in x]: a list yields its items, a dict its keys, a str its
    characters; the other values are not iterable. *)
Definition py_iter (x : json) : result (list json) :=
  match x with
  | JArr items => Ok items
  | JObj d => Ok (map (fun kv => key_json (fst kv)) d)
  | JStr s => Ok (map JStr (utf8_chars s))
  | _ => Raise TypeError
  end.

(** A value as a key: a list or a dict is unhashable. *)
Definition hashable (k : json) : result pykey :=
  match k with
  | JStr s => Ok (KStr s)
  | JNull => Ok KNone
  | JBool b => Ok (KBool b)
  | JInt z => Ok (KInt z)
  | JFloat f => Ok (KFloat f)
  | JArr _ | JObj _ => Raise TypeError
  end.

(** [dict(x)] for a value that is not a dict: a sequence of key/value
    pairs, each an iterable of two items. *)
Definition dict_pair (item : json) : result (pykey * json) :=
  let? elems := py_iter item in
  match elems with
  | [k; v] => let? key := hashable k in Ok (key, v)
  | _ => Raise ValueError
  end.

Fixpoint dict_update_pairs (items : list json) (d : dict) : result dict :=
  match items with
  | [] => Ok d
  | item :: items' =>
      let? kv := dict_pair item in
      dict_update_pairs items' (dict_store (fst kv) (snd kv) d)
  end.

(** [dict.__init__(self, x)]. *)
Definition dict_init (x : json) : result dict :=
  match x with
  | JObj d => Ok d
  | _ => let? items := py_iter x in dict_update_pairs items []
  end.

(** The argument a caller hands to [SingBoxConfig(...)] or
    [singbox_start(...)]: the raw text, or (from [singbox_restart]) a
    configuration object that was built already. *)
Inductive config_arg (C : Type) :=
| ArgStr (raw : string)
| ArgConfig (c : C).
Arguments ArgStr {C} raw.
Arguments ArgConfig {C} c.

(** ** SingBoxConfig *)

Record SingBoxConfig := mkSingBoxConfig {
  cfg_items : dict;               (* the dict the object is *)
  ssl_cert : string;
  ssl_key : string;
  peer_ip : option string
}.

Definition cfg_with_items (c : SingBoxConfig) (d : dict) : SingBoxConfig :=
  mkSingBoxConfig d (ssl_cert c) (ssl_key c) (peer_ip c).

Section Config.

(** The names imported from the [config] module and the [json] library. *)
Variable SSL_CERT_FILE : string.
Variable SSL_KEY_FILE : string.
(** [None] when the setting is absent, otherwise the tags allowed, taken
    to be a list of str. *)
Variable SINGBOX_INBOUNDS : option (list string).
(** [json.loads] on a [str]; [None] stands for JSONDecodeError. *)
Variable json_loads : string -> option json.
Variable json_dumps : dict -> string.

(** [not SINGBOX_INBOUNDS]. *)
Definition no_inbound_filter : bool :=
  match SINGBOX_INBOUNDS with
  | None | Some [] => true
  | Some (_ :: _) => false
  end.

(** [tag in SINGBOX_INBOUNDS]: only a str equals one of the tags. *)
Definition tag_allowed (tag : json) : bool :=
  match tag with
  | JStr s => existsb (String.eqb s) (default [] SINGBOX_INBOUNDS)
  | _ => false
  end.

(** The loop of [_apply_filters]:
    [[
      for inbound in self.get('inbounds', []):
          tag = inbound.get('tag')
          if tag in SINGBOX_INBOUNDS:
              filtered_inbounds.append(inbound)
    ]] *)
Fixpoint filter_loop (inbounds filtered_inbounds : list json) : result (list json) :=
  match inbounds with
  | [] => Ok filtered_inbounds
  | inbound :: inbounds' =>
      let? tag := py_get inbound "tag" JNull in
      filter_loop inbounds'
        (if tag_allowed tag then filtered_inbounds ++ [inbound] else filtered_inbounds)
  end.

Definition _apply_filters (self : dict) : result dict :=
  if no_inbound_filter then Ok self
  else
    let? inbounds := py_iter (dict_get "inbounds" (JArr []) self) in
    let? filtered_inbounds := filter_loop inbounds [] in
    Ok (dict_set "inbounds" (JArr filtered_inbounds) self).

(** [SingBoxConfig.__init__(config, peer_ip)]. [json.loads] accepts a str
    only: handed a configuration object it raises TypeError. *)
Definition SingBoxConfig_init (config : config_arg SingBoxConfig) (peer : option string)
  : result SingBoxConfig :=
  match config with
  | ArgConfig _ => Raise TypeError
  | ArgStr raw =>
      match json_loads raw with
      | None => Raise JSONDecodeError
      | Some config =>
          let? d := dict_init config in
          let? d := _apply_filters d in
          Ok (mkSingBoxConfig d SSL_CERT_FILE SSL_KEY_FILE peer)
      end
  end.

Definition to_json (self : SingBoxConfig) : string := json_dumps (cfg_items self).

End Config.
(** ** A state and exception monad

    A method runs on a state and ends with a value or an exception; the
    state it leaves is kept in both cases, as an exception does not undo
    the assignments made before it. *)

Definition M (St A : Type) : Type := St -> result A * St.

Definition ret {St A} (a : A) : M St A := fun s => (Ok a, s).

Definition raise {St A} (e : exn) : M St A := fun s => (Raise e, s).

Definition bind {St A B} (m : M St A) (k : A -> M St B) : M St B :=
  fun s =>
    match m s with
    | (Ok a, s') => k a s'
    | (Raise e, s') => (Raise e, s')
    end.

Notation "x <- m ;; k" := (bind m (fun x => k))
  (at level 62, m at next level, right associativity).
Notation "m ;;; k" := (bind m (fun _ => k))
  (at level 62, right associativity).

Definition gets {St A} (f : St -> A) : M St A := fun s => (Ok (f s), s).

Definition modify {St} (f : St -> St) : M St unit := fun s => (Ok tt, f s).

Definition lift_result {St A} (r : result A) : M St A := fun s => (r, s).

(** [try: body finally: final]. *)
Definition try_finally {St A} (body : M St A) (final : M St unit) : M St A :=
  fun s =>
    match body s with
    | (r, s') =>
        match final s' with
        | (Ok _, s'') => (r, s'')
        | (Raise e, s'') => (Raise e, s'')
        end
    end.

(** [try: body except <the exceptions of catches>: handler]. *)
Definition try_except {St A} (body : M St A) (catches : exn -> bool) (handler : M St A)
  : M St A :=
  fun s =>
    match body s with
    | (Ok a, s') => (Ok a, s')
    | (Raise e, s') => if catches e then handler s' else (Raise e, s')
    end.

(** [for x in xs: body(x)]. *)
Fixpoint for_each {St X} (xs : list X) (body : X -> M St unit) : M St unit :=
  match xs with
  | [] => ret tt
  | x :: xs' => body x ;;; for_each xs' body
  end.

Definition is_RuntimeError (e : exn) : bool :=
  match e with RuntimeError _ => true | _ => false end.

(** ** The operating system: subprocesses and threads *)

(** A file that is in place to be executed. *)
Record Executable := mkExecutable {
  x_launch : result unit;               (* what executing it does: it starts, or the
                                           error of the launch, such as PermissionError
                                           for a file that may not be executed *)
  x_version : result (option string);   (* run with [version]: what the pattern finds in
                                           its output, or CalledProcessError for an exit
                                           code that is not 0, or the error of [decode] *)
  x_reads_stdin : bool                  (* run with [run -c stdin] it takes what is written
                                           to its standard input; if not, it has closed
                                           it or has exited by then *)
}.

(** A [subprocess.Popen] object and the process behind it. *)
Record Process := mkProcess {
  p_cmd : list string;
  p_cwd : string;
  p_stdin : string;             (* what was written to its stdin *)
  p_stdin_closed : bool;        (* the parent has closed its end *)
  p_reads_stdin : bool;         (* the process takes what is written to it *)
  p_returncode : option Z;      (* [None] while it runs *)
  p_stdout : list string        (* lines it wrote that were not read yet *)
}.

(** The callbacks the service registers on a core: each calls the method
    of that name on the root of the peer. *)
Inductive Hook :=
| PeerOnStart
| PeerOnStop
| PeerOnSingboxStart
| PeerOnSingboxStop.

(** What a started thread runs. *)
Inductive Thread :=
| ThCapture (pid : nat)         (* the log reader of a process *)
| ThHook (func : Hook)
| ThCast (callback : nat).      (* [CoreLogsHandler.cast] *)

(** What [getpeername] gives for the socket of a connection. *)
Inductive SockAddr :=
| AddrInet (host : string) (port : Z)                       (* a pair *)
| AddrInet6 (host : string) (port : Z) (flow scope : Z)     (* four items *)
| AddrNone.                                                 (* not connected: OSError *)

(** An RPyC connection object, as the service uses it. *)
Record Connection := mkConnection {
  c_peer : option (option string);  (* the attribute [peer]: [None] while it is not set *)
  c_ping : result unit;             (* what [ping()] does at present *)
  c_sockaddr : SockAddr;
  c_root : list string;             (* the names the root of the peer has *)
  c_closed : bool
}.

Definition c_with_peer (c : Connection) (peer : option string) : Connection :=
  mkConnection (Some peer) (c_ping c) (c_sockaddr c) (c_root c) (c_closed c).

Definition c_close (c : Connection) : Connection :=
  mkConnection (c_peer c) (c_ping c) (c_sockaddr c) (c_root c) true.

Record World := mkWorld {
  w_procs : list Process;                       (* a process is named by its index *)
  w_installed : list (string * Executable);     (* the files at the paths of executables *)
  w_dirs : list string;                         (* the directories that exist *)
  w_stubborn : list nat;                        (* processes that ignore SIGTERM *)
  w_thread_budget : nat;                        (* threads that can still be started *)
  w_threads : list Thread;                      (* threads started so far *)
  w_conns : gmap nat Connection                 (* the connection objects, by identity *)
}.

Definition w_with_procs (w : World) (ps : list Process) : World :=
  mkWorld ps (w_installed w) (w_dirs w) (w_stubborn w) (w_thread_budget w) (w_threads w)
    (w_conns w).

Definition w_with_conns (w : World) (cs : gmap nat Connection) : World :=
  mkWorld (w_procs w) (w_installed w) (w_dirs w) (w_stubborn w) (w_thread_budget w)
    (w_threads w) cs.

Definition p_with_returncode (p : Process) (rc : option Z) : Process :=
  mkProcess (p_cmd p) (p_cwd p) (p_stdin p) (p_stdin_closed p) (p_reads_stdin p) rc
    (p_stdout p).

(** [Popen.poll()]; a handle that names no process reports an exit. *)
Definition poll (w : World) (pid : nat) : option Z :=
  match w_procs w !! pid with
  | Some p => p_returncode p
  | None => Some 1%Z
  end.

(** A signal ends a process that still runs. *)
Definition end_process (rc : Z) (p : Process) : Process :=
  match p_returncode p with
  | None => p_with_returncode p (Some rc)
  | Some _ => p
  end.

(** [Popen.terminate()]: SIGTERM. *)
Definition terminate (pid : nat) (w : World) : World :=
  if bool_decide (pid ∈ w_stubborn w) then w
  else w_with_procs w (alter (end_process (-15)) pid (w_procs w)).

(** [Popen.kill()]: SIGKILL. *)
Definition kill (pid : nat) (w : World) : World :=
  w_with_procs w (alter (end_process (-9)) pid (w_procs w)).

(** [Popen.wait(timeout=5)]: [false] stands for TimeoutExpired. *)
Definition wait (w : World) (pid : nat) : bool :=
  match poll w pid with
  | Some _ => true
  | None => false
  end.

(** The file at the path of an executable, if there is one. *)
Definition executable_at (w : World) (path : string) : option Executable :=
  match find (fun e => String.eqb (fst e) path) (w_installed w) with
  | Some (_, x) => Some x
  | None => None
  end.

(** [subprocess.Popen(cmd, cwd=..., stdin=PIPE, ...)]. The child changes
    to [cwd] and then executes the file: a directory or a file that is not
    there gives FileNotFoundError, a file that cannot be executed the
    error of its launch. *)
Definition Popen (cmd : list string) (cwd : string) (w : World) : result nat * World :=
  match cmd with
  | exe :: _ =>
      if negb (existsb (String.eqb cwd) (w_dirs w)) then (Raise FileNotFoundError, w)
      else
        match executable_at w exe with
        | None => (Raise FileNotFoundError, w)
        | Some x =>
            match x_launch x with
            | Raise e => (Raise e, w)
            | Ok _ =>
                (Ok (length (w_procs w)),
                 w_with_procs w
                   (w_procs w
                    ++ [mkProcess cmd cwd EmptyString false (x_reads_stdin x) None []]))
            end
        end
  | [] => (Raise ValueError, w)
  end.

(** [stdin.write(text); stdin.flush(); stdin.close()]. Writing to a process
    that does not take its input, or is gone, raises BrokenPipeError, and
    the [close] is not reached. A text that fits the pipe is taken to be
    written at once. *)
Definition feed_stdin (pid : nat) (text : string) (w : World) : result unit * World :=
  match w_procs w !! pid with
  | Some p =>
      match p_reads_stdin p, p_returncode p with
      | true, None =>
          (Ok tt,
           w_with_procs w
             (<[pid := mkProcess (p_cmd p) (p_cwd p) (p_stdin p +:+ text) true
                         (p_reads_stdin p) (p_returncode p) (p_stdout p)]> (w_procs w)))
      | _, _ => (Raise BrokenPipeError, w)
      end
  | None => (Raise BrokenPipeError, w)
  end.

(** [threading.Thread(target=..., daemon=True).start()]. *)
Definition thread_start (t : Thread) (w : World) : result unit * World :=
  match w_thread_budget w with
  | O => (Raise (RuntimeError "can't start new thread"), w)
  | S n =>
      (Ok tt, mkWorld (w_procs w) (w_installed w) (w_dirs w) (w_stubborn w) n
                (w_threads w ++ [t]) (w_conns w))
  end.

(** ** SingBoxCore *)

Record SingBoxCore := mkSingBoxCore {
  executable_path : string;
  working_dir : string;
  version : option string;
  process : option nat;
  restarting : bool;
  logs : LogBuffers;              (* [_logs_buffer] and [_temp_log_buffers] *)
  _on_start_funcs : list Hook;
  _on_stop_funcs : list Hook
}.

Definition set_process (p : option nat) (c : SingBoxCore) : SingBoxCore :=
  mkSingBoxCore (executable_path c) (working_dir c) (version c) p (restarting c)
    (logs c) (_on_start_funcs c) (_on_stop_funcs c).

Definition set_restarting (r : bool) (c : SingBoxCore) : SingBoxCore :=
  mkSingBoxCore (executable_path c) (working_dir c) (version c) (process c) r
    (logs c) (_on_start_funcs c) (_on_stop_funcs c).

Definition set_logs (b : LogBuffers) (c : SingBoxCore) : SingBoxCore :=
  mkSingBoxCore (executable_path c) (working_dir c) (version c) (process c) (restarting c)
    b (_on_start_funcs c) (_on_stop_funcs c).

(** [on_start(func)] and [on_stop(func)]. *)
Definition on_start (func : Hook) (c : SingBoxCore) : SingBoxCore :=
  mkSingBoxCore (executable_path c) (working_dir c) (version c) (process c) (restarting c)
    (logs c) (_on_start_funcs c ++ [func]) (_on_stop_funcs c).

Definition on_stop (func : Hook) (c : SingBoxCore) : SingBoxCore :=
  mkSingBoxCore (executable_path c) (working_dir c) (version c) (process c) (restarting c)
    (logs c) (_on_start_funcs c) (_on_stop_funcs c ++ [func]).

(** The run of the executable with [version], and the search of the
    pattern in its output. *)
Definition version_run (w : World) (executable_path : string) : result (option string) :=
  match executable_at w executable_path with
  | None => Raise FileNotFoundError
  | Some x =>
      match x_launch x with
      | Raise e => Raise e
      | Ok _ => x_version x
      end
  end.

(** [get_version]: a missing executable, a failing one or an output
    without the pattern give None; the [except] clause lets every other
    error pass. *)
Definition get_version (w : World) (executable_path : string) : result (option string) :=
  match version_run w executable_path with
  | Ok v => Ok v
  | Raise CalledProcessError | Raise FileNotFoundError => Ok None
  | Raise e => Raise e
  end.

(** [SingBoxCore.__init__]; the registration with [atexit] is left out. *)
Definition SingBoxCore_init (w : World) (executable_path working_dir : string)
  : result SingBoxCore :=
  let? version := get_version w executable_path in
  Ok (mkSingBoxCore executable_path working_dir version None false empty_logs [] []).

(** The methods of a core run on the world and the core. *)
Definition CoreM (A : Type) : Type := M (World * SingBoxCore) A.

Definition in_world {S A} (f : World -> result A * World) : M (World * S) A :=
  fun s => match f (fst s) with (r, w') => (r, (w', snd s)) end.

Definition of_world {S A} (f : World -> result A) : M (World * S) A :=
  fun s => (f (fst s), s).

Definition on_world {S} (f : World -> World) : M (World * S) unit :=
  modify (fun s => (f (fst s), snd s)).

Definition on_self {S} (f : S -> S) : M (World * S) unit :=
  modify (fun s => (fst s, f (snd s))).

(** The [started] property. *)
Definition started (w : World) (self : SingBoxCore) : bool :=
  match process self with
  | None => false
  | Some pid =>
      match poll w pid with
      | None => true
      | Some _ => false
      end
  end.

(** The start of [start]:
    [[
      if config.get('log', {}).get('level') == 'silent':
          config['log']['level'] = 'warn'
    ]] *)
Definition normalize_log_level (config : dict) : result dict :=
  let log := dict_get "log" (JObj []) config in
  let? level := py_get log "level" JNull in
  match level, log with
  | JStr "silent", JObj log_items =>
      Ok (dict_set "log" (JObj (dict_set "level" (JStr "warn") log_items)) config)
  | _, _ => Ok config
  end.

(** [__capture_process_logs]: the reader thread is started; with or
    without DEBUG it fills the buffers in the same way. *)
Definition __capture_process_logs (pid : nat) : CoreM unit :=
  in_world (thread_start (ThCapture pid)).

(** What the reader thread finds at one turn of its loop: whether
    [self.process] is still set when the turn begins, the text [readline]
    returns (an empty text at the end of the stream), and whether at an
    empty text the process is gone or has exited. *)
Record Read := mkRead {
  rd_process : bool;
  rd_output : string;
  rd_ended : bool
}.

(** The loop of the reader thread:
    [[
      while self.process:
          output = self.process.stdout.readline()
          if output:
              ...
          elif not self.process or self.process.poll() is not None:
              break
    ]]
    The result is what the thread has left unread when it ends, or when it
    waits in [readline] with no further turn at hand. When [stop] clears
    [self.process] after the test of the [while], the thread ends on the
    AttributeError of [self.process.stdout] with the same buffers. *)
Fixpoint capture_loop (reads : list Read) (b : LogBuffers) : list Read * LogBuffers :=
  match reads with
  | [] => ([], b)
  | read :: reads' =>
      if negb (rd_process read) then (reads, b)
      else if py_truthy_str (rd_output read)
           then capture_loop reads' (capture_line (rd_output read) b)
      else if rd_ended read then (reads', b)
      else capture_loop reads' b
  end.

Section Core.

Variable json_dumps : dict -> string.

Definition start (config : SingBoxConfig) : CoreM unit :=
  fun s =>
    (if started (fst s) (snd s) then raise (RuntimeError "Sing-box is started already")
     else
       items <- lift_result (normalize_log_level (cfg_items config)) ;;
       let config := cfg_with_items config items in
       cmd <- gets (fun s => [executable_path (snd s); "run"; "-c"; "stdin"]) ;;
       cwd <- gets (fun s => working_dir (snd s)) ;;
       pid <- in_world (Popen cmd cwd) ;;
       on_self (set_process (Some pid)) ;;;
       in_world (feed_stdin pid (to_json json_dumps config)) ;;;
       __capture_process_logs pid ;;;
       funcs <- gets (fun s => _on_start_funcs (snd s)) ;;
       for_each funcs (fun func => in_world (thread_start (ThHook func)))) s.

Definition stop : CoreM unit :=
  fun s =>
    (if negb (started (fst s) (snd s)) then ret tt
     else
       match process (snd s) with
       | Some pid =>
           on_world (terminate pid) ;;;
           exited <- gets (fun s => wait (fst s) pid) ;;
           (if exited then ret tt else on_world (kill pid)) ;;;
           on_self (set_process None) ;;;
           funcs <- gets (fun s => _on_stop_funcs (snd s)) ;;
           for_each funcs (fun func => in_world (thread_start (ThHook func)))
       | None => raise AttributeError
       end) s.

Definition restart (config : SingBoxConfig) : CoreM unit :=
  fun s =>
    (if restarting (snd s) then ret tt
     else
       on_self (set_restarting true) ;;;
       try_finally
         (stop ;;; start config)
         (on_self (set_restarting false))) s.

End Core.

(** ** The Xray side

    [xray.py] is not among the sources at hand: the service is modelled
    over any implementation of the names it imports from that module. *)
Record XrayModule (XRayCore XRayConfig : Type) := mkXrayModule {
  (* [XRayConfig(config, peer_ip)] *)
  XRayConfig_init : string -> option string -> result XRayConfig;
  (* [XRayCore(executable_path=..., assets_path=...)] *)
  XRayCore_init : World -> string -> string -> result XRayCore;
  XRayCore_start : XRayConfig -> M (World * XRayCore) unit;
  XRayCore_stop : M (World * XRayCore) unit;
  XRayCore_restart : XRayConfig -> M (World * XRayCore) unit;
  XRayCore_on_start : Hook -> XRayCore -> XRayCore;
  XRayCore_on_stop : Hook -> XRayCore -> XRayCore
}.
Arguments XRayConfig_init {XRayCore XRayConfig} _ _ _.
Arguments XRayCore_init {XRayCore XRayConfig} _ _ _ _.
Arguments XRayCore_start {XRayCore XRayConfig} _ _ _.
Arguments XRayCore_stop {XRayCore XRayConfig} _ _.
Arguments XRayCore_restart {XRayCore XRayConfig} _ _ _.
Arguments XRayCore_on_start {XRayCore XRayConfig} _ _ _.
Arguments XRayCore_on_stop {XRayCore XRayConfig} _ _ _.

(** ** CoreLogsHandler *)

Inductive CoreKind := XrayKind | SingBoxKind.

(** The handle [fetch_logs] returns. Its thread runs [cast], which enters
    [get_logs] of the core and then takes lines with [consume]. *)
Record CoreLogsHandler := mkCoreLogsHandler {
  h_core : CoreKind;
  h_callback : nat;
  h_active : bool
}.

(** [CoreLogsHandler.__init__]: the thread of [cast] is started. *)
Definition CoreLogsHandler_init {S} (kind : CoreKind) (callback : nat)
  : M (World * S) CoreLogsHandler :=
  in_world (thread_start (ThCast callback)) ;;;
  ret (mkCoreLogsHandler kind callback true).

(** ** XrayService *)

Record XrayService (XRayCore : Type) := mkXrayService {
  core : option XRayCore;
  singbox_core : option SingBoxCore;
  connection : option nat
}.
Arguments mkXrayService {XRayCore} _ _ _.
Arguments core {XRayCore} _.
Arguments singbox_core {XRayCore} _.
Arguments connection {XRayCore} _.

(** [XrayService.__init__]. *)
Definition XrayService_init {XRayCore} : XrayService XRayCore :=
  mkXrayService None None None.

Section Service.

Context {XRayCore XRayConfig : Type}.
Variable xray : XrayModule XRayCore XRayConfig.

Variable XRAY_ASSETS_PATH : string.
Variable XRAY_EXECUTABLE_PATH : string.
Variable SINGBOX_ENABLED : bool.
Variable SINGBOX_EXECUTABLE_PATH : string.
Variable SINGBOX_WORKING_DIR : string.
Variable SSL_CERT_FILE : string.
Variable SSL_KEY_FILE : string.
Variable SINGBOX_INBOUNDS : option (list string).
Variable json_loads : string -> option json.
Variable json_dumps : dict -> string.

Definition SvcM (A : Type) : Type := M (World * XrayService XRayCore) A.

Definition set_core (c : option XRayCore) (self : XrayService XRayCore) :=
  mkXrayService c (singbox_core self) (connection self).

Definition set_singbox_core (c : option SingBoxCore) (self : XrayService XRayCore) :=
  mkXrayService (core self) c (connection self).

Definition set_connection (c : option nat) (self : XrayService XRayCore) :=
  mkXrayService (core self) (singbox_core self) c.

(** A call [self.core.method(...)]: the method runs on the object the
    attribute refers to; on None the attribute access fails. *)
Definition on_core {A} (m : M (World * XRayCore) A) : SvcM A :=
  fun s =>
    match core (snd s) with
    | None => (Raise AttributeError, s)
    | Some c =>
        match m (fst s, c) with
        | (r, (w', c')) => (r, (w', set_core (Some c') (snd s)))
        end
    end.

Definition on_singbox_core {A} (m : CoreM A) : SvcM A :=
  fun s =>
    match singbox_core (snd s) with
    | None => (Raise AttributeError, s)
    | Some c =>
        match m (fst s, c) with
        | (r, (w', c')) => (r, (w', set_singbox_core (Some c') (snd s)))
        end
    end.

(** Reading the connection object [id]: an attribute, or a call that
    leaves the object as it is. *)
Definition conn_read {S A} (id : nat) (f : Connection -> result A) : M (World * S) A :=
  fun s =>
    match w_conns (fst s) !! id with
    | None => (Raise (OtherError "ReferenceError"), s)
    | Some c => (f c, s)
    end.

(** Changing the connection object [id]. *)
Definition conn_update {S} (id : nat) (f : Connection -> Connection) : M (World * S) unit :=
  fun s =>
    match w_conns (fst s) !! id with
    | None => (Raise (OtherError "ReferenceError"), s)
    | Some c => (Ok tt, (w_with_conns (fst s) (<[id := f c]> (w_conns (fst s))), snd s))
    end.

(** [conn.peer]. *)
Definition read_peer (c : Connection) : result (option string) :=
  match c_peer c with
  | Some peer => Ok peer
  | None => Raise AttributeError
  end.

(** [self.connection.peer]. *)
Definition connection_peer : SvcM (option string) :=
  fun s =>
    match connection (snd s) with
    | None => (Raise AttributeError, s)
    | Some id => conn_read id read_peer s
    end.

(** [self.connection and hasattr(self.connection.root, name)]. *)
Definition peer_has (name : string) : SvcM bool :=
  fun s =>
    match connection (snd s) with
    | None => (Ok false, s)
    | Some id => conn_read id (fun c => Ok (existsb (String.eqb name) (c_root c))) s
    end.

(** [peer, _ = socket.getpeername(conn._channel.stream.sock)]. *)
Definition getpeername_host (c : Connection) : result string :=
  match c_sockaddr c with
  | AddrInet host _ => Ok host
  | AddrInet6 _ _ _ _ => Raise ValueError
  | AddrNone => Raise (OtherError "OSError")
  end.

Definition is_lost (e : exn) : bool :=
  match e with
  | EOFError | TimeoutError | AttributeError => true
  | _ => false
  end.

(** [on_connect(conn)]. The first part gives [true] when it has returned
    from the method, closing the candidate. *)
Definition on_connect (conn : nat) : SvcM unit :=
  fun s =>
    (rejected <-
       match connection (snd s) with
       | Some cur =>
           try_except
             (conn_read cur c_ping ;;;
              _peer <- conn_read cur read_peer ;;
              conn_update conn c_close ;;;
              ret true)
             is_lost
             (ret false)
       | None => ret false
       end ;;
     if (rejected : bool) then ret tt
     else
       peer <- conn_read conn getpeername_host ;;
       on_self (set_connection (Some conn)) ;;;
       conn_update conn (fun c => c_with_peer c (Some peer))) s.

(** [on_disconnect(conn)]. *)
Definition on_disconnect (conn : nat) : SvcM unit :=
  fun s =>
    (if bool_decide (connection (snd s) = Some conn) then
       _peer <- connection_peer ;;
       (fun s => match core (snd s) with
                 | Some _ => on_core (XRayCore_stop xray) s
                 | None => (Ok tt, s)
                 end) ;;;
       (fun s => match singbox_core (snd s) with
                 | Some _ => on_singbox_core stop s
                 | None => (Ok tt, s)
                 end) ;;;
       on_self (set_core None) ;;;
       on_self (set_singbox_core None) ;;;
       on_self (set_connection None)
     else ret tt) s.

(** The [try ... except Exception as exc: logger.error(exc); raise exc] of
    [start] and [singbox_start] raises again what it caught. *)
Definition logged {A} (body : SvcM A) : SvcM A := body.

(** The exposed [stop]. *)
Definition svc_stop : SvcM unit :=
  (fun s => match core (snd s) with
            | Some _ => try_except (on_core (XRayCore_stop xray)) is_RuntimeError (ret tt) s
            | None => (Ok tt, s)
            end) ;;;
  on_self (set_core None).

(** The exposed [start]. *)
Definition svc_start (config : string) : SvcM unit :=
  (fun s => match core (snd s) with
            | Some _ => svc_stop s
            | None => (Ok tt, s)
            end) ;;;
  logged
    (peer <- connection_peer ;;
     config <- lift_result (XRayConfig_init xray config peer) ;;
     fresh_core <- of_world (fun w => XRayCore_init xray w XRAY_EXECUTABLE_PATH
                                       XRAY_ASSETS_PATH) ;;
     on_self (set_core (Some fresh_core)) ;;;
     has_on_start <- peer_has "on_start" ;;
     (if (has_on_start : bool) then on_core (modify (fun s => (fst s, XRayCore_on_start xray PeerOnStart (snd s))))
      else ret tt) ;;;
     has_on_stop <- peer_has "on_stop" ;;
     (if (has_on_stop : bool) then on_core (modify (fun s => (fst s, XRayCore_on_stop xray PeerOnStop (snd s))))
      else ret tt) ;;;
     on_core (XRayCore_start xray config)).

(** The exposed [restart]. *)
Definition svc_restart (config : string) : SvcM unit :=
  peer <- connection_peer ;;
  config <- lift_result (XRayConfig_init xray config peer) ;;
  on_core (XRayCore_restart xray config).

(** [fetch_logs(callback)]: the result is None when there is no core. *)
Definition fetch_logs (callback : nat) : SvcM (option CoreLogsHandler) :=
  fun s =>
    match core (snd s) with
    | Some _ =>
        (logs <- CoreLogsHandler_init XrayKind callback ;; ret (Some logs)) s
    | None => (Ok None, s)
    end.

(** [singbox_stop]. *)
Definition singbox_stop : SvcM unit :=
  (fun s => match singbox_core (snd s) with
            | Some _ => try_except (on_singbox_core stop) is_RuntimeError (ret tt) s
            | None => (Ok tt, s)
            end) ;;;
  on_self (set_singbox_core None).

(** [singbox_start(config)]. *)
Definition singbox_start (config : config_arg SingBoxConfig) : SvcM unit :=
  if negb SINGBOX_ENABLED then raise (RuntimeError "Sing-box is not enabled on this node")
  else
    (fun s => match singbox_core (snd s) with
              | Some _ => singbox_stop s
              | None => (Ok tt, s)
              end) ;;;
    logged
      (peer <- connection_peer ;;
       config <- lift_result
                   (SingBoxConfig_init SSL_CERT_FILE SSL_KEY_FILE SINGBOX_INBOUNDS json_loads
                      config peer) ;;
       fresh_core <- of_world (fun w => SingBoxCore_init w SINGBOX_EXECUTABLE_PATH
                                         SINGBOX_WORKING_DIR) ;;
       on_self (set_singbox_core (Some fresh_core)) ;;;
       has_on_start <- peer_has "on_singbox_start" ;;
       (if (has_on_start : bool) then on_singbox_core (on_self (on_start PeerOnSingboxStart))
        else ret tt) ;;;
       has_on_stop <- peer_has "on_singbox_stop" ;;
       (if (has_on_stop : bool) then on_singbox_core (on_self (on_stop PeerOnSingboxStop))
        else ret tt) ;;;
       on_singbox_core (start json_dumps config)).

(** [singbox_restart(config)]. Without a core it hands the configuration
    object it has built, not the text, to [singbox_start]. *)
Definition singbox_restart (config : string) : SvcM unit :=
  if negb SINGBOX_ENABLED then raise (RuntimeError "Sing-box is not enabled on this node")
  else
    peer <- connection_peer ;;
    config <- lift_result
                (SingBoxConfig_init SSL_CERT_FILE SSL_KEY_FILE SINGBOX_INBOUNDS json_loads
                   (ArgStr config) peer) ;;
    (fun s => match singbox_core (snd s) with
              | Some _ => on_singbox_core (restart json_dumps config) s
              | None => singbox_start (ArgConfig config) s
              end).

(** [fetch_singbox_logs(callback)]. *)
Definition fetch_singbox_logs (callback : nat) : SvcM (option CoreLogsHandler) :=
  fun s =>
    match singbox_core (snd s) with
    | Some _ =>
        (logs <- CoreLogsHandler_init SingBoxKind callback ;; ret (Some logs)) s
    | None => (Ok None, s)
    end.

(** [is_singbox_enabled]. *)
Definition is_singbox_enabled : bool := SINGBOX_ENABLED.

End Service.

(** ** CoreLogsHandler.cast *)

(** What the thread of a handler holds: the text gathered for the next
    call of the callback, and, for the record, the texts the callback was
    called with so far. *)
Record CastState := mkCastState {
  cast_cache : string;
  cast_sent : list string
}.

(** The end of line of [f'{log}\n']. *)
Definition newline : string := String (ascii_of_nat 10) EmptyString.

(** One turn of the loop of [cast] on the deque [buf_id]:
    [[
      if time.time() - last_sent_ts >= self.interval and cache:
          try:
              self.callback(cache)
          except Exception:
              pass
          cache = ''
          last_sent_ts = time.time()
      if not logs:
          time.sleep(0.2)
          continue
      log = logs.popleft()
      cache += f'{log}\n'
    ]]
    [due] is what the clock gives for the first comparison. The callback
    is called with the cache whether it raises or not. *)
Definition cast_turn (buf_id : nat) (due : bool) (hs : CastState) (b : LogBuffers)
  : CastState * LogBuffers :=
  let hs := if due && py_truthy_str (cast_cache hs)
            then mkCastState EmptyString (cast_sent hs ++ [cast_cache hs])
            else hs in
  match consume buf_id b with
  | (Some log, b') => (mkCastState (cast_cache hs +:+ (log +:+ newline)) (cast_sent hs), b')
  | (None, b') => (hs, b')
  end.

(** The turns of a handler among the other steps of a trace. *)
Inductive cast_event :=
| Turn (due : bool)
| Outside (e : log_event).

Definition cast_step (buf_id : nat) (s : CastState * LogTrace) (e : cast_event)
  : CastState * LogTrace :=
  match e with
  | Turn due =>
      (fst (cast_turn buf_id due (fst s) (lt_buffers (snd s))),
       log_step (snd s) (EvConsume buf_id))
  | Outside e => (fst s, log_step (snd s) e)
  end.

Definition cast_run (buf_id : nat) (s : CastState * LogTrace) (evs : list cast_event)
  : CastState * LogTrace :=
  foldl (cast_step buf_id) s evs.

(** * The vocabulary of the properties *)

(** The state a method leaves. *)
Definition run {St A} (m : M St A) (s : St) : St := snd (m s).

(** The deque of the subscriber [buf_id] is registered. *)
Definition registered (buf_id : nat) (t : LogTrace) : Prop :=
  is_Some (_temp_log_buffers (lt_buffers t) !! buf_id).

(** The deque of the subscriber [buf_id] is registered, as a test. *)
Definition is_registered (buf_id : nat) (t : LogTrace) : bool :=
  bool_decide (is_Some (_temp_log_buffers (lt_buffers t) !! buf_id)).

(** The deque [buf_id] is alive: it is in the registry, or it was made
    and is not registered yet and the reader does not know of it; and the
    reader has it at most once in its list. *)
Definition tracked (buf_id : nat) (t : LogTrace) : Prop :=
  count_occ Nat.eq_dec (reader_bufs (lt_reader t)) buf_id <= 1
  /\ match _temp_log_buffers (lt_buffers t) !! buf_id with
     | Some _ => lt_copies t !! buf_id = None
     | None => is_Some (lt_copies t !! buf_id) /\ buf_id ∉ reader_bufs (lt_reader t)
     end.

(** The entry has a tag, and this tag is one of [tags]. *)
Definition entry_allowed (tags : list string) (entry : dict) : bool :=
  match dict_lookup "tag" entry with
  | Some (JStr s) => bool_decide (s ∈ tags)
  | _ => false
  end.

(** A method is blind to a change [f] of the core when running it on the
    changed core gives the same result and world, and the core changed in
    the same way. *)
Definition blind_to {A} (f : SingBoxCore -> SingBoxCore) (m : CoreM A) : Prop :=
  forall w c,
    m (w, f c) = match m (w, c) with (r, (w', c')) => (r, (w', f c')) end.

(** The world once the threads [ts] were started. *)
Definition start_threads (ts : list Thread) (w : World) : World :=
  mkWorld (w_procs w) (w_installed w) (w_dirs w) (w_stubborn w)
    (w_thread_budget w - length ts) (w_threads w ++ ts) (w_conns w).

(** What starting a thread for each of [funcs] ends with. *)
Definition hooks_outcome (funcs : list Hook) (w : World) : result unit :=
  if (length funcs <=? w_thread_budget w)%nat then Ok tt
  else Raise (RuntimeError "can't start new thread").

(** The world once the process [pid] got SIGTERM and, if it ignores
    it, SIGKILL. *)
Definition signalled (pid : nat) (w : World) : World :=
  w_with_procs w
    (alter (end_process (if bool_decide (pid ∈ w_stubborn w) then -9 else -15)%Z) pid
       (w_procs w)).

(** The process of a core that was launched in [cwd] and has taken [text]
    on its standard input, which is closed. *)
Definition fed_process (executable_path cwd text : string) : Process :=
  mkProcess [executable_path; "run"; "-c"; "stdin"] cwd text true true None [].

(** The world once [start] has launched the process and fed it. *)
Definition launched (json_dumps : dict -> string) (self : SingBoxCore) (items : dict)
    (w : World) : World :=
  w_with_procs w
    (w_procs w ++ [fed_process (executable_path self) (working_dir self) (json_dumps items)]).

(** The executable of a core is in place, starts and takes its input, and
    the working directory exists. *)
Definition can_launch (w : World) (executable_path working_dir : string) : Prop :=
  (exists x, executable_at w executable_path = Some x
             /\ x_launch x = Ok tt /\ x_reads_stdin x = true)
  /\ existsb (String.eqb working_dir) (w_dirs w) = true.

(** The world once a running core was stopped. *)
Definition stopped_world (pid : nat) (self : SingBoxCore) (w : World) : World :=
  start_threads (map ThHook (take (w_thread_budget w) (_on_stop_funcs self)))
    (signalled pid w).

(** A core as its constructor leaves it. *)
Definition built_core (executable_path working_dir : string) (version : option string)
  : SingBoxCore :=
  mkSingBoxCore executable_path working_dir version None false empty_logs [] [].

(** The callbacks [singbox_start] registers for a controller. *)
Definition with_peer_hooks (controller : Connection) (c : SingBoxCore) : SingBoxCore :=
  let c := if existsb (String.eqb "on_singbox_start") (c_root controller)
           then on_start PeerOnSingboxStart c else c in
  if existsb (String.eqb "on_singbox_stop") (c_root controller)
  then on_stop PeerOnSingboxStop c else c.

(** The callbacks the exposed [start] registers for a controller. *)
Definition with_xray_hooks {XRayCore XRayConfig} (xray : XrayModule XRayCore XRayConfig)
    (controller : Connection) (c : XRayCore) : XRayCore :=
  let c := if existsb (String.eqb "on_start") (c_root controller)
           then XRayCore_on_start xray PeerOnStart c else c in
  if existsb (String.eqb "on_stop") (c_root controller)
  then XRayCore_on_stop xray PeerOnStop c else c.

(** An item of the inbounds is an object with a tag of [tags]. *)
Definition item_allowed (tags : list string) (item : json) : bool :=
  match item with
  | JObj entry => entry_allowed tags entry
  | _ => false
  end.

(** The configuration transform, in the words of the specification: with
    an allow list that is configured and not empty, the list of inbounds
    is replaced by its entries whose tag is in the allow list, in their
    order; a log level that is silent becomes warn. *)
Definition transformed (allow : option (list string)) (document : dict) : dict :=
  let filtered :=
    match allow with
    | Some (tag :: tags) =>
        dict_set "inbounds"
          (JArr (List.filter (item_allowed (tag :: tags))
                   match dict_lookup "inbounds" document with
                   | Some (JArr items) => items
                   | _ => []
                   end))
          document
    | _ => document
    end in
  match dict_lookup "log" filtered with
  | Some (JObj log) =>
      match dict_lookup "level" log with
      | Some (JStr level) =>
          if String.eqb level "silent"
          then dict_set "log" (JObj (dict_set "level" (JStr "warn") log)) filtered
          else filtered
      | _ => filtered
      end
  | _ => filtered
  end.

(** A value that is an object. *)
Definition json_object (v : json) : bool :=
  match v with
  | JObj _ => true
  | _ => false
  end.

(** The format of a configuration document: its inbounds, if any, are a
    list of objects, and its log, if any, is an object. *)
Definition well_formed (document : dict) : bool :=
  match dict_lookup "inbounds" document with
  | None => true
  | Some (JArr items) => forallb json_object items
  | Some _ => false
  end
  && match dict_lookup "log" document with
     | None | Some (JObj _) => true
     | Some _ => false
     end.

(** Things that happen to the node from outside: a process ends on its
    own. *)
Definition exits {S} (pid : nat) (rc : Z) (s : World * S) : World * S :=
  (w_with_procs (fst s) (alter (end_process rc) pid (w_procs (fst s))), snd s).

(** A connection is lost: its ping ends with [e] from now on. *)
Definition loses {S} (id : nat) (e : exn) (s : World * S) : World * S :=
  (w_with_conns (fst s)
     (alter (fun c => mkConnection (c_peer c) (Raise e) (c_sockaddr c) (c_root c) (c_closed c))
        id (w_conns (fst s))),
   snd s).


(** No further thread can be started. *)
Definition out_of_threads {S} (s : World * S) : World * S :=
  (mkWorld (w_procs (fst s)) (w_installed (fst s)) (w_dirs (fst s)) (w_stubborn (fst s)) 0
     (w_threads (fst s)) (w_conns (fst s)),
   snd s).

(** * A sample node *)

(** A hundred and one lines that differ from one another. *)
Definition numbered_line (n : nat) : string :=
  String (ascii_of_nat (48 + n / 10)) (String (ascii_of_nat (48 + n mod 10)) EmptyString).

Definition lines_101 : list string := map numbered_line (seq 0 101).

(** The steps of the reader for one line, with one deque registered. *)
Definition line_steps (output : string) : list log_event :=
  [EvLine output; EvValues; EvAppend].

(** A trace in which a subscriber comes, another one comes and takes
    lines while three lines are read, and the first one takes a line. *)
Definition busy_trace : list log_event :=
  [EvRegister 0; EvLine "one
"; EvValues; EvCopy; EvAppend; EvRegister 1; EvConsume 1; EvLine "two
"; EvValues; EvAppend; EvConsume 0; EvAppend; EvConsume 1; EvLine " three"; EvUnsubscribe 1;
   EvValues; EvAppend].

(** A core whose ring holds a line, which the reader has handed to the
    deques there were: none. *)
Definition warm_trace : LogTrace := log_run new_trace [EvLine "zero"; EvValues].

(** White space outside ASCII: the no-break space and the ideographic space. *)
Definition no_break_space : string :=
  String (ascii_of_nat 194) (String (ascii_of_nat 160) EmptyString).

Definition ideographic_space : string :=
  String (ascii_of_nat 227) (String (ascii_of_nat 128) (String (ascii_of_nat 128) EmptyString)).

(** The example of the specification: the tags a, b, c, d and the allow
    list a, c. *)
Definition inbound (tag : string) : dict :=
  [("type", JStr "hysteria2"); ("tag", JStr tag)].

Definition abcd_document : dict :=
  [("log", JObj [("level", JStr "info")]);
   ("inbounds", JArr (map JObj [inbound "a"; inbound "b"; inbound "c"; inbound "d"]))].

Definition untagged_document : dict :=
  [("inbounds", JArr [JObj [("type", JStr "tuic")]; JObj (inbound "a")])].

(** The same inbounds in a document that asks for a silent log. *)
Definition silent_abcd_document : dict :=
  [("log", JObj [("level", JStr "silent"); ("timestamp", JBool true)]);
   ("inbounds", JArr (map JObj [inbound "a"; inbound "b"; inbound "c"; inbound "d"]))].

Definition quoted (s : string) : string :=
  String (ascii_of_nat 34) s +:+ String (ascii_of_nat 34) EmptyString.

(** The text of a document that asks for a silent log. *)
Definition silent_text : string :=
  "{" +:+ quoted "log" +:+ ":{" +:+ quoted "level" +:+ ":" +:+ quoted "silent" +:+ "},"
  +:+ quoted "inbounds" +:+ ":[]}".

(** A stand-in for [json.loads] that knows three texts. *)
Definition sample_loads (text : string) : option json :=
  if String.eqb text "{}" then Some (JObj [])
  else if String.eqb text silent_text
       then Some (JObj [("log", JObj [("level", JStr "silent")]); ("inbounds", JArr [])])
  else if String.eqb text "silent abcd" then Some (JObj silent_abcd_document)
  else None.

(** A stand-in for [json.dumps]: the keys of the document, its log level
    and the tags of its inbounds. *)
Definition sample_dumps (d : dict) : string :=
  String.concat "," (map (fun kv => match fst kv with KStr s => s | _ => "?" end) d)
  +:+ ";" +:+
  match dict_lookup "log" d with
  | Some (JObj log) => match dict_lookup "level" log with Some (JStr s) => s | _ => "-" end
  | _ => "-"
  end
  +:+ ";" +:+
  match dict_lookup "inbounds" d with
  | Some (JArr items) =>
      String.concat ","
        (map (fun item => match item with
                          | JObj entry =>
                              match dict_lookup "tag" entry with
                              | Some (JStr s) => s
                              | _ => "-"
                              end
                          | _ => "-"
                          end) items)
  | _ => "-"
  end.

Definition SAMPLE_EXECUTABLE : string := "/usr/local/bin/sing-box".
Definition SAMPLE_WORKING_DIR : string := "/var/lib/marzban-node".

(** Sing-box 1.8.0 in working order. *)
Definition sing_box : Executable := mkExecutable (Ok tt) (Ok (Some "1.8.0")) true.

(** Modelled from the spec: [xray.py] is missing; the specification says
    that the two cores are structurally identical supervisors, so the
    sample node runs a second supervisor of the same kind as its Xray
    core. *)
Definition sample_xray : XrayModule SingBoxCore SingBoxConfig :=
  mkXrayModule SingBoxCore SingBoxConfig
    (fun config peer =>
       SingBoxConfig_init "cert.pem" "key.pem" None sample_loads (ArgStr config) peer)
    (fun w executable_path _ => SingBoxCore_init w executable_path SAMPLE_WORKING_DIR)
    (start sample_dumps) stop (restart sample_dumps) on_start on_stop.

Definition sample_singbox_start :=
  singbox_start (XRayCore := SingBoxCore)
    true SAMPLE_EXECUTABLE SAMPLE_WORKING_DIR "cert.pem" "key.pem" None
    sample_loads sample_dumps.

(** The same node with the allow list a, c. *)
Definition filtering_singbox_start :=
  singbox_start (XRayCore := SingBoxCore)
    true SAMPLE_EXECUTABLE SAMPLE_WORKING_DIR "cert.pem" "key.pem" (Some ["a"; "c"])
    sample_loads sample_dumps.

Definition sample_singbox_restart :=
  singbox_restart (XRayCore := SingBoxCore)
    true SAMPLE_EXECUTABLE SAMPLE_WORKING_DIR "cert.pem" "key.pem" None
    sample_loads sample_dumps.

Definition sample_on_disconnect := on_disconnect sample_xray.

Definition sample_start :=
  svc_start sample_xray "/usr/local/share/xray" SAMPLE_EXECUTABLE.

Definition all_callbacks : list string :=
  ["on_start"; "on_stop"; "on_singbox_start"; "on_singbox_stop"].

(** Two controllers; neither has a peer recorded before it is admitted. *)
Definition first_controller : Connection :=
  mkConnection None (Ok tt) (AddrInet "10.0.0.1" 62050) all_callbacks false.

Definition second_controller : Connection :=
  mkConnection None (Ok tt) (AddrInet "10.0.0.2" 62050) all_callbacks false.

(** A node on which sing-box is installed, with the two controllers at
    the door. *)
Definition sample_world : World :=
  mkWorld [] [(SAMPLE_EXECUTABLE, sing_box)] [SAMPLE_WORKING_DIR] [] 8 []
    {[ 1 := first_controller; 2 := second_controller ]}.

Definition sample_service : XrayService SingBoxCore := XrayService_init.

(** The first controller is connected. *)
Definition connected := run (on_connect 1) (sample_world, sample_service).

(** It has started Sing-box: process 0. *)
Definition singbox_running := run (sample_singbox_start (ArgStr silent_text)) connected.

(** It has started the Xray core instead: process 0. *)
Definition xray_running := run (sample_start "{}") connected.

(** It has started the Xray core, process 0, and then Sing-box, process 1. *)
Definition both_running := run (sample_singbox_start (ArgStr "{}")) xray_running.

(** A node on which nothing is installed. *)
Definition bare_world : World := mkWorld [] [] [] [] 8 [] ∅.

Definition empty_config : SingBoxConfig := mkSingBoxConfig [] "cert.pem" "key.pem" None.

(** * More vocabulary and samples, for the further properties *)

(** The fields of a core that its life cycle leaves alone: all but the
    process and the restart guard. *)
Definition same_setup (c c' : SingBoxCore) : Prop :=
  executable_path c' = executable_path c
  /\ working_dir c' = working_dir c
  /\ version c' = version c
  /\ logs c' = logs c
  /\ _on_start_funcs c' = _on_start_funcs c
  /\ _on_stop_funcs c' = _on_stop_funcs c.

(** A method keeps the setup of the core it runs on. *)
Definition keeps_setup {A} (m : CoreM A) : Prop :=
  forall w c, same_setup c (snd (snd (m (w, c)))).

(** Every deque of the buffers is within its bound. *)
Definition within_bounds (b : LogBuffers) : Prop :=
  length (_logs_buffer b) <= LOGS_MAXLEN
  /\ forall buf_id buf, _temp_log_buffers b !! buf_id = Some buf -> length buf <= LOGS_MAXLEN.

(** Every deque of a trace is: those of the buffers, and those that are
    not registered yet. *)
Definition deques_within_bounds (t : LogTrace) : Prop :=
  within_bounds (lt_buffers t)
  /\ forall buf_id buf, lt_copies t !! buf_id = Some buf -> length buf <= LOGS_MAXLEN.

(** The deque [buf_id] is taken from by its handler only. *)
Fixpoint only_handler_takes (buf_id : nat) (evs : list cast_event) : bool :=
  match evs with
  | [] => true
  | Outside (EvConsume i) :: evs' => negb (i =? buf_id)%nat && only_handler_takes buf_id evs'
  | _ :: evs' => only_handler_takes buf_id evs'
  end.

(** The steps of the buffers in a trace with a handler. *)
Definition cast_log_events (buf_id : nat) (evs : list cast_event) : list log_event :=
  map (fun e => match e with Turn _ => EvConsume buf_id | Outside e => e end) evs.

(** The lines, each with its end of line, in one text. *)
Definition joined (lines : list string) : string :=
  foldr (fun log text => (log +:+ newline) +:+ text) EmptyString lines.

(** What the callback of a handler has received and what it is about to
    receive, in one text. *)
Definition delivered (hs : CastState) : string :=
  foldr String.append (cast_cache hs) (cast_sent hs).

(** A value that is null, a boolean or a number. *)
Definition json_scalar (v : json) : bool :=
  match v with
  | JNull | JBool _ | JInt _ | JFloat _ => true
  | _ => false
  end.

(** The connection the service holds, if any, is a connection of the
    world with its peer recorded. *)
Definition peer_recorded {XRayCore} (w : World) (svc : XrayService XRayCore) : Prop :=
  match connection svc with
  | None => True
  | Some id => exists c peer, w_conns w !! id = Some c /\ c_peer c = Some peer
  end.

(** The executables are gone. *)
Definition uninstalled {S} (s : World * S) : World * S :=
  (mkWorld (w_procs (fst s)) [] (w_dirs (fst s)) (w_stubborn (fst s))
     (w_thread_budget (fst s)) (w_threads (fst s)) (w_conns (fst s)),
   snd s).

(** The core of the sample node while Sing-box runs. *)
Definition running_core : SingBoxCore :=
  mkSingBoxCore SAMPLE_EXECUTABLE SAMPLE_WORKING_DIR (Some "1.8.0") (Some 0) false
    empty_logs [PeerOnSingboxStart] [PeerOnSingboxStop].

(** A core that was built on the sample node and not started. *)
Definition new_core : SingBoxCore :=
  built_core SAMPLE_EXECUTABLE SAMPLE_WORKING_DIR (Some "1.8.0").

(** A core that was built on a node without the executable. *)
Definition bare_core : SingBoxCore :=
  built_core SAMPLE_EXECUTABLE SAMPLE_WORKING_DIR None.

(** A controller that comes over IPv6. *)
Definition ipv6_controller : Connection :=
  mkConnection None (Ok tt) (AddrInet6 "fd00::1" 62050 0 0) all_callbacks false.

Definition ipv6_world : World :=
  mkWorld [] [(SAMPLE_EXECUTABLE, sing_box)] [SAMPLE_WORKING_DIR] [] 8 []
    {[ 3 := ipv6_controller ]}.

(** Buffers with one deque registered, which holds a line. *)
Definition one_subscriber : LogBuffers := mkLogBuffers ["zero"] {[ 4 := ["zero"] ]}.

(** The steps of a handler thread and of the other threads from the
    moment the handler has made its copy of the ring: the other threads
    run, the handler registers its deque, and then it takes its turns
    among the steps of the others. *)
Definition handler_trace (buf_id : nat) (between : list log_event) (evs : list cast_event)
  : list cast_event :=
  map Outside between ++ Outside (EvRegister buf_id) :: evs.

(** Turns of the reader that each find the process set and a line read. *)
Definition lines_read (reads : list Read) : bool :=
  forallb (fun read => rd_process read && py_truthy_str (rd_output read)) reads.

(** The lines a deque holds after [outputs] were appended to it, stripped. *)
Definition after_lines (outputs : list string) (buf : list string) : list string :=
  Deque.lastn LOGS_MAXLEN (buf ++ map py_strip outputs).

(** A handler on the core of [warm_trace]: a line is read and fanned out
    before the handler has registered its deque, two more afterwards; the
    handler takes its turns in between. *)
Definition handler_between : list log_event := [EvLine "lost"; EvValues].

Definition handler_turns : list cast_event :=
  [Turn true; Outside (EvLine "one"); Outside EvValues; Outside EvAppend; Turn true;
   Turn false; Outside (EvLine "two"); Outside EvValues; Outside EvAppend; Turn true;
   Turn true].

(** Two turns of the reader, each with a line that has white space of
    one, two and three bytes around it. *)
Definition padded_reads : list Read :=
  [mkRead true (no_break_space +:+ "a " +:+ ideographic_space) false;
   mkRead true (ideographic_space +:+ " b" +:+ no_break_space) true].

(** * Properties *)

(** ** The bounded deque *)

Lemma lastn_all (n : nat) (l : list string) :
  length l <= n -> Deque.lastn n l = l.
Proof.
  intros Hle. unfold Deque.lastn.
  replace (length l - n) with 0 by lia. reflexivity.
Qed.

Lemma lastn_length (n : nat) (l : list string) :
  length (Deque.lastn n l) = Nat.min n (length l).
Proof. unfold Deque.lastn. rewrite length_drop. lia. Qed.

Lemma lastn_app_lastn (n : nat) (l k : list string) :
  Deque.lastn n (Deque.lastn n l ++ k) = Deque.lastn n (l ++ k).
Proof.
  destruct (decide (length l <= n)) as [Hle | Hgt].
  - rewrite (lastn_all n l Hle). reflexivity.
  - unfold Deque.lastn at 1 3.
    rewrite !length_app, lastn_length.
    unfold Deque.lastn.
    rewrite <- (drop_app_le l k (length l - n)) by lia.
    rewrite drop_drop. f_equal. lia.
Qed.

Lemma append_lastn (n : nat) (d : list string) (x : string) :
  length d <= n -> Deque.append n d x = Deque.lastn n (d ++ [x]).
Proof.
  intros Hle. unfold Deque.append, Deque.lastn.
  rewrite length_app. simpl.
  destruct (Nat.ltb_spec n (length d + 1)) as [Hlt | Hge].
  - replace (length d + 1 - n) with 1 by lia. reflexivity.
  - replace (length d + 1 - n) with 0 by lia. reflexivity.
Qed.

Lemma append_length (n : nat) (d : list string) (x : string) :
  length d <= n -> length (Deque.append n d x) <= n.
Proof.
  intros Hle. rewrite append_lastn by assumption.
  rewrite lastn_length. lia.
Qed.

Lemma append_not_full (n : nat) (d : list string) (x : string) :
  length d < n -> Deque.append n d x = d ++ [x].
Proof.
  intros Hlt. unfold Deque.append. rewrite length_app. simpl.
  destruct (Nat.ltb_spec n (length d + 1)); [lia | reflexivity].
Qed.

Lemma append_full (n : nat) (d : list string) (x : string) :
  0 < n -> length d = n -> Deque.append n d x = drop 1 d ++ [x].
Proof.
  intros Hpos Heq. unfold Deque.append. rewrite length_app. simpl.
  destruct (Nat.ltb_spec n (length d + 1)); [| lia].
  destruct d as [| y d]; simpl in *.
  - lia.
  - rewrite drop_0. reflexivity.
Qed.

Lemma foldl_append_lastn (n : nat) (xs d : list string) :
  length d <= n -> foldl (Deque.append n) d xs = Deque.lastn n (d ++ xs).
Proof.
  revert d. induction xs as [| x xs IH]; intros d Hle; simpl.
  - rewrite app_nil_r. symmetry. apply lastn_all. assumption.
  - rewrite IH by (apply append_length; assumption).
    rewrite append_lastn by assumption.
    rewrite lastn_app_lastn. rewrite <- app_assoc. reflexivity.
Qed.

Lemma make_lastn (n : nat) (l : list string) : Deque.make n l = Deque.lastn n l.
Proof. unfold Deque.make. rewrite foldl_append_lastn; [reflexivity | simpl; lia]. Qed.

(** ** The body of the reader loop *)

Lemma elem_of_registered_bufs (b : LogBuffers) (i : nat) :
  i ∈ registered_bufs b <-> is_Some (_temp_log_buffers b !! i).
Proof.
  unfold registered_bufs. rewrite list_elem_of_fmap. split.
  - intros [[j buf] [-> Hin]]. apply elem_of_map_to_list in Hin. simpl. eauto.
  - intros [buf Hbuf]. exists (i, buf).
    split; [reflexivity | apply elem_of_map_to_list; exact Hbuf].
Qed.

Lemma foldl_buf_append_ring (output : string) (ids : list nat) (b : LogBuffers) :
  _logs_buffer (foldl (fun b buf_id => buf_append buf_id output b) b ids) = _logs_buffer b.
Proof.
  revert b. induction ids as [| i ids IH]; intros b; simpl; [reflexivity |].
  rewrite IH. reflexivity.
Qed.

Lemma foldl_buf_append_lookup (output : string) (ids : list nat) (b : LogBuffers) (i : nat) :
  NoDup ids ->
  _temp_log_buffers (foldl (fun b buf_id => buf_append buf_id output b) b ids) !! i
  = if bool_decide (i ∈ ids)
    then (fun buf => Deque.append LOGS_MAXLEN buf output) <$> _temp_log_buffers b !! i
    else _temp_log_buffers b !! i.
Proof.
  intros Hnodup. revert b.
  induction Hnodup as [| j ids Hnotin Hnodup IH]; intros b; [reflexivity |].
  cbn [foldl]. rewrite IH. cbn [buf_append _temp_log_buffers].
  destruct (decide (i = j)) as [-> | Hne].
  - rewrite (bool_decide_eq_false_2 (j ∈ ids)) by exact Hnotin.
    rewrite (bool_decide_eq_true_2 (j ∈ j :: ids)) by apply list_elem_of_here.
    apply lookup_alter_eq.
  - rewrite lookup_alter_ne by congruence.
    destruct (decide (i ∈ ids)) as [Hin | Hout].
    + rewrite !bool_decide_eq_true_2;
        [reflexivity | apply list_elem_of_further; exact Hin | exact Hin].
    + rewrite !bool_decide_eq_false_2; [reflexivity | | exact Hout].
      intros Hin. apply elem_of_cons in Hin as [Heq | Hin]; [congruence | tauto].
Qed.

(** Left to itself, the body of the loop appends the stripped line to
    the ring and to every deque of the registry. *)
Lemma capture_line_fmap (output : string) (b : LogBuffers) :
  capture_line output b
  = mkLogBuffers (Deque.append LOGS_MAXLEN (_logs_buffer b) (py_strip output))
      ((fun buf => Deque.append LOGS_MAXLEN buf (py_strip output)) <$> _temp_log_buffers b).
Proof.
  assert (Hring : _logs_buffer (capture_line output b)
                  = Deque.append LOGS_MAXLEN (_logs_buffer b) (py_strip output)).
  { unfold capture_line. rewrite foldl_buf_append_ring. reflexivity. }
  assert (Hreg : _temp_log_buffers (capture_line output b)
                 = (fun buf => Deque.append LOGS_MAXLEN buf (py_strip output))
                     <$> _temp_log_buffers b).
  { apply map_eq. intros i. unfold capture_line.
    rewrite foldl_buf_append_lookup by apply NoDup_fst_map_to_list.
    rewrite lookup_fmap. cbn [ring_append _temp_log_buffers].
    case_bool_decide as Hin; [reflexivity |].
    destruct (_temp_log_buffers b !! i) as [buf |] eqn:Hbuf; [| reflexivity].
    exfalso. apply Hin. apply elem_of_registered_bufs.
    cbn [ring_append _temp_log_buffers]. rewrite Hbuf. eauto. }
  destruct (capture_line output b) as [ring reg]. simpl in Hring, Hreg.
  rewrite Hring, Hreg. reflexivity.
Qed.

(** ** The ring buffer *)

Lemma capture_lines_ring (outputs : list string) (b : LogBuffers) :
  _logs_buffer (capture_lines outputs b)
  = foldl (Deque.append LOGS_MAXLEN) (_logs_buffer b) (map py_strip outputs).
Proof.
  unfold capture_lines. revert b.
  induction outputs as [| o outputs IH]; intros b; cbn [foldl map]; [reflexivity |].
  rewrite IH, capture_line_fmap. reflexivity.
Qed.

(** C4. After more than 100 lines were appended, the ring holds the last
    100 of them in the order of their insertion; and an insertion into a
    ring that holds 100 lines drops the oldest one. *)
Theorem ring_keeps_last_100 (outputs : list string) (b : LogBuffers) :
  length (_logs_buffer b) <= 100 ->
  100 < length outputs ->
  _logs_buffer (capture_lines outputs b) = Deque.lastn 100 (map py_strip outputs)
  /\ length (_logs_buffer (capture_lines outputs b)) = 100
  /\ forall (output : string) (b' : LogBuffers),
       length (_logs_buffer b') = 100 ->
       _logs_buffer (capture_line output b')
       = drop 1 (_logs_buffer b') ++ [py_strip output].
Proof.
  intros Hring Hn.
  assert (Hlast : _logs_buffer (capture_lines outputs b)
                  = Deque.lastn 100 (map py_strip outputs)).
  { rewrite capture_lines_ring. unfold LOGS_MAXLEN.
    rewrite foldl_append_lastn by exact Hring.
    unfold Deque.lastn. rewrite length_app, length_map.
    rewrite drop_app_ge by lia. f_equal. lia. }
  split; [exact Hlast |]. split.
  - rewrite Hlast, lastn_length, length_map. lia.
  - intros output b' Hfull. rewrite capture_line_fmap. cbn [_logs_buffer].
    apply append_full; [unfold LOGS_MAXLEN; lia | exact Hfull].
Qed.

Lemma ring_keeps_last_100_witness :
  (length (_logs_buffer empty_logs) <= 100 /\ 100 < length lines_101)
  /\ _logs_buffer (capture_lines lines_101 empty_logs) = map numbered_line (seq 1 100).
Proof.
  assert (Hring : length (_logs_buffer empty_logs) <= 100) by (simpl; lia).
  assert (Hn : 100 < length lines_101)
    by (unfold lines_101; rewrite length_map, length_seq; lia).
  split; [split; assumption |].
  destruct (ring_keeps_last_100 lines_101 empty_logs Hring Hn) as [H _].
  rewrite H. vm_compute. reflexivity.
Defined.

(** ** Subscribers *)

Section Subscriber.

Variable buf_id : nat.

Lemma tracked_next_id (t : LogTrace) : tracked buf_id t -> next_id t <> buf_id.
Proof.
  intros [_ Hwhere] Heq.
  apply (is_fresh (live_ids t)). fold (next_id t). rewrite Heq.
  unfold live_ids.
  destruct (_temp_log_buffers (lt_buffers t) !! buf_id) as [buf |] eqn:Hreg.
  - apply elem_of_union_l, elem_of_union_l, elem_of_dom. rewrite Hreg. eauto.
  - apply elem_of_union_l, elem_of_union_r, elem_of_dom. apply Hwhere.
Qed.

Lemma count_occ_not_elem_of (bufs : list nat) :
  count_occ Nat.eq_dec bufs buf_id = 0 <-> buf_id ∉ bufs.
Proof. rewrite list_elem_of_In. symmetry. apply count_occ_not_In. Qed.

Lemma count_occ_registered_bufs (b : LogBuffers) :
  count_occ Nat.eq_dec (registered_bufs b) buf_id <= 1.
Proof.
  apply NoDup_count_occ, NoDup_ListNoDup.
  exact (NoDup_fst_map_to_list (_temp_log_buffers b)).
Qed.

Lemma log_step_tracked (t : LogTrace) (e : log_event) :
  tracked buf_id t ->
  stays_subscribed buf_id [e] = true ->
  tracked buf_id (log_step t e).
Proof.
  intros Htracked Hstay. pose proof Htracked as [Hcount Hwhere].
  pose proof (tracked_next_id t Htracked) as Hnext.
  unfold tracked in *.
  destruct e as [output | | | | i | i | i]; cbn [log_step].
  - cbn [lt_buffers lt_reader lt_copies reader_bufs ring_append _temp_log_buffers count_occ].
    split; [lia |].
    destruct (_temp_log_buffers (lt_buffers t) !! buf_id); [exact Hwhere |].
    split; [apply Hwhere | apply not_elem_of_nil].
  - destruct (lt_reader t) as [| output | output bufs] eqn:Hr;
      try (rewrite Hr; split; assumption).
    cbn [lt_buffers lt_reader lt_copies reader_bufs].
    split; [apply count_occ_registered_bufs |].
    destruct (_temp_log_buffers (lt_buffers t) !! buf_id) eqn:Hreg; [exact Hwhere |].
    split; [apply Hwhere |].
    rewrite elem_of_registered_bufs, Hreg. intros [? ?]. discriminate.
  - destruct (lt_reader t) as [| output | output [| j bufs]] eqn:Hr;
      try (rewrite Hr; split; assumption).
    cbn [lt_buffers lt_reader lt_copies reader_bufs buf_append _temp_log_buffers] in *.
    split.
    + destruct (Nat.eq_dec j buf_id) as [-> | Hne].
      * rewrite count_occ_cons_eq in Hcount by reflexivity. lia.
      * rewrite count_occ_cons_neq in Hcount by exact Hne. exact Hcount.
    + destruct (decide (j = buf_id)) as [-> | Hne].
      * rewrite lookup_alter_eq.
        destruct (_temp_log_buffers (lt_buffers t) !! buf_id) eqn:Hreg; [exact Hwhere |].
        exfalso. apply (proj2 Hwhere). apply list_elem_of_here.
      * rewrite lookup_alter_ne by exact Hne.
        destruct (_temp_log_buffers (lt_buffers t) !! buf_id) eqn:Hreg; [exact Hwhere |].
        split; [apply Hwhere |].
        intros Hin. apply (proj2 Hwhere). apply list_elem_of_further. exact Hin.
  - cbn [lt_buffers lt_reader lt_copies].
    split; [exact Hcount |].
    rewrite lookup_insert_ne by exact Hnext. exact Hwhere.
  - destruct (lt_copies t !! i) as [buf |] eqn:Hcopy; [| split; assumption].
    cbn [lt_buffers lt_reader lt_copies get_logs_register _temp_log_buffers].
    split; [exact Hcount |].
    destruct (decide (i = buf_id)) as [-> | Hne].
    + rewrite lookup_insert_eq. apply lookup_delete_eq.
    + rewrite lookup_insert_ne, lookup_delete_ne by exact Hne. exact Hwhere.
  - simpl in Hstay. rewrite andb_true_r in Hstay.
    apply negb_true_iff, Nat.eqb_neq in Hstay.
    cbn [lt_buffers lt_reader lt_copies get_logs_exit _temp_log_buffers].
    split; [exact Hcount |].
    rewrite lookup_delete_ne by exact Hstay. exact Hwhere.
  - unfold consume.
    destruct (_temp_log_buffers (lt_buffers t) !! i) as [[| x buf'] |] eqn:Hi;
      cbn [Deque.popleft lt_buffers lt_reader lt_copies _temp_log_buffers];
      try (split; assumption).
    split; [exact Hcount |].
    destruct (decide (i = buf_id)) as [-> | Hne].
    + rewrite lookup_insert_eq. rewrite Hi in Hwhere. exact Hwhere.
    + rewrite lookup_insert_ne by exact Hne. exact Hwhere.
Qed.

Lemma is_registered_true (t : LogTrace) (buf : list string) :
  _temp_log_buffers (lt_buffers t) !! buf_id = Some buf -> is_registered buf_id t = true.
Proof. intros Hreg. unfold is_registered. rewrite Hreg. apply bool_decide_eq_true_2. eauto. Qed.

Lemma is_registered_false (t : LogTrace) :
  _temp_log_buffers (lt_buffers t) !! buf_id = None -> is_registered buf_id t = false.
Proof.
  intros Hreg. unfold is_registered. rewrite Hreg. apply bool_decide_eq_false_2.
  intros [? ?]. discriminate.
Qed.

(** One step of a trace adds to the view of a subscriber that keeps up,
    and to the line the reader owes it, exactly the line whose fan-out the
    step begins, if the deque is registered by then. *)
Lemma log_step_view (t : LogTrace) (e : log_event) (evs : list log_event) :
  tracked buf_id t ->
  reader_ready (lt_reader t) e = true ->
  stays_subscribed buf_id [e] = true ->
  has_room buf_id t e = true ->
  exists emitted,
    fanned_out buf_id (is_registered buf_id t) (pending (lt_reader t)) (e :: evs)
    = emitted ++ fanned_out buf_id (is_registered buf_id (log_step t e))
                   (pending (lt_reader (log_step t e))) evs
    /\ view buf_id (log_step t e) ++ owed buf_id (log_step t e)
       = (view buf_id t ++ owed buf_id t) ++ emitted.
Proof.
  intros Htracked Hready Hstay Hroom. pose proof Htracked as [Hcount Hwhere].
  pose proof (tracked_next_id t Htracked) as Hnext.
  destruct e as [output | | | | i | i | i].
  - (* a line is read *)
    exists []. split; [reflexivity |].
    rewrite app_nil_r.
    assert (Hnone : owed buf_id t = []).
    { unfold owed. destruct (lt_reader t) as [| o | o [| j bufs]];
        try reflexivity; discriminate Hready. }
    rewrite Hnone. unfold view, held, owed.
    cbn [log_step lt_buffers lt_reader lt_copies lt_taken ring_append _temp_log_buffers].
    rewrite !app_nil_r. reflexivity.
  - (* the fan-out begins *)
    destruct (lt_reader t) as [| output | output bufs] eqn:Hr.
    1, 3: exists []; cbn [log_step fanned_out];
      repeat (rewrite Hr; cbn [pending option_list]);
      split; [destruct (is_registered buf_id t); reflexivity
             | rewrite app_nil_r; reflexivity].
    cbn [log_step fanned_out]. rewrite Hr. cbn [pending lt_reader option_list].
    change (is_registered buf_id (mkLogTrace (lt_buffers t) ?r (lt_copies t) (lt_taken t)))
      with (is_registered buf_id t).
    unfold view, held, owed. rewrite Hr. cbn [lt_buffers lt_reader lt_copies lt_taken].
    destruct (_temp_log_buffers (lt_buffers t) !! buf_id) as [buf |] eqn:Hreg.
    + rewrite (is_registered_true t buf Hreg). exists [output]. split; [reflexivity |].
      rewrite bool_decide_eq_true_2; [rewrite app_nil_r; reflexivity |].
      apply elem_of_registered_bufs. rewrite Hreg. eauto.
    + rewrite (is_registered_false t Hreg). exists []. split; [reflexivity |].
      rewrite bool_decide_eq_false_2; [rewrite !app_nil_r; reflexivity |].
      rewrite elem_of_registered_bufs, Hreg. intros [? ?]. discriminate.
  - (* the reader appends to the next deque *)
    exists [].
    destruct (lt_reader t) as [| output | output [| j bufs]] eqn:Hr.
    1, 2, 3: cbn [log_step fanned_out]; repeat (rewrite Hr; cbn [pending]);
      split; [reflexivity | rewrite app_nil_r; reflexivity].
    cbn [log_step fanned_out]. rewrite Hr. cbn [pending lt_reader]. split.
    { unfold is_registered. cbn [lt_buffers buf_append _temp_log_buffers app].
      f_equal. apply bool_decide_ext. rewrite lookup_alter_is_Some. reflexivity. }
    rewrite app_nil_r.
    unfold view, held, owed. rewrite Hr.
    cbn [lt_buffers lt_reader lt_copies lt_taken buf_append _temp_log_buffers].
    cbn [reader_bufs] in Hcount, Hwhere.
    unfold has_room in Hroom. rewrite Hr in Hroom.
    destruct (decide (j = buf_id)) as [-> | Hne].
    + rewrite Nat.eqb_refl in Hroom. cbn [negb orb] in Hroom.
      apply Nat.ltb_lt in Hroom. unfold held in Hroom.
      rewrite lookup_alter_eq.
      destruct (_temp_log_buffers (lt_buffers t) !! buf_id) as [buf |] eqn:Hreg.
      * cbn [fmap option_fmap option_map].
        rewrite append_not_full by exact Hroom.
        rewrite count_occ_cons_eq in Hcount by reflexivity.
        assert (Hout : buf_id ∉ bufs) by (apply count_occ_not_elem_of; lia).
        rewrite (bool_decide_eq_false_2 _ Hout).
        rewrite (bool_decide_eq_true_2 (buf_id ∈ buf_id :: bufs))
          by apply list_elem_of_here.
        rewrite app_nil_r, app_assoc. reflexivity.
      * exfalso. apply (proj2 Hwhere). apply list_elem_of_here.
    + rewrite lookup_alter_ne by exact Hne.
      f_equal. apply (f_equal (fun c : bool => if c then [output] else [])).
      apply bool_decide_ext. rewrite elem_of_cons. split; [tauto |].
      intros [Heq | Hin]; [congruence | exact Hin].
  - (* another deque is made *)
    exists []. split; [reflexivity |]. rewrite app_nil_r.
    unfold view, held, owed. cbn [log_step lt_buffers lt_reader lt_copies lt_taken].
    rewrite lookup_delete_ne, lookup_insert_ne by exact Hnext. reflexivity.
  - (* a deque is registered *)
    exists []. cbn [fanned_out]. rewrite app_nil_r. cbn [log_step].
    destruct (lt_copies t !! i) as [buf |] eqn:Hcopy.
    + cbn [lt_reader]. unfold view, held, owed.
      cbn [lt_buffers lt_reader lt_copies lt_taken get_logs_register _temp_log_buffers].
      destruct (decide (i = buf_id)) as [-> | Hne].
      * rewrite Nat.eqb_refl, orb_true_r.
        destruct (_temp_log_buffers (lt_buffers t) !! buf_id) as [buf0 |] eqn:Hreg;
          [rewrite Hcopy in Hwhere; discriminate Hwhere |].
        split.
        { cbn [app]. f_equal. symmetry. eapply is_registered_true.
          cbn [lt_buffers get_logs_register _temp_log_buffers].
          apply lookup_insert_eq. }
        rewrite lookup_insert_eq, Hcopy. reflexivity.
      * apply Nat.eqb_neq in Hne as Hneb. rewrite Hneb, orb_false_r.
        apply Nat.eqb_neq in Hneb.
        split.
        { cbn [app]. f_equal. unfold is_registered.
          cbn [lt_buffers get_logs_register _temp_log_buffers].
          rewrite lookup_insert_ne by exact Hne. reflexivity. }
        rewrite lookup_insert_ne, lookup_delete_ne by exact Hne. reflexivity.
    + split; [| reflexivity].
      cbn [app]. f_equal. destruct (decide (i = buf_id)) as [-> | Hne].
      * rewrite Nat.eqb_refl, orb_true_r.
        destruct (_temp_log_buffers (lt_buffers t) !! buf_id) as [buf0 |] eqn:Hreg.
        -- symmetry. eapply is_registered_true. exact Hreg.
        -- destruct Hwhere as [[buf Hbuf] _]. rewrite Hbuf in Hcopy. discriminate.
      * apply Nat.eqb_neq in Hne. rewrite Hne. apply orb_false_r.
  - (* another scope exits *)
    simpl in Hstay. rewrite andb_true_r in Hstay.
    apply negb_true_iff, Nat.eqb_neq in Hstay.
    exists []. rewrite app_nil_r. cbn [fanned_out log_step lt_reader]. split.
    { cbn [app]. f_equal. unfold is_registered. cbn [lt_buffers get_logs_exit _temp_log_buffers].
      rewrite lookup_delete_ne by exact Hstay. reflexivity. }
    unfold view, held, owed.
    cbn [lt_buffers lt_reader lt_copies lt_taken get_logs_exit _temp_log_buffers].
    rewrite lookup_delete_ne by exact Hstay. reflexivity.
  - (* a line is taken *)
    exists []. rewrite app_nil_r. cbn [fanned_out log_step]. unfold consume.
    destruct (_temp_log_buffers (lt_buffers t) !! i) as [[| x buf'] |] eqn:Hi;
      cbn [Deque.popleft]; try (split; reflexivity).
    cbn [lt_reader]. split.
    { cbn [app]. f_equal. unfold is_registered. cbn [lt_buffers _temp_log_buffers].
      apply bool_decide_ext. rewrite lookup_insert_is_Some.
      split; [| intros [<- | [_ H]]; [rewrite Hi; eauto | exact H]].
      intros H. destruct (decide (i = buf_id)); [left | right; split]; assumption. }
    unfold view, held, owed. cbn [lt_buffers lt_reader lt_copies lt_taken _temp_log_buffers].
    destruct (decide (i = buf_id)) as [-> | Hne].
    + rewrite !lookup_insert_eq, Hi. cbn [default from_option id].
      rewrite <- !app_assoc. reflexivity.
    + rewrite !lookup_insert_ne by exact Hne. reflexivity.
Qed.

(** Along a trace: the view of a subscriber that keeps up, with the line
    the reader owes it, grows by the lines whose fan-out begins while its
    deque is registered. *)
Lemma log_run_view (evs : list log_event) (t : LogTrace) :
  tracked buf_id t ->
  in_order t evs = true ->
  stays_subscribed buf_id evs = true ->
  keeps_up buf_id t evs = true ->
  view buf_id (log_run t evs) ++ owed buf_id (log_run t evs)
  = (view buf_id t ++ owed buf_id t)
    ++ fanned_out buf_id (is_registered buf_id t) (pending (lt_reader t)) evs.
Proof.
  revert t. induction evs as [| e evs IH]; intros t Htracked Horder Hstay Hkeep.
  - simpl. rewrite app_nil_r. reflexivity.
  - assert (Hstay1 : stays_subscribed buf_id [e] = true
                     /\ stays_subscribed buf_id evs = true).
    { destruct e; simpl in *; try (split; [reflexivity | assumption]).
      apply andb_true_iff in Hstay as [-> ?]. split; [reflexivity | assumption]. }
    cbn [in_order keeps_up] in Horder, Hkeep.
    apply andb_true_iff in Horder as [Hready Horder].
    apply andb_true_iff in Hkeep as [Hroom Hkeep].
    destruct Hstay1 as [Hs1 Hs2].
    change (log_run t (e :: evs)) with (log_run (log_step t e) evs).
    rewrite IH; [| apply log_step_tracked; assumption | assumption..].
    destruct (log_step_view t e evs Htracked Hready Hs1 Hroom) as [emitted [Hfan Hview]].
    rewrite Hview, Hfan, app_assoc. reflexivity.
Qed.

End Subscriber.

(** The state of a trace when a thread has just made its copy of the
    ring. *)
Lemma copy_tracked (t0 : LogTrace) :
  let buf_id := next_id t0 in
  let t1 := log_step t0 EvCopy in
  tracked buf_id t1
  /\ is_registered buf_id t1 = false
  /\ lt_taken t1 !! buf_id = None
  /\ held buf_id t1 = Deque.lastn 100 (_logs_buffer (lt_buffers t0))
  /\ owed buf_id t1 = [].
Proof.
  intros buf_id t1.
  assert (Hfresh : buf_id ∉ live_ids t0) by (subst buf_id; unfold next_id; apply is_fresh).
  unfold live_ids in Hfresh. rewrite !not_elem_of_union in Hfresh.
  destruct Hfresh as [[Hreg Hcopy] Hlist].
  apply not_elem_of_dom in Hreg.
  rewrite elem_of_list_to_set in Hlist.
  split; [| split; [| split; [| split]]].
  - unfold tracked. subst t1. cbn [log_step lt_buffers lt_reader lt_copies].
    fold buf_id. rewrite Hreg, lookup_insert_eq.
    split; [| split; [eauto | exact Hlist]].
    apply count_occ_not_elem_of in Hlist. rewrite Hlist. lia.
  - apply is_registered_false. exact Hreg.
  - subst t1. cbn [log_step lt_taken]. apply lookup_delete_eq.
  - unfold held. subst t1. cbn [log_step lt_buffers lt_copies]. fold buf_id.
    rewrite Hreg, lookup_insert_eq. cbn [default from_option id].
    unfold get_logs_copy. apply make_lastn.
  - unfold owed. subst t1. cbn [log_step lt_reader].
    destruct (lt_reader t0) as [| output | output bufs]; try reflexivity.
    cbn [reader_bufs] in Hlist. rewrite (bool_decide_eq_false_2 _ Hlist). reflexivity.
Qed.

(** C3, as the code has it. A thread enters [get_logs] and makes its copy
    of the ring. From then on, through every interleaving with the steps
    of the reader and of the other subscribers in which its scope stays
    open and its deque holds fewer than 100 lines whenever the reader
    appends to it, what the subscriber has taken and what waits in its
    deque, with the line the reader is just about to append to it, are the
    copy followed by the lines whose fan-out began after the copy was
    registered, in their order, each once. A line the reader fans out
    between the copy and its registration is not among them; a line that
    was in the ring at the copy and is fanned out after the registration
    is there twice. *)
Theorem subscriber_view_complete (t0 : LogTrace) (evs : list log_event) :
  let buf_id := next_id t0 in
  let t1 := log_step t0 EvCopy in
  in_order t1 evs = true ->
  stays_subscribed buf_id evs = true ->
  keeps_up buf_id t1 evs = true ->
  view buf_id (log_run t1 evs) ++ owed buf_id (log_run t1 evs)
  = Deque.lastn 100 (_logs_buffer (lt_buffers t0))
    ++ fanned_out buf_id false (pending (lt_reader t0)) evs.
Proof.
  intros buf_id t1 Horder Hstay Hkeep.
  destruct (copy_tracked t0) as [Htracked [Hflag [Htaken [Hheld Howed]]]].
  fold buf_id t1 in Htracked, Hflag, Htaken, Hheld, Howed.
  rewrite (log_run_view buf_id evs t1 Htracked Horder Hstay Hkeep).
  rewrite Hflag, Howed. unfold view. rewrite Htaken, Hheld, app_nil_r. reflexivity.
Qed.

Lemma subscriber_view_complete_witness :
  (in_order (log_step warm_trace EvCopy) busy_trace = true
   /\ stays_subscribed 0 busy_trace = true
   /\ keeps_up 0 (log_step warm_trace EvCopy) busy_trace = true)
  /\ _logs_buffer (lt_buffers warm_trace) = ["zero"]
  /\ view 0 (log_run (log_step warm_trace EvCopy) busy_trace)
     = ["zero"; "one"; "two"; "three"].
Proof.
  assert (Horder : in_order (log_step warm_trace EvCopy) busy_trace = true)
    by (vm_compute; reflexivity).
  assert (Hstay : stays_subscribed (next_id warm_trace) busy_trace = true)
    by (vm_compute; reflexivity).
  assert (Hkeep : keeps_up (next_id warm_trace) (log_step warm_trace EvCopy) busy_trace = true)
    by (vm_compute; reflexivity).
  split; [split; [exact Horder | split; [exact Hstay | exact Hkeep]] |].
  split; [reflexivity |].
  pose proof (subscriber_view_complete warm_trace busy_trace Horder Hstay Hkeep) as Hview.
  assert (Howed : owed (next_id warm_trace) (log_run (log_step warm_trace EvCopy) busy_trace)
                  = []) by (vm_compute; reflexivity).
  rewrite Howed, app_nil_r in Hview.
  change (next_id warm_trace) with 0 in Hview. rewrite Hview.
  vm_compute. reflexivity.
Defined.

(** C3, as it is stated, fails in three ways. A subscriber that takes
    nothing while 101 lines are read has lost the first of them, its deque
    holding 100 lines at most. A line that the reader appends to the ring
    and fans out between the copy and its registration never reaches the
    subscriber, who has nothing unread: whether the time of the
    subscription is that of the copy or that of the registration, a line
    appended since is missing from the view. And a line that is in the
    ring when the copy is made, and whose fan-out begins after the
    registration, is in the view twice. *)
Lemma subscriber_view_departs :
  (let evs := EvRegister 0 :: flat_map line_steps lines_101 in
   let t := log_run (log_step new_trace EvCopy) evs in
   in_order (log_step new_trace EvCopy) evs = true
   /\ stays_subscribed 0 evs = true
   /\ owed 0 t = []
   /\ appended evs = map numbered_line (seq 0 101)
   /\ view 0 t = map numbered_line (seq 1 100)
   /\ view 0 t <> _logs_buffer (lt_buffers new_trace) ++ appended evs)
  /\ (let between := [EvLine "lost"; EvValues] in
      let evs := [EvRegister 0; EvLine "kept"; EvValues; EvAppend] in
      let t1 := log_run (log_step new_trace EvCopy) between in
      let t := log_run t1 evs in
      in_order (log_step new_trace EvCopy) (between ++ evs) = true
      /\ keeps_up 0 (log_step new_trace EvCopy) (between ++ evs) = true
      /\ owed 0 t = []
      /\ view 0 t = ["kept"]
      /\ _logs_buffer (lt_buffers new_trace) ++ appended (between ++ evs) = ["lost"; "kept"]
      /\ _logs_buffer (lt_buffers t1) ++ appended evs = ["lost"; "kept"])
  /\ (let t0 := log_run new_trace [EvLine "twice"] in
      let evs := [EvRegister 0; EvValues; EvAppend] in
      let t := log_run (log_step t0 EvCopy) evs in
      in_order new_trace (EvLine "twice" :: EvCopy :: evs) = true
      /\ keeps_up 0 (log_step t0 EvCopy) evs = true
      /\ owed 0 t = []
      /\ view 0 t = ["twice"; "twice"]
      /\ _logs_buffer (lt_buffers t0) ++ appended evs = ["twice"]).
Proof.
  split; [| split].
  - vm_compute. repeat split. intros H. discriminate H.
  - vm_compute. repeat split.
  - vm_compute. repeat split.
Qed.

(** ** The inbound filter of SingBoxConfig *)

Lemma key_is_eq (key : string) (k : pykey) : key_is key k = true -> k = KStr key.
Proof.
  destruct k; simpl; try discriminate.
  intros H. apply String.eqb_eq in H. subst. reflexivity.
Qed.

(** On a key that is a str, [dict_store] is [dict_set]. *)
Lemma dict_store_str (key : string) (v : json) (d : dict) :
  dict_store (KStr key) v d = dict_set key v d.
Proof.
  induction d as [| [k v0] d IH]; simpl; [reflexivity |].
  rewrite IH. destruct k; reflexivity.
Qed.

Lemma dict_lookup_set_eq (key : string) (v : json) (d : dict) :
  dict_lookup key (dict_set key v d) = Some v.
Proof.
  induction d as [| [k v0] d IH]; simpl.
  - rewrite String.eqb_refl. reflexivity.
  - destruct (key_is key k) eqn:Hk; simpl; rewrite Hk; [reflexivity | exact IH].
Qed.

Lemma dict_lookup_set_ne (key key' : string) (v : json) (d : dict) :
  key <> key' -> dict_lookup key' (dict_set key v d) = dict_lookup key' d.
Proof.
  intros Hne. induction d as [| [k v0] d IH]; simpl.
  - apply String.eqb_neq in Hne. rewrite Hne. reflexivity.
  - destruct (key_is key k) eqn:Hk; simpl.
    + apply key_is_eq in Hk. subst k. simpl.
      apply String.eqb_neq in Hne. rewrite Hne. reflexivity.
    + rewrite IH. reflexivity.
Qed.

Lemma tag_allowed_entry (tags : list string) (entry : dict) :
  tag_allowed (Some tags) (dict_get "tag" JNull entry) = entry_allowed tags entry.
Proof.
  unfold tag_allowed, entry_allowed, dict_get.
  destruct (dict_lookup "tag" entry) as [[] |]; simpl; try reflexivity.
  apply eq_true_iff_eq. rewrite existsb_exists, bool_decide_eq_true.
  split.
  - intros [x [Hin Heq]]. apply String.eqb_eq in Heq. subst x.
    apply list_elem_of_In. exact Hin.
  - intros Hin. exists s. split; [apply list_elem_of_In; exact Hin | apply String.eqb_refl].
Qed.

Lemma filter_loop_objects (tags : list string) (entries : list dict) (acc : list json) :
  filter_loop (Some tags) (map JObj entries) acc
  = Ok (acc ++ map JObj (List.filter (entry_allowed tags) entries)).
Proof.
  revert acc. induction entries as [| e entries IH]; intros acc.
  - simpl. rewrite app_nil_r. reflexivity.
  - cbn [map filter_loop py_get result_bind].
    rewrite tag_allowed_entry, IH. cbn [List.filter].
    destruct (entry_allowed tags e); [| reflexivity].
    rewrite <- app_assoc. reflexivity.
Qed.

(** Whatever the items are, the loop keeps objects with an allowed tag only. *)
Lemma filter_loop_kept (tags : list string) (items acc out : list json) :
  filter_loop (Some tags) items acc = Ok out ->
  forall x, x ∈ out ->
    x ∈ acc \/ exists entry, x = JObj entry /\ entry_allowed tags entry = true.
Proof.
  revert acc. induction items as [| item items IH]; intros acc Hloop x Hx.
  - simpl in Hloop. injection Hloop as <-. left. exact Hx.
  - cbn [filter_loop] in Hloop.
    destruct item as [| | | | | | entry]; simpl in Hloop; try discriminate Hloop.
    rewrite tag_allowed_entry in Hloop.
    destruct (IH _ Hloop x Hx) as [Hacc | Hnew]; [| right; exact Hnew].
    destruct (entry_allowed tags entry) eqn:Hallowed; [| left; exact Hacc].
    apply elem_of_app in Hacc as [Hacc | Hlast]; [left; exact Hacc |].
    apply list_elem_of_singleton in Hlast. subst x.
    right. exists entry. split; [reflexivity | exact Hallowed].
Qed.

Lemma apply_filters_inbounds_aux (tag : string) (tags : list string) (self : dict)
    (entries : list dict) :
  dict_lookup "inbounds" self = Some (JArr (map JObj entries)) ->
  _apply_filters (Some (tag :: tags)) self
  = Ok (dict_set "inbounds"
          (JArr (map JObj (List.filter (entry_allowed (tag :: tags)) entries))) self).
Proof.
  intros Hin. unfold _apply_filters, dict_get. rewrite Hin.
  cbn [no_inbound_filter default from_option id py_iter result_bind].
  rewrite filter_loop_objects. reflexivity.
Qed.

(** C5. With an allow list that is not empty, the inbounds of a document,
    a list of objects, become the entries whose tag is in the list, in
    their order, the other keys staying as they are; with an empty or
    absent allow list every document is left as it is. *)
Theorem apply_filters_inbounds (allow : option (list string)) (self : dict) :
  match allow with
  | Some (tag :: tags) =>
      forall entries : list dict,
        dict_lookup "inbounds" self = Some (JArr (map JObj entries)) ->
        exists self',
          _apply_filters allow self = Ok self'
          /\ dict_lookup "inbounds" self'
             = Some (JArr (map JObj (List.filter (entry_allowed (tag :: tags)) entries)))
          /\ forall key, key <> "inbounds" -> dict_lookup key self' = dict_lookup key self
  | Some [] | None => _apply_filters allow self = Ok self
  end.
Proof.
  destruct allow as [[| tag tags] |]; try reflexivity.
  intros entries Hin.
  eexists. split; [apply apply_filters_inbounds_aux; exact Hin |]. split.
  - apply dict_lookup_set_eq.
  - intros key Hkey. apply dict_lookup_set_ne. congruence.
Qed.

Lemma apply_filters_inbounds_witness :
  dict_lookup "inbounds" abcd_document
  = Some (JArr (map JObj [inbound "a"; inbound "b"; inbound "c"; inbound "d"]))
  /\ exists self',
       _apply_filters (Some ["a"; "c"]) abcd_document = Ok self'
       /\ dict_lookup "inbounds" self' = Some (JArr (map JObj [inbound "a"; inbound "c"]))
       /\ forall key, key <> "inbounds" ->
            dict_lookup key self' = dict_lookup key abcd_document.
Proof.
  split; [reflexivity |].
  exact (apply_filters_inbounds (Some ["a"; "c"]) abcd_document
           [inbound "a"; inbound "b"; inbound "c"; inbound "d"] eq_refl).
Defined.

(** C9. With an allow list that is not empty the filter always sets the
    key: a document without inbounds gets the empty list, and in every
    document the filter accepts, what is left under the key are entries
    with a tag of the allow list, so that an entry without a tag is gone. *)
Theorem apply_filters_sets_inbounds (tags : list string) (self : dict) :
  tags <> [] ->
  (dict_lookup "inbounds" self = None ->
   _apply_filters (Some tags) self = Ok (self ++ [("inbounds", JArr [])])
   /\ dict_lookup "inbounds" (self ++ [("inbounds", JArr [])]) = Some (JArr []))
  /\ (forall self',
        _apply_filters (Some tags) self = Ok self' ->
        exists kept,
          dict_lookup "inbounds" self' = Some (JArr kept)
          /\ forall x, x ∈ kept ->
               exists entry, x = JObj entry /\ entry_allowed tags entry = true)
  /\ (forall entries,
        dict_lookup "inbounds" self = Some (JArr (map JObj entries)) ->
        exists self' kept,
          _apply_filters (Some tags) self = Ok self'
          /\ dict_lookup "inbounds" self' = Some (JArr kept)
          /\ forall entry, dict_lookup "tag" entry = None -> JObj entry ∉ kept).
Proof.
  intros Hne. destruct tags as [| tag tags]; [congruence |].
  assert (Hset : forall d key v, dict_lookup key d = None -> dict_set key v d = d ++ [(key, v)]).
  { induction d as [| [k v0] d IH]; intros key v Hnone; simpl in *; [reflexivity |].
    destruct (key_is key k); [discriminate | rewrite IH by exact Hnone; reflexivity]. }
  split; [| split].
  - intros Hnone. unfold _apply_filters, dict_get. rewrite Hnone. simpl.
    rewrite Hset by exact Hnone. split; [reflexivity |].
    rewrite <- (Hset self "inbounds" (JArr []) Hnone). apply dict_lookup_set_eq.
  - intros self' Hok. unfold _apply_filters in Hok.
    cbn [no_inbound_filter] in Hok.
    destruct (py_iter (dict_get "inbounds" (JArr []) self)) as [items | e];
      [| discriminate Hok].
    cbn [result_bind] in Hok.
    destruct (filter_loop (Some (tag :: tags)) items []) as [kept | e] eqn:Hloop;
      [| discriminate Hok].
    cbn [result_bind] in Hok. injection Hok as <-.
    exists kept. split; [apply dict_lookup_set_eq |].
    intros x Hx. destruct (filter_loop_kept _ _ _ _ Hloop x Hx) as [Hnil | Hentry].
    + apply elem_of_nil in Hnil. contradiction.
    + exact Hentry.
  - intros entries Hin.
    eexists. eexists. split; [apply apply_filters_inbounds_aux; exact Hin |].
    split; [apply dict_lookup_set_eq |].
    intros entry Hnotag Hmem.
    apply list_elem_of_fmap in Hmem as [entry' [Heq Hmem]].
    injection Heq as <-.
    apply list_elem_of_In, filter_In in Hmem as [_ Hallowed].
    unfold entry_allowed in Hallowed. rewrite Hnotag in Hallowed. discriminate.
Qed.

Lemma apply_filters_sets_inbounds_witness :
  ["a"] <> []
  /\ _apply_filters (Some ["a"]) [("log", JObj [])]
     = Ok [("log", JObj []); ("inbounds", JArr [])]
  /\ _apply_filters (Some ["a"]) untagged_document
     = Ok [("inbounds", JArr [JObj (inbound "a")])].
Proof.
  assert (Hne : ["a"] <> []) by discriminate.
  split; [exact Hne |]. split.
  - exact (proj1 (proj1 (apply_filters_sets_inbounds ["a"] [("log", JObj [])] Hne) eq_refl)).
  - reflexivity.
Defined.


(** ** The core: restart *)

Lemma blind_ret {A} f (a : A) : blind_to f (ret a).
Proof. intros w c. reflexivity. Qed.

Lemma blind_raise {A} f (e : exn) : blind_to f (raise (A := A) e).
Proof. intros w c. reflexivity. Qed.

Lemma blind_lift_result {A} f (r : result A) : blind_to f (lift_result r).
Proof. intros w c. reflexivity. Qed.

Lemma blind_bind {A B} f (m : CoreM A) (k : A -> CoreM B) :
  blind_to f m -> (forall a, blind_to f (k a)) -> blind_to f (bind m k).
Proof.
  intros Hm Hk w c. unfold bind. rewrite Hm.
  destruct (m (w, c)) as [[a | e] [w' c']]; [apply Hk | reflexivity].
Qed.

Lemma blind_in_world {A} f (g : World -> result A * World) : blind_to f (in_world g).
Proof. intros w c. unfold in_world. simpl. destruct (g w). reflexivity. Qed.

Lemma blind_on_world f (g : World -> World) : blind_to f (on_world g).
Proof. intros w c. reflexivity. Qed.

Lemma blind_on_self f (g : SingBoxCore -> SingBoxCore) :
  (forall c, g (f c) = f (g c)) -> blind_to f (on_self g).
Proof. intros Hgf w c. unfold on_self, modify. simpl. rewrite Hgf. reflexivity. Qed.

Lemma blind_gets {A} f (g : World * SingBoxCore -> A) :
  (forall w c, g (w, f c) = g (w, c)) -> blind_to f (gets g).
Proof. intros Hg w c. unfold gets. rewrite Hg. reflexivity. Qed.

Lemma blind_for_each {X} f (xs : list X) (body : X -> CoreM unit) :
  (forall x, blind_to f (body x)) -> blind_to f (for_each xs body).
Proof.
  intros Hbody. induction xs as [| x xs IH]; simpl.
  - apply blind_ret.
  - apply blind_bind; [apply Hbody | intros _; exact IH].
Qed.

Create HintDb blind.
#[local] Hint Resolve blind_ret blind_raise blind_lift_result blind_in_world
  blind_on_world : blind.

(** [stop] and [start] neither read nor write the [restarting] flag. *)
Lemma stop_blind_to_restarting (b : bool) : blind_to (set_restarting b) stop.
Proof.
  intros w c. unfold stop.
  change (started (fst (w, set_restarting b c)) (snd (w, set_restarting b c)))
    with (started w c).
  change (process (snd (w, set_restarting b c))) with (process c).
  cbn [fst snd].
  destruct (started w c); cbn [negb]; [| reflexivity].
  destruct (process c) as [pid |]; [| reflexivity].
  revert w c. change (blind_to (set_restarting b) ?m) with (blind_to (set_restarting b) m).
  apply (blind_bind (set_restarting b)); [auto with blind | intros _].
  apply blind_bind; [apply blind_gets; reflexivity | intros exited].
  apply blind_bind; [destruct exited; auto with blind | intros _].
  apply blind_bind; [apply blind_on_self; reflexivity | intros _].
  apply blind_bind; [apply blind_gets; reflexivity | intros funcs].
  apply blind_for_each. auto with blind.
Qed.

Lemma start_blind_to_restarting json_dumps config (b : bool) :
  blind_to (set_restarting b) (start json_dumps config).
Proof.
  intros w c. unfold start.
  change (started (fst (w, set_restarting b c)) (snd (w, set_restarting b c)))
    with (started w c).
  cbn [fst snd].
  destruct (started w c); [reflexivity |].
  revert w c.
  apply (blind_bind (set_restarting b)); [auto with blind | intros items].
  apply blind_bind; [apply blind_gets; reflexivity | intros cmd].
  apply blind_bind; [apply blind_gets; reflexivity | intros cwd].
  apply blind_bind; [auto with blind | intros pid].
  apply blind_bind; [apply blind_on_self; reflexivity | intros _].
  apply blind_bind; [auto with blind | intros _].
  apply blind_bind; [unfold __capture_process_logs; auto with blind | intros _].
  apply blind_bind; [apply blind_gets; reflexivity | intros funcs].
  apply blind_for_each. auto with blind.
Qed.

Lemma set_restarting_same (c : SingBoxCore) : set_restarting (restarting c) c = c.
Proof. destruct c. reflexivity. Qed.

(** C8. A restart that finds the guard set does nothing. Otherwise it
    does what [stop] followed by [start] does, with the same result, be
    it an exception, and the guard is clear once it has returned. *)
Theorem restart_guard (json_dumps : dict -> string) (config : SingBoxConfig)
    (w : World) (self : SingBoxCore) :
  (restarting self = true ->
   restart json_dumps config (w, self) = (Ok tt, (w, self)))
  /\ (restarting self = false ->
      restart json_dumps config (w, self) = (stop ;;; start json_dumps config) (w, self)
      /\ restarting (snd (snd (restart json_dumps config (w, self)))) = false).
Proof.
  assert (Hblind : forall b, blind_to (set_restarting b) (stop ;;; start json_dumps config)).
  { intros b. apply blind_bind; [apply stop_blind_to_restarting |].
    intros _. apply start_blind_to_restarting. }
  split; intros Hflag.
  { unfold restart. cbn [fst snd]. rewrite Hflag. reflexivity. }
  pose proof (Hblind false w self) as Hfalse.
  rewrite <- Hflag in Hfalse at 1. rewrite set_restarting_same in Hfalse.
  assert (Heq : restart json_dumps config (w, self)
                = (stop ;;; start json_dumps config) (w, self)).
  { unfold restart. cbn [fst snd]. rewrite Hflag.
    unfold bind at 1, on_self at 1, modify at 1, try_finally, on_self, modify.
    cbn [fst snd]. rewrite Hblind.
    destruct ((stop ;;; start json_dumps config) (w, self)) as [r [w' self']].
    cbn [fst snd]. injection Hfalse as Hself'.
    rewrite Hself' at 2. reflexivity. }
  split; [exact Heq |]. rewrite Heq.
  destruct ((stop ;;; start json_dumps config) (w, self)) as [r [w' self']].
  injection Hfalse as Hself'. cbn [fst snd]. rewrite Hself'. reflexivity.
Qed.

Lemma restart_guard_witness :
  let self := bare_core in
  restarting self = false
  /\ restart sample_dumps empty_config (bare_world, self)
     = (Raise FileNotFoundError, (bare_world, self))
  /\ restarting (snd (snd (restart sample_dumps empty_config (bare_world, self)))) = false
  /\ restart sample_dumps empty_config (sample_world, set_restarting true self)
     = (Ok tt, (sample_world, set_restarting true self)).
Proof.
  intros self.
  assert (Hflag : restarting self = false) by reflexivity.
  destruct (restart_guard sample_dumps empty_config bare_world self) as [_ Hrun].
  destruct (Hrun Hflag) as [Heq Hclear].
  split; [exact Hflag |]. split; [rewrite Heq; reflexivity |]. split; [exact Hclear |].
  exact (proj1 (restart_guard sample_dumps empty_config sample_world
                  (set_restarting true self)) eq_refl).
Defined.

(** ** The core: what [stop] and [start] do to the world *)

Lemma start_threads_nil (w : World) : start_threads [] w = w.
Proof.
  destruct w. unfold start_threads. simpl.
  rewrite Nat.sub_0_r, app_nil_r. reflexivity.
Qed.

Lemma for_each_hooks {S} (funcs : list Hook) (w : World) (s : S) :
  for_each funcs (fun func => in_world (thread_start (ThHook func))) (w, s)
  = (hooks_outcome funcs w,
     (start_threads (map ThHook (take (w_thread_budget w) funcs)) w, s)).
Proof.
  revert w. induction funcs as [| func funcs IH]; intros w.
  - simpl. rewrite take_nil. simpl. rewrite start_threads_nil. reflexivity.
  - cbn [for_each]. unfold bind, in_world, thread_start. cbn [fst snd].
    destruct (w_thread_budget w) as [| n] eqn:Hbudget.
    + unfold hooks_outcome. rewrite Hbudget. simpl.
      rewrite start_threads_nil. reflexivity.
    + rewrite IH. unfold hooks_outcome, start_threads. simpl.
      rewrite Hbudget. simpl. rewrite <- app_assoc. reflexivity.
Qed.

Lemma poll_running (w : World) (pid : nat) :
  poll w pid = None ->
  exists p, w_procs w !! pid = Some p /\ p_returncode p = None.
Proof.
  unfold poll. destruct (w_procs w !! pid) as [p |]; [| discriminate].
  intros Hrc. exists p. split; [reflexivity | exact Hrc].
Qed.

Lemma poll_signalled (w : World) (pid : nat) :
  poll w pid = None ->
  poll (signalled pid w) pid
  = Some (if bool_decide (pid ∈ w_stubborn w) then -9 else -15)%Z.
Proof.
  intros Hpoll. destruct (poll_running w pid Hpoll) as [p [Hp Hrc]].
  unfold poll, signalled. simpl.
  rewrite list_lookup_alter_eq, Hp. simpl.
  unfold end_process. rewrite Hrc. reflexivity.
Qed.

Lemma stop_running (w : World) (self : SingBoxCore) (pid : nat) :
  process self = Some pid ->
  poll w pid = None ->
  stop (w, self)
  = (hooks_outcome (_on_stop_funcs self) w,
     (start_threads (map ThHook (take (w_thread_budget w) (_on_stop_funcs self)))
        (signalled pid w),
      set_process None self)).
Proof.
  intros Hproc Hpoll.
  pose proof (poll_signalled w pid Hpoll) as Hafter.
  unfold stop, started. cbn [fst snd]. rewrite Hproc, Hpoll. cbn [negb].
  unfold bind, on_world, on_self, modify, gets, wait. cbn [fst snd].
  unfold signalled in *. unfold terminate, kill.
  destruct (bool_decide (pid ∈ w_stubborn w)).
  - rewrite Hpoll. unfold ret. cbn [fst snd].
    rewrite for_each_hooks. reflexivity.
  - rewrite Hafter. unfold ret. cbn [fst snd].
    rewrite for_each_hooks. reflexivity.
Qed.

Lemma stop_not_started (w : World) (self : SingBoxCore) :
  started w self = false -> stop (w, self) = (Ok tt, (w, self)).
Proof. intros Hstopped. unfold stop. cbn [fst snd]. rewrite Hstopped. reflexivity. Qed.

(** What [Popen] and the writing of the configuration do when the
    executable and the working directory are in order. *)
Lemma launch_and_feed (w : World) (executable_path cwd text : string) :
  can_launch w executable_path cwd ->
  exists w1,
    Popen [executable_path; "run"; "-c"; "stdin"] cwd w = (Ok (length (w_procs w)), w1)
    /\ feed_stdin (length (w_procs w)) text w1
       = (Ok tt, w_with_procs w (w_procs w ++ [fed_process executable_path cwd text])).
Proof.
  intros [[x [Hat [Hlaunch Hreads]]] Hdir].
  unfold Popen. rewrite Hdir, Hat, Hlaunch, Hreads. cbn [negb].
  eexists. split; [reflexivity |].
  unfold feed_stdin. cbn [w_procs w_with_procs].
  rewrite list_lookup_middle by reflexivity.
  cbn [p_reads_stdin p_returncode p_cmd p_cwd p_stdin p_stdout].
  unfold w_with_procs. cbn [w_procs w_installed w_dirs w_stubborn w_thread_budget w_threads w_conns].
  rewrite insert_app_r_alt by lia.
  rewrite Nat.sub_diag. reflexivity.
Qed.

Lemma start_not_started json_dumps (config : SingBoxConfig) (items : dict) (w : World)
    (self : SingBoxCore) :
  started w self = false ->
  normalize_log_level (cfg_items config) = Ok items ->
  can_launch w (executable_path self) (working_dir self) ->
  S (length (_on_start_funcs self)) <= w_thread_budget w ->
  start json_dumps config (w, self)
  = (Ok tt,
     (start_threads (ThCapture (length (w_procs w)) :: map ThHook (_on_start_funcs self))
        (launched json_dumps self items w),
      set_process (Some (length (w_procs w))) self)).
Proof.
  intros Hstopped Hitems Hcan Hbudget.
  destruct (launch_and_feed w (executable_path self) (working_dir self)
              (json_dumps items) Hcan) as [w1 [Hpopen Hfeed]].
  unfold start. cbn [fst snd]. rewrite Hstopped, Hitems.
  unfold bind, lift_result, gets, on_self, modify,
    __capture_process_logs. cbn [fst snd].
  unfold in_world at 1. cbn [fst snd]. rewrite Hpopen. cbn [fst snd].
  unfold in_world at 1. cbn [fst snd].
  change (to_json json_dumps (cfg_with_items config items)) with (json_dumps items).
  rewrite Hfeed. cbn [fst snd].
  unfold in_world at 1, thread_start at 1.
  cbn [fst snd w_thread_budget w_with_procs].
  destruct (w_thread_budget w) as [| n] eqn:Hn; [lia |].
  cbn [fst snd]. rewrite for_each_hooks.
  unfold hooks_outcome. cbn [w_thread_budget set_process _on_start_funcs].
  destruct (Nat.leb_spec (length (_on_start_funcs self)) n) as [Hle | Hgt]; [| lia].
  rewrite take_ge by exact Hle.
  unfold start_threads, launched, w_with_procs.
  simpl. rewrite Hn. simpl. rewrite <- app_assoc. reflexivity.
Qed.

(** ** The configuration handed to the process *)

(** The test [level == 'silent'] of [start], as a case analysis on the
    level. *)
Lemma normalize_log_level_level (config : dict) (log : dict) :
  dict_lookup "log" config = Some (JObj log) ->
  normalize_log_level config
  = Ok (match dict_lookup "level" log with
        | Some (JStr s) =>
            if String.eqb s "silent"
            then dict_set "log" (JObj (dict_set "level" (JStr "warn") log)) config
            else config
        | _ => config
        end).
Proof.
  intros Hlog. unfold normalize_log_level, dict_get. rewrite Hlog.
  cbn [default from_option id py_get result_bind].
  unfold dict_get. destruct (dict_lookup "level" log) as [level |]; [| reflexivity].
  cbn [default from_option id].
  destruct level as [| | | | s | |]; try reflexivity.
  destruct (String.eqb_spec s "silent") as [-> | Hne]; [reflexivity |].
  repeat (destruct s as [| [[] [] [] [] [] [] [] []] s]; try reflexivity).
  congruence.
Qed.

Lemma filter_loop_items (tags : list string) (items acc : list json) :
  forallb json_object items = true ->
  filter_loop (Some tags) items acc = Ok (acc ++ List.filter (item_allowed tags) items).
Proof.
  revert acc. induction items as [| item items IH]; intros acc Hall.
  - simpl. rewrite app_nil_r. reflexivity.
  - simpl in Hall. apply andb_true_iff in Hall as [Hitem Hall].
    destruct item as [| | | | | | entry]; try discriminate Hitem.
    cbn [filter_loop py_get result_bind List.filter item_allowed].
    rewrite tag_allowed_entry, IH by exact Hall.
    destruct (entry_allowed tags entry); [| reflexivity].
    rewrite <- app_assoc. reflexivity.
Qed.

(** On a document of the format the node consumes, the construction of
    the configuration followed by the adjustment of the log level in
    [start] is the transform of the specification. *)
Lemma config_transformed (cert key : string) (allow : option (list string))
    (loads : string -> option json) (raw : string) (peer : option string)
    (document : dict) :
  loads raw = Some (JObj document) ->
  well_formed document = true ->
  exists config,
    SingBoxConfig_init cert key allow loads (ArgStr raw) peer = Ok config
    /\ normalize_log_level (cfg_items config) = Ok (transformed allow document).
Proof.
  intros Hraw Hformed. unfold well_formed in Hformed.
  apply andb_true_iff in Hformed as [Hinbounds Hlog].
  assert (Hnormal : forall filtered : dict,
            dict_lookup "log" filtered = dict_lookup "log" document ->
            normalize_log_level filtered
            = Ok match dict_lookup "log" filtered with
                 | Some (JObj log) =>
                     match dict_lookup "level" log with
                     | Some (JStr level) =>
                         if String.eqb level "silent"
                         then dict_set "log" (JObj (dict_set "level" (JStr "warn") log))
                                filtered
                         else filtered
                     | _ => filtered
                     end
                 | _ => filtered
                 end).
  { intros filtered Hsame.
    destruct (dict_lookup "log" filtered) as [v |] eqn:Hv.
    - rewrite <- Hsame in Hlog. destruct v; try discriminate Hlog.
      apply normalize_log_level_level. exact Hv.
    - unfold normalize_log_level, dict_get. rewrite Hv. reflexivity. }
  unfold SingBoxConfig_init. rewrite Hraw. cbn [dict_init result_bind].
  unfold transformed, _apply_filters.
  destruct allow as [[| tag tags] |]; cbn [no_inbound_filter result_bind].
  - eexists. split; [reflexivity |]. apply Hnormal. reflexivity.
  - unfold dict_get.
    destruct (dict_lookup "inbounds" document) as [v |] eqn:Hv.
    + destruct v as [| | | | | items |]; try discriminate Hinbounds.
      cbn [default from_option id py_iter result_bind].
      rewrite filter_loop_items by exact Hinbounds. cbn [app result_bind].
      eexists. split; [reflexivity |]. cbn [cfg_items]. apply Hnormal.
      apply dict_lookup_set_ne. discriminate.
    + cbn [default from_option id py_iter result_bind filter_loop List.filter].
      eexists. split; [reflexivity |]. cbn [cfg_items]. apply Hnormal.
      apply dict_lookup_set_ne. discriminate.
  - eexists. split; [reflexivity |]. apply Hnormal. reflexivity.
Qed.

(** ** The service: starting a core *)

Section StartCore.

Context {XRayCore XRayConfig : Type}.
Variable xray : XrayModule XRayCore XRayConfig.
Variable XRAY_ASSETS_PATH : string.
Variable XRAY_EXECUTABLE_PATH : string.
Variable SINGBOX_ENABLED : bool.
Variable SINGBOX_EXECUTABLE_PATH : string.
Variable SINGBOX_WORKING_DIR : string.
Variable SSL_CERT_FILE : string.
Variable SSL_KEY_FILE : string.
Variable SINGBOX_INBOUNDS : option (list string).
Variable json_loads : string -> option json.
Variable json_dumps : dict -> string.

Local Abbreviation the_singbox_start :=
  (singbox_start (XRayCore := XRayCore) SINGBOX_ENABLED SINGBOX_EXECUTABLE_PATH
     SINGBOX_WORKING_DIR SSL_CERT_FILE SSL_KEY_FILE SINGBOX_INBOUNDS json_loads json_dumps).

Local Abbreviation the_config_init :=
  (SingBoxConfig_init SSL_CERT_FILE SSL_KEY_FILE SINGBOX_INBOUNDS json_loads).

Local Abbreviation the_start := (svc_start xray XRAY_ASSETS_PATH XRAY_EXECUTABLE_PATH).

Lemma singbox_stop_running (w : World) (svc : XrayService XRayCore) (c : SingBoxCore)
    (pid : nat) :
  singbox_core svc = Some c ->
  process c = Some pid ->
  poll w pid = None ->
  singbox_stop (w, svc) = (Ok tt, (stopped_world pid c w, set_singbox_core None svc)).
Proof.
  intros Hcore Hproc Hpoll.
  unfold singbox_stop, bind. cbn [fst snd]. rewrite Hcore.
  unfold try_except, on_singbox_core. cbn [fst snd]. rewrite Hcore.
  rewrite (stop_running w c pid Hproc Hpoll).
  unfold hooks_outcome.
  destruct (length (_on_stop_funcs c) <=? w_thread_budget w)%nat; reflexivity.
Qed.

(** The first thing [singbox_start] does on a service that has a core
    is to stop it. *)
Lemma singbox_start_stops_first (w : World) (svc : XrayService XRayCore) (c : SingBoxCore)
    (pid : nat) (config : config_arg SingBoxConfig) :
  SINGBOX_ENABLED = true ->
  singbox_core svc = Some c ->
  process c = Some pid ->
  poll w pid = None ->
  the_singbox_start config (w, svc)
  = the_singbox_start config (stopped_world pid c w, set_singbox_core None svc).
Proof.
  intros Henabled Hcore Hproc Hpoll.
  unfold singbox_start. rewrite Henabled. cbn [negb].
  unfold bind at 1. cbn [fst snd]. rewrite Hcore.
  rewrite (singbox_stop_running w svc c pid Hcore Hproc Hpoll).
  unfold bind at 3. reflexivity.
Qed.

(** [singbox_start] up to the call of [start] on the core it has built. *)
Lemma singbox_start_builds (w : World) (svc : XrayService XRayCore) (cid : nat)
    (controller : Connection) (peer : option string) (raw : string)
    (config : SingBoxConfig) (version : option string) :
  SINGBOX_ENABLED = true ->
  singbox_core svc = None ->
  connection svc = Some cid ->
  w_conns w !! cid = Some controller ->
  c_peer controller = Some peer ->
  the_config_init (ArgStr raw) peer = Ok config ->
  get_version w SINGBOX_EXECUTABLE_PATH = Ok version ->
  the_singbox_start (ArgStr raw) (w, svc)
  = on_singbox_core (start json_dumps config)
      (w, set_singbox_core
            (Some (with_peer_hooks controller
                     (built_core SINGBOX_EXECUTABLE_PATH SINGBOX_WORKING_DIR version)))
            svc).
Proof.
  intros Henabled Hcore Hconn Hlookup Hpeer Hconfig Hversion.
  unfold singbox_start. rewrite Henabled. cbn [negb].
  unfold bind at 1. cbn [fst snd]. rewrite Hcore.
  unfold logged, bind at 1, connection_peer. cbn [fst snd]. rewrite Hconn.
  unfold conn_read at 1. cbn [fst snd]. rewrite Hlookup.
  unfold read_peer. rewrite Hpeer.
  unfold bind at 1, lift_result. rewrite Hconfig.
  unfold bind at 1, of_world at 1, SingBoxCore_init. cbn [fst snd].
  rewrite Hversion. cbn [result_bind].
  fold (built_core SINGBOX_EXECUTABLE_PATH SINGBOX_WORKING_DIR version).
  unfold bind at 1, on_self at 1, modify at 1. cbn [fst snd].
  unfold bind at 1, peer_has at 1. cbn [fst snd set_singbox_core connection].
  rewrite Hconn. unfold conn_read at 1. cbn [fst snd]. rewrite Hlookup.
  unfold bind at 1.
  assert (Htwice : forall c1 c2, set_singbox_core c2 (set_singbox_core c1 svc)
                                 = set_singbox_core c2 svc) by reflexivity.
  unfold with_peer_hooks.
  destruct (existsb (String.eqb "on_singbox_start") (c_root controller));
    [unfold on_singbox_core at 1, on_self at 1, modify at 1;
     cbn [fst snd singbox_core set_singbox_core] | unfold ret at 1];
    cbn [fst snd]; rewrite ?Htwice;
    unfold bind at 1, peer_has at 1; cbn [fst snd connection set_singbox_core];
    rewrite Hconn; unfold conn_read at 1; cbn [fst snd]; rewrite Hlookup;
    (destruct (existsb (String.eqb "on_singbox_stop") (c_root controller));
     unfold bind at 1;
     [unfold on_singbox_core at 1, on_self at 1, modify at 1;
      cbn [fst snd singbox_core set_singbox_core] | unfold ret at 1];
     cbn [fst snd]; rewrite ?Htwice; reflexivity).
Qed.

Lemma with_peer_hooks_setup (controller : Connection) (c : SingBoxCore) :
  executable_path (with_peer_hooks controller c) = executable_path c
  /\ working_dir (with_peer_hooks controller c) = working_dir c
  /\ process (with_peer_hooks controller c) = process c
  /\ length (_on_start_funcs (with_peer_hooks controller c))
     <= S (length (_on_start_funcs c)).
Proof.
  unfold with_peer_hooks.
  destruct (existsb (String.eqb "on_singbox_start") (c_root controller));
    destruct (existsb (String.eqb "on_singbox_stop") (c_root controller));
    cbn [on_start on_stop executable_path working_dir process _on_start_funcs];
    rewrite ?length_app; simpl; repeat split; lia.
Qed.

Lemma singbox_start_no_core (w : World) (svc : XrayService XRayCore) (cid : nat)
    (controller : Connection) (peer : option string) (raw : string)
    (config : SingBoxConfig) (items : dict) (version : option string) :
  SINGBOX_ENABLED = true ->
  singbox_core svc = None ->
  connection svc = Some cid ->
  w_conns w !! cid = Some controller ->
  c_peer controller = Some peer ->
  the_config_init (ArgStr raw) peer = Ok config ->
  normalize_log_level (cfg_items config) = Ok items ->
  get_version w SINGBOX_EXECUTABLE_PATH = Ok version ->
  can_launch w SINGBOX_EXECUTABLE_PATH SINGBOX_WORKING_DIR ->
  2 <= w_thread_budget w ->
  let c := with_peer_hooks controller
             (built_core SINGBOX_EXECUTABLE_PATH SINGBOX_WORKING_DIR version) in
  the_singbox_start (ArgStr raw) (w, svc)
  = (Ok tt,
     (start_threads (ThCapture (length (w_procs w)) :: map ThHook (_on_start_funcs c))
        (launched json_dumps c items w),
      set_singbox_core (Some (set_process (Some (length (w_procs w))) c)) svc)).
Proof.
  intros Henabled Hcore Hconn Hlookup Hpeer Hconfig Hitems Hversion Hcan Hbudget c.
  rewrite (singbox_start_builds w svc cid controller peer raw config version)
    by assumption.
  fold c.
  destruct (with_peer_hooks_setup controller
              (built_core SINGBOX_EXECUTABLE_PATH SINGBOX_WORKING_DIR version))
    as [Hpath [Hdir [Hnone Hlen]]].
  fold c in Hpath, Hdir, Hnone, Hlen. cbn [built_core executable_path working_dir process
                                           _on_start_funcs length] in Hpath, Hdir, Hnone, Hlen.
  unfold on_singbox_core. cbn [fst snd singbox_core set_singbox_core].
  rewrite (start_not_started json_dumps config items w c);
    [reflexivity
    | unfold started; rewrite Hnone; reflexivity
    | exact Hitems
    | rewrite Hpath, Hdir; exact Hcan
    | lia].
Qed.

(** The exposed [start] up to the call of [start] on the core it has
    built, on a service that holds no core. *)
Lemma svc_start_builds (w : World) (svc : XrayService XRayCore) (cid : nat)
    (controller : Connection) (peer : option string) (raw : string)
    (config : XRayConfig) (built : XRayCore) :
  core svc = None ->
  connection svc = Some cid ->
  w_conns w !! cid = Some controller ->
  c_peer controller = Some peer ->
  XRayConfig_init xray raw peer = Ok config ->
  XRayCore_init xray w XRAY_EXECUTABLE_PATH XRAY_ASSETS_PATH = Ok built ->
  the_start raw (w, svc)
  = on_core (XRayCore_start xray config)
      (w, set_core (Some (with_xray_hooks xray controller built)) svc).
Proof.
  intros Hcore Hconn Hlookup Hpeer Hconfig Hbuilt.
  unfold svc_start.
  unfold bind at 1. cbn [fst snd]. rewrite Hcore.
  unfold logged, bind at 1, connection_peer. cbn [fst snd]. rewrite Hconn.
  unfold conn_read at 1. cbn [fst snd]. rewrite Hlookup.
  unfold read_peer. rewrite Hpeer.
  unfold bind at 1, lift_result. rewrite Hconfig.
  unfold bind at 1, of_world at 1. cbn [fst snd]. rewrite Hbuilt.
  unfold bind at 1, on_self at 1, modify at 1. cbn [fst snd].
  unfold bind at 1, peer_has at 1. cbn [fst snd set_core connection].
  rewrite Hconn. unfold conn_read at 1. cbn [fst snd]. rewrite Hlookup.
  unfold bind at 1.
  assert (Htwice : forall c1 c2, set_core c2 (set_core c1 svc) = set_core c2 svc)
    by reflexivity.
  unfold with_xray_hooks.
  destruct (existsb (String.eqb "on_start") (c_root controller));
    [unfold on_core at 1, modify at 1; cbn [fst snd core set_core] | unfold ret at 1];
    cbn [fst snd]; rewrite ?Htwice;
    unfold bind at 1, peer_has at 1; cbn [fst snd connection set_core];
    rewrite Hconn; unfold conn_read at 1; cbn [fst snd]; rewrite Hlookup;
    (destruct (existsb (String.eqb "on_stop") (c_root controller));
     unfold bind at 1;
     [unfold on_core at 1, modify at 1; cbn [fst snd core set_core] | unfold ret at 1];
     cbn [fst snd]; rewrite ?Htwice; reflexivity).
Qed.

(** C1. On a service whose core runs a process, the start operation
    first stops that process and then launches a new one with the
    transformed configuration, and returns normally.

    For Sing-box ([singbox_start]): given a text that parses to a document
    of the format the node consumes, an executable and a working directory
    in order and threads to spare, the call is the call on the service once
    the core was stopped and dropped; the process that ran has got SIGTERM,
    or SIGKILL if it ignores SIGTERM; the service holds a new core whose
    process runs, launched in the working directory with the run-from-stdin
    arguments, and its standard input, now closed, has received the
    document with the inbounds filtered by the allow list and a silent log
    level turned to warn; the stop callbacks were started before the reader
    and the start callbacks of the new process.

    For the Xray core (the exposed [start]), whose class is a parameter:
    the call stops the core the service holds with the [stop] of the class,
    then builds the configuration and a core in the world that this has
    left, registers the callbacks of the peer and starts the new core
    there; it returns what that [start] returns with the service holding
    the new core. *)
Theorem start_while_running (w : World) (svc : XrayService XRayCore) (cid : nat)
    (controller : Connection) (peer : option string) (raw : string) :
  connection svc = Some cid ->
  c_peer controller = Some peer ->
  (forall (c : SingBoxCore) (pid : nat) (document : dict) (version : option string),
     SINGBOX_ENABLED = true ->
     w_conns w !! cid = Some controller ->
     singbox_core svc = Some c ->
     process c = Some pid ->
     poll w pid = None ->
     json_loads raw = Some (JObj document) ->
     well_formed document = true ->
     get_version w SINGBOX_EXECUTABLE_PATH = Ok version ->
     can_launch w SINGBOX_EXECUTABLE_PATH SINGBOX_WORKING_DIR ->
     length (_on_stop_funcs c) + 2 <= w_thread_budget w ->
     exists (w' : World) (c' : SingBoxCore),
       the_singbox_start (ArgStr raw) (w, svc) = (Ok tt, (w', set_singbox_core (Some c') svc))
       /\ the_singbox_start (ArgStr raw) (w, svc)
          = the_singbox_start (ArgStr raw)
              (stopped_world pid c w, set_singbox_core None svc)
       /\ poll w' pid = Some (if bool_decide (pid ∈ w_stubborn w) then -9 else -15)%Z
       /\ process c' = Some (length (w_procs w))
       /\ started w' c' = true
       /\ w_procs w' !! length (w_procs w)
          = Some (fed_process SINGBOX_EXECUTABLE_PATH SINGBOX_WORKING_DIR
                    (json_dumps (transformed SINGBOX_INBOUNDS document)))
       /\ w_threads w'
          = w_threads w ++ map ThHook (_on_stop_funcs c)
            ++ ThCapture (length (w_procs w)) :: map ThHook (_on_start_funcs c'))
  /\ (forall (xc xc1 built xc2 : XRayCore) (w1 w2 : World) (config : XRayConfig),
        core svc = Some xc ->
        XRayCore_stop xray (w, xc) = (Ok tt, (w1, xc1)) ->
        w_conns w1 !! cid = Some controller ->
        XRayConfig_init xray raw peer = Ok config ->
        XRayCore_init xray w1 XRAY_EXECUTABLE_PATH XRAY_ASSETS_PATH = Ok built ->
        XRayCore_start xray config (w1, with_xray_hooks xray controller built)
        = (Ok tt, (w2, xc2)) ->
        the_start raw (w, svc) = (Ok tt, (w2, set_core (Some xc2) svc))).
Proof.
  intros Hconn Hpeer. split.
  - intros c pid document version Henabled Hlookup Hcore Hproc Hpoll Hraw Hformed
      Hversion Hcan Hbudget.
    destruct (config_transformed SSL_CERT_FILE SSL_KEY_FILE SINGBOX_INBOUNDS json_loads
                raw peer document Hraw Hformed) as [config [Hconfig Hitems]].
    destruct (poll_running w pid Hpoll) as [p [Hp Hrc]].
    pose proof (lookup_lt_Some _ _ _ Hp) as Hpid.
    assert (Hprocs1 : w_procs (stopped_world pid c w)
                      = alter (end_process (if bool_decide (pid ∈ w_stubborn w)
                                            then -9 else -15)%Z) pid (w_procs w))
      by reflexivity.
    assert (Hthreads1 : w_threads (stopped_world pid c w)
                        = w_threads w ++ map ThHook (_on_stop_funcs c)).
    { unfold stopped_world, start_threads. simpl. rewrite take_ge by lia. reflexivity. }
    assert (Hbudget1 : 2 <= w_thread_budget (stopped_world pid c w)).
    { unfold stopped_world, signalled. simpl. rewrite length_map, length_take. lia. }
    assert (Hlookup1 : w_conns (stopped_world pid c w) !! cid = Some controller)
      by exact Hlookup.
    assert (Hversion1 : get_version (stopped_world pid c w) SINGBOX_EXECUTABLE_PATH
                        = Ok version) by exact Hversion.
    assert (Hcan1 : can_launch (stopped_world pid c w) SINGBOX_EXECUTABLE_PATH
                      SINGBOX_WORKING_DIR) by exact Hcan.
    pose proof (singbox_start_stops_first w svc c pid (ArgStr raw) Henabled Hcore Hproc
                  Hpoll) as Hfirst.
    rewrite Hfirst.
    remember (stopped_world pid c w) as w1 eqn:Hw1. clear Hw1.
    assert (Hlen : length (w_procs w1) = length (w_procs w))
      by (rewrite Hprocs1; apply length_alter).
    rewrite (singbox_start_no_core w1 (set_singbox_core None svc) cid controller peer raw
               config (transformed SINGBOX_INBOUNDS document) version Henabled eq_refl
               Hconn Hlookup1 Hpeer Hconfig Hitems Hversion1 Hcan1 Hbudget1).
    rewrite Hlen.
    destruct (with_peer_hooks_setup controller
                (built_core SINGBOX_EXECUTABLE_PATH SINGBOX_WORKING_DIR version))
      as [Hpath [Hwd _]].
    cbn [built_core executable_path working_dir] in Hpath, Hwd.
    remember (with_peer_hooks controller
                (built_core SINGBOX_EXECUTABLE_PATH SINGBOX_WORKING_DIR version))
      as c1 eqn:Hc1.
    clear Hc1.
    eexists. exists (set_process (Some (length (w_procs w))) c1).
    split; [reflexivity |]. split; [reflexivity |].
    assert (Hnew : w_procs (launched json_dumps c1 (transformed SINGBOX_INBOUNDS document) w1)
                     !! length (w_procs w)
                   = Some (fed_process SINGBOX_EXECUTABLE_PATH SINGBOX_WORKING_DIR
                             (json_dumps (transformed SINGBOX_INBOUNDS document)))).
    { unfold launched. cbn [w_procs w_with_procs]. rewrite <- Hlen.
      rewrite list_lookup_middle by reflexivity.
      rewrite Hpath, Hwd. reflexivity. }
    split; [| split; [reflexivity | split; [| split; [exact Hnew |]]]].
    + unfold poll, start_threads, launched. cbn [w_procs w_with_procs].
      rewrite lookup_app_l by lia.
      rewrite Hprocs1, list_lookup_alter_eq, Hp. simpl.
      unfold end_process. rewrite Hrc. reflexivity.
    + unfold started, poll. cbn [process set_process].
      change (w_procs (start_threads ?ts ?w0)) with (w_procs w0).
      rewrite Hnew. reflexivity.
    + unfold start_threads, launched. cbn [w_threads w_with_procs].
      rewrite Hthreads1, <- app_assoc. reflexivity.
  - intros xc xc1 built xc2 w1 w2 config Hcore Hstop Hlookup Hconfig Hbuilt Hstart.
    assert (Hfirst : the_start raw (w, svc) = the_start raw (w1, set_core None svc)).
    { unfold svc_start. unfold bind at 1. cbn [fst snd]. rewrite Hcore.
      unfold svc_stop, bind at 1. cbn [fst snd]. rewrite Hcore.
      unfold try_except, on_core at 1. cbn [fst snd]. rewrite Hcore, Hstop.
      unfold on_self at 1, modify at 1. cbn [fst snd].
      unfold bind at 3. cbn [fst snd set_core core]. reflexivity. }
    rewrite Hfirst.
    rewrite (svc_start_builds w1 (set_core None svc) cid controller peer raw config built
               eq_refl Hconn Hlookup Hpeer Hconfig Hbuilt).
    unfold on_core. cbn [fst snd core set_core]. rewrite Hstart. reflexivity.
Qed.

(** A text that does not parse makes [singbox_start] fail with the error
    of the parser, but only after the running core was stopped and
    dropped. *)
Lemma singbox_start_unparseable (w : World) (svc : XrayService XRayCore)
    (c : SingBoxCore) (pid cid : nat) (controller : Connection) (peer : option string)
    (raw : string) :
  SINGBOX_ENABLED = true ->
  singbox_core svc = Some c ->
  process c = Some pid ->
  poll w pid = None ->
  connection svc = Some cid ->
  w_conns w !! cid = Some controller ->
  c_peer controller = Some peer ->
  json_loads raw = None ->
  the_singbox_start (ArgStr raw) (w, svc)
  = (Raise JSONDecodeError, (stopped_world pid c w, set_singbox_core None svc))
  /\ (exists rc, poll (stopped_world pid c w) pid = Some rc).
Proof.
  intros Henabled Hcore Hproc Hpoll Hconn Hlookup Hpeer Hraw.
  rewrite (singbox_start_stops_first w svc c pid (ArgStr raw) Henabled Hcore Hproc Hpoll).
  split.
  - unfold singbox_start. rewrite Henabled. cbn [negb].
    unfold bind at 1. cbn [fst snd set_singbox_core singbox_core].
    unfold logged, bind at 1, connection_peer.
    cbn [fst snd connection set_singbox_core].
    rewrite Hconn. unfold conn_read at 1. cbn [fst snd].
    change (w_conns (stopped_world pid c w)) with (w_conns w). rewrite Hlookup.
    unfold read_peer. rewrite Hpeer.
    unfold bind at 1, lift_result, SingBoxConfig_init. rewrite Hraw. reflexivity.
  - pose proof (poll_signalled w pid Hpoll) as Hafter.
    unfold stopped_world, start_threads, poll in *. simpl in *. eauto.
Qed.

(** A text that does not parse makes [singbox_restart] fail before
    anything has changed. *)
Lemma singbox_restart_unparseable (w : World) (svc : XrayService XRayCore)
    (cid : nat) (controller : Connection) (peer : option string) (raw : string) :
  SINGBOX_ENABLED = true ->
  connection svc = Some cid ->
  w_conns w !! cid = Some controller ->
  c_peer controller = Some peer ->
  json_loads raw = None ->
  singbox_restart SINGBOX_ENABLED SINGBOX_EXECUTABLE_PATH SINGBOX_WORKING_DIR
    SSL_CERT_FILE SSL_KEY_FILE SINGBOX_INBOUNDS json_loads json_dumps raw (w, svc)
  = (Raise JSONDecodeError, (w, svc)).
Proof.
  intros Henabled Hconn Hlookup Hpeer Hraw.
  unfold singbox_restart. rewrite Henabled. cbn [negb].
  unfold bind at 1, connection_peer. cbn [fst snd]. rewrite Hconn.
  unfold conn_read. cbn [fst snd]. rewrite Hlookup.
  unfold read_peer. rewrite Hpeer.
  unfold bind at 1, lift_result, SingBoxConfig_init. rewrite Hraw. reflexivity.
Qed.

End StartCore.

(** ** The service: one controller at a time *)

Section Sessions.

Context {XRayCore XRayConfig : Type}.
Variable xray : XrayModule XRayCore XRayConfig.

(** [on_connect] on a service that holds a connection. While the one it
    holds answers the ping and has its peer recorded, the candidate is
    closed and the service and the connection it holds stay as they were.
    When the ping ends in a timeout or at the end of the stream, or when
    no peer is recorded on the connection, a candidate whose socket gives
    a host and a port takes its place, with the host recorded as its peer;
    a candidate whose socket gives four items, as over IPv6, makes
    [on_connect] raise ValueError, the service holding on to the
    connection that is lost. *)
Lemma on_connect_held (w : World) (svc : XrayService XRayCore)
    (cur conn : nat) (current candidate : Connection) :
  connection svc = Some cur ->
  w_conns w !! cur = Some current ->
  w_conns w !! conn = Some candidate ->
  conn <> cur ->
  (c_ping current = Ok tt -> c_peer current <> None ->
   exists w' rejected,
     on_connect conn (w, svc) = (Ok tt, (w', svc))
     /\ w_conns w' !! conn = Some rejected
     /\ c_closed rejected = true
     /\ w_conns w' !! cur = Some current)
  /\ (c_ping current = Raise TimeoutError
      \/ c_ping current = Raise EOFError
      \/ (c_ping current = Ok tt /\ c_peer current = None) ->
      (forall host port, c_sockaddr candidate = AddrInet host port ->
       exists w' admitted,
         on_connect conn (w, svc) = (Ok tt, (w', set_connection (Some conn) svc))
         /\ w_conns w' !! conn = Some admitted
         /\ c_peer admitted = Some (Some host)
         /\ c_closed admitted = c_closed candidate)
      /\ (forall host port flow scope,
            c_sockaddr candidate = AddrInet6 host port flow scope ->
            on_connect conn (w, svc) = (Raise ValueError, (w, svc)))).
Proof.
  intros Hconn Hcur Hcand Hne. split.
  - intros Hping Hpeer.
    destruct (c_peer current) as [peer |] eqn:Hp; [| congruence].
    eexists. exists (c_close candidate). split; [| split; [| split]].
    + unfold on_connect. cbn [fst snd]. rewrite Hconn.
      unfold bind at 1, try_except, bind at 1, conn_read at 1. cbn [fst snd].
      rewrite Hcur, Hping.
      unfold bind at 1, conn_read at 1. cbn [fst snd]. rewrite Hcur.
      unfold read_peer. rewrite Hp.
      unfold bind at 1, conn_update at 1. cbn [fst snd]. rewrite Hcand.
      reflexivity.
    + simpl. apply lookup_insert_eq.
    + reflexivity.
    + simpl. rewrite lookup_insert_ne by exact Hne. exact Hcur.
  - intros Hlost.
    assert (Hfirst :
      try_except
        (conn_read cur c_ping ;;;
         _peer <- conn_read cur read_peer ;;
         conn_update conn c_close ;;; ret true)
        is_lost (ret false) (w, svc) = (Ok false, (w, svc))).
    { unfold try_except, bind at 1, conn_read at 1. cbn [fst snd]. rewrite Hcur.
      destruct Hlost as [Hping | [Hping | [Hping Hpeer]]]; rewrite Hping;
        try reflexivity.
      unfold bind at 1, conn_read at 1. cbn [fst snd]. rewrite Hcur.
      unfold read_peer. rewrite Hpeer. reflexivity. }
    split.
    + intros host port Haddr.
      eexists. exists (c_with_peer candidate (Some host)). split; [| split; [| split]].
      * unfold on_connect. cbn [fst snd]. rewrite Hconn.
        unfold bind at 1. rewrite Hfirst.
        unfold bind at 1, conn_read at 1. cbn [fst snd]. rewrite Hcand.
        unfold getpeername_host. rewrite Haddr.
        unfold bind at 1, on_self, modify, conn_update. cbn [fst snd].
        rewrite Hcand. reflexivity.
      * simpl. apply lookup_insert_eq.
      * reflexivity.
      * reflexivity.
    + intros host port flow scope Haddr.
      unfold on_connect. cbn [fst snd]. rewrite Hconn.
      unfold bind at 1. rewrite Hfirst.
      unfold bind at 1, conn_read at 1. cbn [fst snd]. rewrite Hcand.
      unfold getpeername_host. rewrite Haddr. reflexivity.
Qed.

(** [on_disconnect] for a connection that is not the one the service
    holds changes nothing. *)
Lemma on_disconnect_superseded (w : World) (svc : XrayService XRayCore) (conn : nat) :
  connection svc <> Some conn ->
  on_disconnect xray conn (w, svc) = (Ok tt, (w, svc)).
Proof.
  intros Hne. unfold on_disconnect. cbn [fst snd].
  rewrite bool_decide_eq_false_2 by exact Hne. reflexivity.
Qed.

(** When both stops return, both cores were stopped one after the other
    and the service is back to its initial state. *)
Lemma on_disconnect_stops_all (w w1 w2 : World) (svc : XrayService XRayCore)
    (conn : nat) (controller : Connection) (xc xc1 : XRayCore) (c c2 : SingBoxCore) :
  connection svc = Some conn ->
  w_conns w !! conn = Some controller ->
  c_peer controller <> None ->
  core svc = Some xc ->
  singbox_core svc = Some c ->
  XRayCore_stop xray (w, xc) = (Ok tt, (w1, xc1)) ->
  stop (w1, c) = (Ok tt, (w2, c2)) ->
  on_disconnect xray conn (w, svc) = (Ok tt, (w2, XrayService_init)).
Proof.
  intros Hconn Hlookup Hpeer Hcore Hsing Hxstop Hstop.
  destruct (c_peer controller) as [peer |] eqn:Hp; [| congruence].
  unfold on_disconnect. cbn [fst snd].
  rewrite bool_decide_eq_true_2 by exact Hconn.
  unfold bind at 1, connection_peer. cbn [fst snd]. rewrite Hconn.
  unfold conn_read. cbn [fst snd]. rewrite Hlookup. unfold read_peer. rewrite Hp.
  unfold bind at 1. cbn [fst snd]. rewrite Hcore.
  unfold on_core. cbn [fst snd]. rewrite Hcore, Hxstop.
  unfold bind at 1. cbn [fst snd singbox_core set_core]. rewrite Hsing.
  unfold on_singbox_core. cbn [fst snd singbox_core set_core]. rewrite Hsing, Hstop.
  reflexivity.
Qed.

(** When the stop of the Xray core raises, [on_disconnect] ends there:
    the Sing-box core is not stopped and the connection stays in place. *)
Lemma on_disconnect_first_stop_raises (w w1 : World) (svc : XrayService XRayCore)
    (conn : nat) (controller : Connection) (xc xc1 : XRayCore) (e : exn) :
  connection svc = Some conn ->
  w_conns w !! conn = Some controller ->
  c_peer controller <> None ->
  core svc = Some xc ->
  XRayCore_stop xray (w, xc) = (Raise e, (w1, xc1)) ->
  on_disconnect xray conn (w, svc) = (Raise e, (w1, set_core (Some xc1) svc)).
Proof.
  intros Hconn Hlookup Hpeer Hcore Hxstop.
  destruct (c_peer controller) as [peer |] eqn:Hp; [| congruence].
  unfold on_disconnect. cbn [fst snd].
  rewrite bool_decide_eq_true_2 by exact Hconn.
  unfold bind at 1, connection_peer. cbn [fst snd]. rewrite Hconn.
  unfold conn_read. cbn [fst snd]. rewrite Hlookup. unfold read_peer. rewrite Hp.
  unfold bind at 1. cbn [fst snd]. rewrite Hcore.
  unfold on_core. cbn [fst snd]. rewrite Hcore, Hxstop.
  reflexivity.
Qed.

(** The exposed [stop], for its part, lets a RuntimeError of the core pass. *)
Lemma svc_stop_swallows_RuntimeError (w w1 : World) (svc : XrayService XRayCore)
    (xc xc1 : XRayCore) (msg : string) :
  core svc = Some xc ->
  XRayCore_stop xray (w, xc) = (Raise (RuntimeError msg), (w1, xc1)) ->
  svc_stop xray (w, svc) = (Ok tt, (w1, set_core None svc)).
Proof.
  intros Hcore Hxstop. unfold svc_stop, bind. cbn [fst snd]. rewrite Hcore.
  unfold try_except, on_core. cbn [fst snd]. rewrite Hcore, Hxstop.
  reflexivity.
Qed.

(** The same on the Xray side: the exposed [restart] fails on a text
    that [XRayConfig] rejects before anything has changed, and the
    exposed [start] only after it has stopped and dropped the core. *)
Lemma svc_restart_rejected (w : World) (svc : XrayService XRayCore) (conn : nat)
    (controller : Connection) (peer : option string) (raw : string) (e : exn) :
  connection svc = Some conn ->
  w_conns w !! conn = Some controller ->
  c_peer controller = Some peer ->
  XRayConfig_init xray raw peer = Raise e ->
  svc_restart xray raw (w, svc) = (Raise e, (w, svc)).
Proof.
  intros Hconn Hlookup Hpeer Hraw.
  unfold svc_restart, bind at 1, connection_peer. cbn [fst snd]. rewrite Hconn.
  unfold conn_read. cbn [fst snd]. rewrite Hlookup. unfold read_peer. rewrite Hpeer.
  unfold bind at 1, lift_result. rewrite Hraw. reflexivity.
Qed.

Lemma svc_start_rejected (w w1 : World) (svc : XrayService XRayCore) (conn : nat)
    (controller : Connection) (peer : option string) (raw : string) (e : exn)
    (xc xc1 : XRayCore) (assets executable : string) :
  core svc = Some xc ->
  XRayCore_stop xray (w, xc) = (Ok tt, (w1, xc1)) ->
  connection svc = Some conn ->
  w_conns w1 !! conn = Some controller ->
  c_peer controller = Some peer ->
  XRayConfig_init xray raw peer = Raise e ->
  svc_start xray assets executable raw (w, svc) = (Raise e, (w1, set_core None svc)).
Proof.
  intros Hcore Hstop Hconn Hlookup Hpeer Hraw.
  unfold svc_start, bind at 1. cbn [fst snd]. rewrite Hcore.
  unfold svc_stop, bind at 1. cbn [fst snd]. rewrite Hcore.
  unfold try_except, on_core at 1. cbn [fst snd]. rewrite Hcore, Hstop.
  unfold on_self at 1, modify at 1. cbn [fst snd].
  change (set_core None (set_core (Some xc1) svc)) with (set_core None svc).
  unfold logged, bind at 1, connection_peer. cbn [fst snd connection set_core].
  rewrite Hconn.
  unfold conn_read. cbn [fst snd]. rewrite Hlookup. unfold read_peer. rewrite Hpeer.
  unfold bind at 1, lift_result. rewrite Hraw. reflexivity.
Qed.

(** C10, as the code has it. On a service that holds no Xray core,
    [fetch_logs] returns None and leaves the world and the service as
    they are: no thread is started and no deque is registered; the same
    for [fetch_singbox_logs] on a service that holds no Sing-box core. *)
Theorem fetch_logs_without_core (w : World) (svc : XrayService XRayCore) (callback : nat) :
  (core svc = None -> fetch_logs callback (w, svc) = (Ok None, (w, svc)))
  /\ (singbox_core svc = None ->
      fetch_singbox_logs callback (w, svc) = (Ok None, (w, svc))).
Proof.
  split; intros Hnone.
  - unfold fetch_logs. cbn [fst snd]. rewrite Hnone. reflexivity.
  - unfold fetch_singbox_logs. cbn [fst snd]. rewrite Hnone. reflexivity.
Qed.

End Sessions.

(** ** The sample node at work *)

Lemma start_while_running_witness :
  (exists (w' : World) (c' : SingBoxCore),
     filtering_singbox_start (ArgStr "silent abcd") (fst both_running, snd both_running)
     = (Ok tt, (w', set_singbox_core (Some c') (snd both_running)))
     /\ poll w' 1 = Some (-15)%Z
     /\ process c' = Some 2
     /\ started w' c' = true
     /\ w_procs w' !! 2
        = Some (fed_process SAMPLE_EXECUTABLE SAMPLE_WORKING_DIR "log,inbounds;warn;a,c")
     /\ w_threads w'
        = w_threads (fst both_running)
          ++ [ThHook PeerOnSingboxStop; ThCapture 2; ThHook PeerOnSingboxStart])
  /\ (exists (w' : World) (c' : SingBoxCore),
        sample_start "silent abcd" (fst both_running, snd both_running)
        = (Ok tt, (w', set_core (Some c') (snd both_running)))
        /\ poll w' 0 = Some (-15)%Z
        /\ process c' = Some 2
        /\ started w' c' = true).
Proof.
  destruct (start_while_running sample_xray "/usr/local/share/xray" SAMPLE_EXECUTABLE
              true SAMPLE_EXECUTABLE SAMPLE_WORKING_DIR "cert.pem" "key.pem"
              (Some ["a"; "c"]) sample_loads sample_dumps
              (fst both_running) (snd both_running) 1
              (c_with_peer first_controller (Some "10.0.0.1")) (Some "10.0.0.1")
              "silent abcd" eq_refl eq_refl) as [Hsingbox Hxray].
  split.
  - destruct (Hsingbox
                (mkSingBoxCore SAMPLE_EXECUTABLE SAMPLE_WORKING_DIR (Some "1.8.0") (Some 1)
                   false empty_logs [PeerOnSingboxStart] [PeerOnSingboxStop])
                1 silent_abcd_document (Some "1.8.0"))
      as [w' [c' [Hrun [_ [Hpoll [Hproc [Hstarted [Hfed Hthreads]]]]]]]];
      try reflexivity.
    + split; [exists sing_box; repeat split | reflexivity].
    + vm_compute. lia.
    + exists w', c'. repeat split; try assumption.
      rewrite Hthreads.
      assert (Hstart : _on_start_funcs c' = [PeerOnSingboxStart]).
      { vm_compute in Hrun. injection Hrun as _ <-. reflexivity. }
      rewrite Hstart. reflexivity.
  - pose (xc := mkSingBoxCore SAMPLE_EXECUTABLE SAMPLE_WORKING_DIR (Some "1.8.0") (Some 0)
                  false empty_logs [PeerOnStart] [PeerOnStop]).
    pose (stopping := stop (fst both_running, xc)).
    pose (config := mkSingBoxConfig silent_abcd_document "cert.pem" "key.pem"
                      (Some "10.0.0.1")).
    pose (built := built_core SAMPLE_EXECUTABLE SAMPLE_WORKING_DIR (Some "1.8.0")).
    pose (starting := start sample_dumps config
                        (fst (snd stopping),
                         with_xray_hooks sample_xray
                           (c_with_peer first_controller (Some "10.0.0.1")) built)).
    exists (fst (snd starting)), (snd (snd starting)).
    split; [| vm_compute; repeat split].
    apply (Hxray xc (snd (snd stopping)) built (snd (snd starting)) (fst (snd stopping))
             (fst (snd starting)) config);
      vm_compute; reflexivity.
Defined.

(** C2, at an input on which the code departs from it: the text does not
    parse, Sing-box runs; [singbox_start] raises the error of the parser
    after it has ended the process and dropped the core, where
    [singbox_restart] raises it with nothing changed. *)
Theorem singbox_start_unparseable_stops_core :
  sample_loads "{" = None
  /\ (exists c, singbox_core (snd singbox_running) = Some c
                /\ started (fst singbox_running) c = true)
  /\ (exists w',
        sample_singbox_start (ArgStr "{") singbox_running
        = (Raise JSONDecodeError, (w', set_singbox_core None (snd singbox_running)))
        /\ poll w' 0 = Some (-15)%Z)
  /\ sample_singbox_restart "{" singbox_running = (Raise JSONDecodeError, singbox_running).
Proof.
  split; [reflexivity |]. split; [eexists; split; reflexivity |].
  split; [eexists; split; [vm_compute; reflexivity | reflexivity] |].
  vm_compute. reflexivity.
Qed.


(** C7, at inputs on which the code departs from it. No thread can be
    started and each core has a stop callback, so that [stop] raises a
    RuntimeError once it has ended its process. With both cores running
    [on_disconnect] ends at the stop of the first: the process of
    Sing-box still runs and the connection is still in place. With
    Sing-box alone, its process is ended and the connection and the core
    are still in place. *)
Theorem on_disconnect_stop_raises :
  (exists s',
     sample_on_disconnect 1 (out_of_threads both_running)
     = (Raise (RuntimeError "can't start new thread"), s')
     /\ poll (fst s') 0 = Some (-15)%Z
     /\ poll (fst s') 1 = None
     /\ (exists c, singbox_core (snd s') = Some c /\ started (fst s') c = true)
     /\ connection (snd s') = Some 1)
  /\ (exists s',
        sample_on_disconnect 1 (out_of_threads singbox_running)
        = (Raise (RuntimeError "can't start new thread"), s')
        /\ poll (fst s') 0 = Some (-15)%Z
        /\ singbox_core (snd s') <> None
        /\ connection (snd s') = Some 1)
  /\ (exists w',
        sample_on_disconnect 1 both_running = (Ok tt, (w', XrayService_init))
        /\ poll w' 0 = Some (-15)%Z
        /\ poll w' 1 = Some (-15)%Z).
Proof.
  split; [| split].
  - eexists. split; [vm_compute; reflexivity |].
    repeat split. eexists. split; reflexivity.
  - eexists. split; [vm_compute; reflexivity |].
    repeat split. discriminate.
  - eexists. split; [vm_compute; reflexivity |]. split; reflexivity.
Qed.

Lemma fetch_logs_without_core_witness :
  fetch_logs 7 (fst connected, snd connected) = (Ok None, (fst connected, snd connected))
  /\ fetch_singbox_logs 7 (fst connected, snd connected)
     = (Ok None, (fst connected, snd connected)).
Proof.
  destruct (fetch_logs_without_core (fst connected) (snd connected) 7) as [Hxray Hsingbox].
  split; [apply Hxray | apply Hsingbox]; reflexivity.
Defined.

(** C10, as it is stated, fails: once the process of Sing-box has ended
    on its own no core is running, and yet [fetch_singbox_logs] returns
    a handler whose thread was started, the service still holding the
    core. *)
Lemma fetch_logs_of_ended_core :
  let s := exits 0 1 singbox_running in
  core (snd s) = None
  /\ (exists c, singbox_core (snd s) = Some c /\ started (fst s) c = false)
  /\ fetch_singbox_logs 7 s <> (Ok None, s)
  /\ exists s',
       fetch_singbox_logs 7 s = (Ok (Some (mkCoreLogsHandler SingBoxKind 7 true)), s')
       /\ w_threads (fst s') = w_threads (fst s) ++ [ThCast 7].
Proof.
  split; [reflexivity |]. split; [eexists; split; reflexivity |].
  split; [vm_compute; discriminate |].
  eexists. split; [vm_compute; reflexivity | reflexivity].
Qed.

(** * Further properties of the code *)

(** ** The life cycle of a core *)

Lemma started_process (w : World) (c : SingBoxCore) :
  started w c = true -> exists pid, process c = Some pid /\ poll w pid = None.
Proof.
  unfold started. destruct (process c) as [pid |]; [| discriminate].
  destruct (poll w pid) eqn:Hpoll; [discriminate |].
  intros _. exists pid. split; [reflexivity | exact Hpoll].
Qed.

(** X1. Whatever [stop] finds and however it ends, the core is not
    started afterwards, and a second [stop] returns at once with nothing
    changed. *)
Theorem stop_settles (w : World) (c : SingBoxCore) :
  let s' := snd (stop (w, c)) in
  started (fst s') (snd s') = false
  /\ process (snd s') = (if started w c then None else process c)
  /\ stop s' = (Ok tt, s').
Proof.
  destruct (started w c) eqn:Hstarted; cbn zeta.
  - destruct (started_process w c Hstarted) as [pid [Hproc Hpoll]].
    rewrite (stop_running w c pid Hproc Hpoll). cbn [fst snd].
    split; [reflexivity |]. split; [reflexivity |].
    apply stop_not_started. reflexivity.
  - rewrite (stop_not_started w c Hstarted). cbn [fst snd].
    split; [exact Hstarted |]. split; [reflexivity |].
    apply stop_not_started. exact Hstarted.
Qed.

(** X2. [stop] on a core whose process runs ends that process, with
    SIGTERM, or with SIGKILL when the process ignores SIGTERM, and forgets
    it; with threads to spare it returns normally, each stop callback
    started once, in the order of registration. *)
Theorem stop_ends_process (w : World) (c : SingBoxCore) (pid : nat) :
  process c = Some pid ->
  poll w pid = None ->
  let r := fst (stop (w, c)) in
  let w' := fst (snd (stop (w, c))) in
  let c' := snd (snd (stop (w, c))) in
  process c' = None
  /\ poll w' pid = Some (if bool_decide (pid ∈ w_stubborn w) then -9 else -15)%Z
  /\ (forall other, other <> pid -> poll w' other = poll w other)
  /\ (length (_on_stop_funcs c) <= w_thread_budget w ->
      r = Ok tt /\ w_threads w' = w_threads w ++ map ThHook (_on_stop_funcs c)).
Proof.
  intros Hproc Hpoll. cbn zeta.
  rewrite (stop_running w c pid Hproc Hpoll). cbn [fst snd].
  split; [reflexivity |]. split; [| split].
  - exact (poll_signalled w pid Hpoll).
  - intros other Hother. unfold poll, start_threads, signalled. simpl.
    rewrite list_lookup_alter_ne by congruence. reflexivity.
  - intros Hbudget. unfold hooks_outcome.
    destruct (Nat.leb_spec (length (_on_stop_funcs c)) (w_thread_budget w)); [| lia].
    split; [reflexivity |].
    unfold start_threads. simpl. rewrite take_ge by lia. reflexivity.
Qed.

Lemma launched_poll (json_dumps : dict -> string) (c : SingBoxCore) (items : dict)
    (ts : list Thread) (w : World) :
  poll (start_threads ts (launched json_dumps c items w)) (length (w_procs w)) = None.
Proof.
  unfold poll, start_threads, launched. simpl.
  rewrite list_lookup_middle by reflexivity. reflexivity.
Qed.

(** A [start] that returns normally leaves the core started. *)
Lemma start_ok_started (json_dumps : dict -> string) (config : SingBoxConfig)
    (w w' : World) (c c' : SingBoxCore) :
  start json_dumps config (w, c) = (Ok tt, (w', c')) -> started w' c' = true.
Proof.
  unfold start. cbn [fst snd].
  destruct (started w c); [discriminate |].
  unfold bind at 1, lift_result.
  destruct (normalize_log_level (cfg_items config)) as [items | e]; [| discriminate].
  unfold bind at 1, gets at 1. cbn [fst snd].
  unfold bind at 1, gets at 1. cbn [fst snd].
  unfold bind at 1, in_world at 1, Popen. cbn [fst snd].
  destruct (negb (existsb (String.eqb (working_dir c)) (w_dirs w))); [discriminate |].
  destruct (executable_at w (executable_path c)) as [x |]; [| discriminate].
  destruct (x_launch x) as [[] | e]; [| discriminate].
  cbn [fst snd].
  unfold bind at 1, on_self at 1, modify at 1. cbn [fst snd].
  unfold bind at 1, in_world at 1, feed_stdin. cbn [fst snd w_procs w_with_procs].
  rewrite list_lookup_middle by reflexivity.
  cbn [p_reads_stdin p_returncode].
  destruct (x_reads_stdin x); [| discriminate].
  cbn [fst snd].
  unfold bind at 1, __capture_process_logs, in_world at 1, thread_start at 1.
  cbn [fst snd w_thread_budget w_with_procs].
  destruct (w_thread_budget w) as [| n]; [discriminate |].
  cbn [fst snd].
  unfold bind at 1, gets at 1. cbn [fst snd].
  rewrite for_each_hooks.
  destruct (hooks_outcome _ _) as [[] | e]; [| discriminate].
  intros [= <- <-].
  unfold started, poll. cbn [process set_process start_threads w_procs w_with_procs].
  rewrite list_lookup_insert_eq by (rewrite length_app; simpl; lia).
  reflexivity.
Qed.

(** X3. Once [start] has returned normally, having launched a process,
    a second [start] raises RuntimeError and launches nothing: it leaves
    the state the first one left. *)
Theorem start_twice_raises (json_dumps : dict -> string) (config config' : SingBoxConfig)
    (w : World) (c : SingBoxCore) :
  fst (start json_dumps config (w, c)) = Ok tt ->
  (start json_dumps config ;;; start json_dumps config') (w, c)
  = (Raise (RuntimeError "Sing-box is started already"),
     snd (start json_dumps config (w, c))).
Proof.
  intros Hok. unfold bind.
  destruct (start json_dumps config (w, c)) as [r [w' c']] eqn:Hstart.
  cbn [fst snd] in *. subst r.
  unfold start at 1. cbn [fst snd].
  rewrite (start_ok_started json_dumps config w w' c c' Hstart). reflexivity.
Qed.

Lemma executable_at_missing (w : World) (path : string) :
  existsb (fun e => String.eqb (fst e) path) (w_installed w) = false ->
  executable_at w path = None.
Proof.
  unfold executable_at. induction (w_installed w) as [| [p x] l IH]; [reflexivity |].
  simpl. destruct (String.eqb p path); [discriminate | exact IH].
Qed.

(** [get_version] gives no version for an executable that is not there or
    that exits with an error; an executable that may not be run makes it,
    and with it the constructor of the core, raise PermissionError. *)
Lemma get_version_cases (w : World) (path dir : string) :
  (executable_at w path = None -> get_version w path = Ok None)
  /\ (forall x, executable_at w path = Some x -> x_launch x = Ok tt ->
                x_version x = Raise CalledProcessError -> get_version w path = Ok None)
  /\ (forall x, executable_at w path = Some x -> x_launch x = Raise PermissionError ->
                get_version w path = Raise PermissionError
                /\ SingBoxCore_init w path dir = Raise PermissionError).
Proof.
  unfold SingBoxCore_init, get_version, version_run. split; [| split].
  - intros ->. reflexivity.
  - intros x -> -> ->. reflexivity.
  - intros x -> ->. split; reflexivity.
Qed.

Lemma start_no_executable (json_dumps : dict -> string) (config : SingBoxConfig)
    (items : dict) (w : World) (c : SingBoxCore) :
  started w c = false ->
  normalize_log_level (cfg_items config) = Ok items ->
  existsb (fun e => String.eqb (fst e) (executable_path c)) (w_installed w) = false ->
  start json_dumps config (w, c) = (Raise FileNotFoundError, (w, c)).
Proof.
  intros Hstopped Hitems Hexe.
  unfold start. cbn [fst snd]. rewrite Hstopped, Hitems.
  unfold bind, lift_result, gets. cbn [fst snd].
  unfold in_world, Popen. cbn [fst snd].
  rewrite (executable_at_missing w (executable_path c) Hexe).
  destruct (negb (existsb (String.eqb (working_dir c)) (w_dirs w))); reflexivity.
Qed.

(** X4. [start] with an executable that is not there raises
    FileNotFoundError and leaves the core and the world as they were: no
    process, no thread. *)
Theorem start_missing_executable (json_dumps : dict -> string) (config : SingBoxConfig)
    (items : dict) (w : World) (c : SingBoxCore) :
  started w c = false ->
  normalize_log_level (cfg_items config) = Ok items ->
  existsb (fun e => String.eqb (fst e) (executable_path c)) (w_installed w) = false ->
  start json_dumps config (w, c) = (Raise FileNotFoundError, (w, c)).
Proof. exact (start_no_executable json_dumps config items w c). Qed.

(** ** The log level of the configuration *)

(** X5. [start] changes the configuration in one case only: a log level
    that is the string silent becomes warn, the other keys of the log
    object and of the document staying as they are. Any other level, a
    log object without level and a document without log are left alone;
    a log that is not an object makes [start] raise AttributeError. *)
Theorem normalize_log_level_cases (config : dict) :
  (forall log,
     dict_lookup "log" config = Some (JObj log) ->
     dict_lookup "level" log = Some (JStr "silent") ->
     exists config' log',
       normalize_log_level config = Ok config'
       /\ dict_lookup "log" config' = Some (JObj log')
       /\ dict_lookup "level" log' = Some (JStr "warn")
       /\ (forall key, key <> "level" -> dict_lookup key log' = dict_lookup key log)
       /\ (forall key, key <> "log" -> dict_lookup key config' = dict_lookup key config))
  /\ (forall log,
        dict_lookup "log" config = Some (JObj log) ->
        dict_lookup "level" log <> Some (JStr "silent") ->
        normalize_log_level config = Ok config)
  /\ (dict_lookup "log" config = None -> normalize_log_level config = Ok config)
  /\ (forall v,
        dict_lookup "log" config = Some v ->
        (forall log, v <> JObj log) ->
        normalize_log_level config = Raise AttributeError).
Proof.
  split; [| split; [| split]].
  - intros log Hlog Hlevel.
    rewrite (normalize_log_level_level config log Hlog), Hlevel. cbn [String.eqb].
    change (("silent" =? "silent")%string) with true. cbn iota.
    eexists. eexists. split; [reflexivity |].
    split; [apply dict_lookup_set_eq |].
    split; [apply dict_lookup_set_eq |].
    split; intros key Hkey; apply dict_lookup_set_ne; congruence.
  - intros log Hlog Hlevel.
    rewrite (normalize_log_level_level config log Hlog).
    destruct (dict_lookup "level" log) as [[| | | | s | |] |]; try reflexivity.
    destruct (String.eqb_spec s "silent") as [-> | Hne]; [congruence | reflexivity].
  - intros Hnone. unfold normalize_log_level, dict_get. rewrite Hnone. reflexivity.
  - intros v Hlog Hnot. unfold normalize_log_level, dict_get. rewrite Hlog.
    destruct v; try reflexivity. exfalso. eapply Hnot. reflexivity.
Qed.

Lemma normalize_log_level_cases_witness :
  normalize_log_level [("log", JObj [("level", JStr "silent"); ("timestamp", JBool true)])]
  = Ok [("log", JObj [("level", JStr "warn"); ("timestamp", JBool true)])]
  /\ normalize_log_level [("log", JObj [("level", JStr "debug")])]
     = Ok [("log", JObj [("level", JStr "debug")])]
  /\ normalize_log_level [("inbounds", JArr [])] = Ok [("inbounds", JArr [])]
  /\ normalize_log_level [("log", JStr "silent")] = Raise AttributeError.
Proof.
  split; [| split; [| split]].
  - destruct (proj1 (normalize_log_level_cases
                       [("log", JObj [("level", JStr "silent"); ("timestamp", JBool true)])])
                _ eq_refl eq_refl) as [config' [log' [Hok _]]].
    rewrite Hok. vm_compute in Hok. injection Hok as <-. reflexivity.
  - refine (proj1 (proj2 (normalize_log_level_cases [("log", JObj [("level", JStr "debug")])]))
              [("level", JStr "debug")] eq_refl _).
    discriminate.
  - exact (proj1 (proj2 (proj2 (normalize_log_level_cases [("inbounds", JArr [])])))
             eq_refl).
  - refine (proj2 (proj2 (proj2 (normalize_log_level_cases [("log", JStr "silent")])))
              (JStr "silent") eq_refl _).
    discriminate.
Defined.

(** ** What the life cycle leaves alone *)

Lemma same_setup_refl (c : SingBoxCore) : same_setup c c.
Proof. repeat split. Qed.

Lemma same_setup_trans (c1 c2 c3 : SingBoxCore) :
  same_setup c1 c2 -> same_setup c2 c3 -> same_setup c1 c3.
Proof.
  unfold same_setup. intros (H1 & H2 & H3 & H4 & H5 & H6) (K1 & K2 & K3 & K4 & K5 & K6).
  repeat split; congruence.
Qed.

Lemma keeps_ret {A} (a : A) : keeps_setup (ret a).
Proof. intros w c. apply same_setup_refl. Qed.

Lemma keeps_raise {A} (e : exn) : keeps_setup (raise (A := A) e).
Proof. intros w c. apply same_setup_refl. Qed.

Lemma keeps_lift_result {A} (r : result A) : keeps_setup (lift_result r).
Proof. intros w c. apply same_setup_refl. Qed.

Lemma keeps_gets {A} (g : World * SingBoxCore -> A) : keeps_setup (gets g).
Proof. intros w c. apply same_setup_refl. Qed.

Lemma keeps_in_world {A} (g : World -> result A * World) : keeps_setup (in_world g).
Proof. intros w c. unfold in_world. simpl. destruct (g w). apply same_setup_refl. Qed.

Lemma keeps_on_world (g : World -> World) : keeps_setup (on_world g).
Proof. intros w c. apply same_setup_refl. Qed.

Lemma keeps_set_process (p : option nat) : keeps_setup (on_self (set_process p)).
Proof. intros w c. repeat split. Qed.

Lemma keeps_set_restarting (b : bool) : keeps_setup (on_self (set_restarting b)).
Proof. intros w c. repeat split. Qed.

Lemma keeps_bind {A B} (m : CoreM A) (k : A -> CoreM B) :
  keeps_setup m -> (forall a, keeps_setup (k a)) -> keeps_setup (bind m k).
Proof.
  intros Hm Hk w c. unfold bind. specialize (Hm w c).
  destruct (m (w, c)) as [[a | e] [w' c']]; cbn [fst snd] in *; [| exact Hm].
  eapply same_setup_trans; [exact Hm | apply Hk].
Qed.

Lemma keeps_for_each {X} (xs : list X) (body : X -> CoreM unit) :
  (forall x, keeps_setup (body x)) -> keeps_setup (for_each xs body).
Proof.
  intros Hbody. induction xs as [| x xs IH]; simpl.
  - apply keeps_ret.
  - apply keeps_bind; [apply Hbody | intros _; exact IH].
Qed.

Lemma keeps_try_finally {A} (body : CoreM A) (final : CoreM unit) :
  keeps_setup body -> keeps_setup final -> keeps_setup (try_finally body final).
Proof.
  intros Hbody Hfinal w c. unfold try_finally. specialize (Hbody w c).
  destruct (body (w, c)) as [r [w' c']]. cbn [fst snd] in Hbody.
  specialize (Hfinal w' c').
  destruct (final (w', c')) as [[u | e] [w'' c'']]; cbn [fst snd] in *;
    eapply same_setup_trans; eassumption.
Qed.

Create HintDb keeps.
#[local] Hint Resolve keeps_ret keeps_raise keeps_lift_result keeps_gets keeps_in_world
  keeps_on_world keeps_set_process keeps_set_restarting : keeps.

Lemma stop_keeps_setup : keeps_setup stop.
Proof.
  intros w c. unfold stop. cbn [fst snd].
  destruct (started w c); cbn [negb]; [| apply same_setup_refl].
  destruct (process c) as [pid |]; [| apply same_setup_refl].
  revert w c.
  apply (keeps_bind (A := unit)); [auto with keeps | intros _].
  apply keeps_bind; [auto with keeps | intros exited].
  apply keeps_bind; [destruct exited; auto with keeps | intros _].
  apply keeps_bind; [auto with keeps | intros _].
  apply keeps_bind; [auto with keeps | intros funcs].
  apply keeps_for_each. auto with keeps.
Qed.

Lemma start_keeps_setup json_dumps config : keeps_setup (start json_dumps config).
Proof.
  intros w c. unfold start. cbn [fst snd].
  destruct (started w c); [apply same_setup_refl |].
  revert w c.
  apply (keeps_bind (A := dict)); [auto with keeps | intros items].
  apply keeps_bind; [auto with keeps | intros cmd].
  apply keeps_bind; [auto with keeps | intros cwd].
  apply keeps_bind; [auto with keeps | intros pid].
  apply keeps_bind; [auto with keeps | intros _].
  apply keeps_bind; [auto with keeps | intros _].
  apply keeps_bind; [unfold __capture_process_logs; auto with keeps | intros _].
  apply keeps_bind; [auto with keeps | intros funcs].
  apply keeps_for_each. auto with keeps.
Qed.

(** X6. [start], [stop] and [restart], however they end, leave the paths,
    the version read at construction, the callbacks and the log buffers
    of the core as they were: the ring and the deques of the subscribers
    live through a restart. *)
Theorem lifecycle_keeps_setup (json_dumps : dict -> string) (config : SingBoxConfig)
    (w : World) (c : SingBoxCore) :
  same_setup c (snd (snd (start json_dumps config (w, c))))
  /\ same_setup c (snd (snd (stop (w, c))))
  /\ same_setup c (snd (snd (restart json_dumps config (w, c)))).
Proof.
  split; [apply start_keeps_setup |]. split; [apply stop_keeps_setup |].
  unfold restart. cbn [fst snd].
  destruct (restarting c); [apply same_setup_refl |].
  revert w c.
  apply (keeps_bind (A := unit)); [auto with keeps | intros _].
  apply keeps_try_finally; [| auto with keeps].
  apply keeps_bind; [apply stop_keeps_setup | intros _; apply start_keeps_setup].
Qed.
(** ** The scope of [get_logs] and the bounds of the deques *)

Lemma capture_lines_unregistered (outputs : list string) (b : LogBuffers)
    (buf_id : nat) (buf : list string) :
  _temp_log_buffers b !! buf_id = None ->
  get_logs_exit buf_id
    (capture_lines outputs
       (mkLogBuffers (_logs_buffer b) (<[buf_id := buf]> (_temp_log_buffers b))))
  = capture_lines outputs b.
Proof.
  revert b buf. induction outputs as [| output outputs IH]; intros b buf Hfresh.
  - unfold capture_lines, get_logs_exit. simpl.
    rewrite delete_insert_eq, delete_id by exact Hfresh. destruct b. reflexivity.
  - unfold capture_lines. cbn [foldl]. fold (capture_lines outputs).
    rewrite !capture_line_fmap. cbn [_logs_buffer _temp_log_buffers].
    rewrite fmap_insert.
    assert (Hfresh' : ((fun buf => Deque.append LOGS_MAXLEN buf (py_strip output))
                         <$> _temp_log_buffers b) !! buf_id = None)
      by (rewrite lookup_fmap, Hfresh; reflexivity).
    exact (IH (mkLogBuffers _ _) _ Hfresh').
Qed.

(** X7. A subscription leaves no trace: its key was not in use, and once
    its scope has exited, the ring and the registry are what the lines
    read in between would have made of them without it. *)
Theorem get_logs_scope_leaves_no_trace (outputs : list string) (b : LogBuffers) :
  let buf_id := fst (get_logs_enter b) in
  _temp_log_buffers b !! buf_id = None
  /\ get_logs_exit buf_id (capture_lines outputs (snd (get_logs_enter b)))
     = capture_lines outputs b.
Proof.
  cbn zeta.
  assert (Hfresh : _temp_log_buffers b !! fst (get_logs_enter b) = None).
  { simpl. apply not_elem_of_dom. apply is_fresh. }
  split; [exact Hfresh |].
  apply capture_lines_unregistered. exact Hfresh.
Qed.

Lemma deques_within_bounds_step (t : LogTrace) (e : log_event) :
  deques_within_bounds t -> deques_within_bounds (log_step t e).
Proof.
  intros [[Hring Hsubs] Hcopies].
  destruct e as [output | | | | i | i | i]; cbn [log_step].
  - split; [split |]; cbn [lt_buffers lt_copies ring_append _logs_buffer _temp_log_buffers];
      [apply append_length; exact Hring | exact Hsubs | exact Hcopies].
  - destruct (lt_reader t); (split; [split |]); assumption.
  - destruct (lt_reader t) as [| output | output [| buf_id bufs]];
      try (split; [split |]; assumption).
    split; [split |]; cbn [lt_buffers lt_copies buf_append _logs_buffer _temp_log_buffers];
      [exact Hring | | exact Hcopies].
    intros i buf. destruct (decide (i = buf_id)) as [-> | Hne].
    + rewrite lookup_alter_eq.
      destruct (_temp_log_buffers (lt_buffers t) !! buf_id) as [buf0 |] eqn:Hbuf;
        [| discriminate].
      simpl. intros [= <-]. apply append_length. eapply Hsubs. exact Hbuf.
    + rewrite lookup_alter_ne by congruence. apply Hsubs.
  - split; [split |]; cbn [lt_buffers lt_copies]; [exact Hring | exact Hsubs |].
    intros i buf. destruct (decide (i = next_id t)) as [-> | Hne].
    + rewrite lookup_insert_eq. intros [= <-]. unfold get_logs_copy.
      rewrite make_lastn, lastn_length. unfold LOGS_MAXLEN. lia.
    + rewrite lookup_insert_ne by congruence. apply Hcopies.
  - destruct (lt_copies t !! i) as [buf0 |] eqn:Hcopy; [| split; [split |]; assumption].
    split; [split |];
      cbn [lt_buffers lt_copies get_logs_register _logs_buffer _temp_log_buffers];
      [exact Hring | |].
    + intros j buf. destruct (decide (j = i)) as [-> | Hne].
      * rewrite lookup_insert_eq. intros [= <-]. eapply Hcopies. exact Hcopy.
      * rewrite lookup_insert_ne by congruence. apply Hsubs.
    + intros j buf. destruct (decide (j = i)) as [-> | Hne].
      * rewrite lookup_delete_eq. discriminate.
      * rewrite lookup_delete_ne by congruence. apply Hcopies.
  - split; [split |];
      cbn [lt_buffers lt_copies get_logs_exit _logs_buffer _temp_log_buffers];
      [exact Hring | | exact Hcopies].
    intros j buf. destruct (decide (j = i)) as [-> | Hne].
    + rewrite lookup_delete_eq. discriminate.
    + rewrite lookup_delete_ne by congruence. apply Hsubs.
  - unfold consume.
    destruct (_temp_log_buffers (lt_buffers t) !! i) as [[| x buf'] |] eqn:Hi;
      cbn [Deque.popleft lt_buffers lt_copies];
      try (split; [split |]; assumption).
    split; [split |]; cbn [lt_buffers lt_copies _logs_buffer _temp_log_buffers];
      [exact Hring | | exact Hcopies].
    intros j buf. destruct (decide (j = i)) as [-> | Hne].
    + rewrite lookup_insert_eq. intros [= <-]. specialize (Hsubs i _ Hi).
      simpl in Hsubs. lia.
    + rewrite lookup_insert_ne by congruence. apply Hsubs.
Qed.

Lemma ring_step (t : LogTrace) (e : log_event) :
  _logs_buffer (lt_buffers (log_step t e))
  = foldl (Deque.append LOGS_MAXLEN) (_logs_buffer (lt_buffers t)) (appended [e]).
Proof.
  destruct e as [output | | | | i | i | i]; cbn [log_step appended foldl]; try reflexivity.
  - destruct (lt_reader t); reflexivity.
  - destruct (lt_reader t) as [| output | output [| buf_id bufs]]; reflexivity.
  - destruct (lt_copies t !! i); reflexivity.
  - unfold consume.
    destruct (_temp_log_buffers (lt_buffers t) !! i) as [[| x buf'] |]; reflexivity.
Qed.

Lemma appended_app (evs1 evs2 : list log_event) :
  appended (evs1 ++ evs2) = appended evs1 ++ appended evs2.
Proof.
  induction evs1 as [| e evs1 IH]; [reflexivity |].
  destruct e; simpl; rewrite IH; reflexivity.
Qed.

(** X8. Through every trace of the steps of the reader and of the
    subscribers, whoever comes, goes or takes, the ring and every deque,
    registered or yet to be, hold 100 lines at most, and the ring holds
    the last 100 of the lines it had and of those read since: what
    subscribers do never changes the ring. *)
Theorem buffers_stay_bounded (t : LogTrace) (evs : list log_event) :
  deques_within_bounds t ->
  deques_within_bounds (log_run t evs)
  /\ _logs_buffer (lt_buffers (log_run t evs))
     = Deque.lastn 100 (_logs_buffer (lt_buffers t) ++ appended evs).
Proof.
  revert t. induction evs as [| e evs IH]; intros t Hbounds.
  - split; [exact Hbounds |]. simpl. rewrite app_nil_r.
    symmetry. apply lastn_all. apply Hbounds.
  - change (log_run t (e :: evs)) with (log_run (log_step t e) evs).
    destruct (IH (log_step t e) (deques_within_bounds_step t e Hbounds)) as [Hb Hring].
    split; [exact Hb |]. rewrite Hring, ring_step.
    change (e :: evs) with ([e] ++ evs). rewrite appended_app.
    rewrite foldl_append_lastn by apply Hbounds.
    rewrite lastn_app_lastn, <- app_assoc. reflexivity.
Qed.

Lemma buffers_stay_bounded_witness :
  let evs := EvCopy :: EvRegister 0 :: flat_map line_steps lines_101 in
  deques_within_bounds new_trace
  /\ deques_within_bounds (log_run new_trace evs)
  /\ _logs_buffer (lt_buffers (log_run new_trace evs)) = map numbered_line (seq 1 100)
  /\ _temp_log_buffers (lt_buffers (log_run new_trace evs)) !! 0
     = Some (map numbered_line (seq 1 100)).
Proof.
  cbn zeta.
  assert (Hempty : deques_within_bounds new_trace).
  { split; [split; [simpl; lia |] |]; intros buf_id buf; simpl;
      rewrite lookup_empty; discriminate. }
  split; [exact Hempty |].
  destruct (buffers_stay_bounded new_trace
              (EvCopy :: EvRegister 0 :: flat_map line_steps lines_101) Hempty)
    as [Hb Hring].
  split; [exact Hb |]. split; [rewrite Hring |]; vm_compute; reflexivity.
Defined.

(** ** The reader loop *)

Lemma capture_lines_registry (outputs : list string) (b : LogBuffers) :
  _temp_log_buffers (capture_lines outputs b)
  = (fun buf => foldl (Deque.append LOGS_MAXLEN) buf (map py_strip outputs))
      <$> _temp_log_buffers b.
Proof.
  unfold capture_lines. revert b.
  induction outputs as [| o outputs IH]; intros b; cbn [foldl map].
  - symmetry. apply map_fmap_id.
  - rewrite IH, capture_line_fmap. cbn [_temp_log_buffers].
    rewrite <- map_fmap_compose. reflexivity.
Qed.

Lemma capture_loop_lines (reads rest : list Read) (b : LogBuffers) :
  lines_read reads = true ->
  capture_loop (reads ++ rest) b
  = capture_loop rest (capture_lines (map rd_output reads) b).
Proof.
  revert b. induction reads as [| read reads IH]; intros b Hall; [reflexivity |].
  cbn [lines_read forallb] in Hall. apply andb_true_iff in Hall as [Hread Hall].
  apply andb_true_iff in Hread as [Hprocess Houtput].
  cbn [app capture_loop map]. rewrite Hprocess, Houtput. cbn [negb].
  rewrite IH by exact Hall. reflexivity.
Qed.

(** X9. The reader loop. Of the lines it reads while [self.process] is
    set, each one is stripped and appended to the ring and to every deque
    in the registry, in the order read: the ring and each registered deque
    then hold the last 100 of what they held and of these lines, and the
    registry has the keys it had. After them the loop waits for the next
    read; at an empty read it breaks when the process is gone or has
    exited, leaving what follows unread, and goes on when the process still
    runs; and it ends when it finds [self.process] cleared. *)
Theorem capture_loop_reads (reads rest : list Read) (b : LogBuffers) :
  lines_read reads = true ->
  within_bounds b ->
  let outputs := map rd_output reads in
  let b' := capture_lines outputs b in
  _logs_buffer b' = after_lines outputs (_logs_buffer b)
  /\ (forall buf_id,
        _temp_log_buffers b' !! buf_id = after_lines outputs <$> _temp_log_buffers b !! buf_id)
  /\ capture_loop reads b = ([], b')
  /\ (forall output, capture_loop (reads ++ mkRead true EmptyString true :: rest) b = (rest, b')
                     /\ capture_loop (reads ++ mkRead false output true :: rest) b
                        = (mkRead false output true :: rest, b'))
  /\ capture_loop (reads ++ mkRead true EmptyString false :: rest) b = capture_loop rest b'.
Proof.
  intros Hall [Hring Hsubs] outputs b'.
  split; [| split; [| split; [| split]]].
  - subst b'. rewrite capture_lines_ring. apply foldl_append_lastn. exact Hring.
  - intros buf_id. subst b'. rewrite capture_lines_registry, lookup_fmap.
    destruct (_temp_log_buffers b !! buf_id) as [buf |] eqn:Hbuf; [| reflexivity].
    cbn [fmap option_fmap option_map]. f_equal.
    apply foldl_append_lastn. eapply Hsubs. exact Hbuf.
  - rewrite <- (app_nil_r reads) at 1. rewrite capture_loop_lines by exact Hall. reflexivity.
  - intros output. rewrite !capture_loop_lines by exact Hall. split; reflexivity.
  - rewrite capture_loop_lines by exact Hall. reflexivity.
Qed.

Lemma capture_loop_reads_witness :
  (lines_read padded_reads = true /\ within_bounds one_subscriber)
  /\ capture_loop padded_reads one_subscriber
     = ([], mkLogBuffers ["zero"; "a"; "b"] {[ 4 := ["zero"; "a"; "b"] ]})
  /\ capture_loop (padded_reads ++ [mkRead true EmptyString true; mkRead true "c" false])
       one_subscriber
     = ([mkRead true "c" false],
        mkLogBuffers ["zero"; "a"; "b"] {[ 4 := ["zero"; "a"; "b"] ]}).
Proof.
  assert (Hall : lines_read padded_reads = true) by reflexivity.
  assert (Hbounds : within_bounds one_subscriber).
  { unfold within_bounds, one_subscriber, LOGS_MAXLEN. cbn [_logs_buffer _temp_log_buffers].
    split; [cbn [length]; lia |]. intros buf_id buf Hbuf.
    apply lookup_singleton_Some in Hbuf as [_ <-]. cbn [length]. lia. }
  destruct (capture_loop_reads padded_reads [mkRead true "c" false] one_subscriber
              Hall Hbounds)
    as [_ [_ [Hloop [Hend _]]]].
  split; [split; assumption |].
  split.
  - rewrite Hloop. vm_compute. reflexivity.
  - rewrite (proj1 (Hend EmptyString)). vm_compute. reflexivity.
Defined.
(** ** The handler of a subscription *)

Lemma string_app_assoc (a b c : string) : (a +:+ b) +:+ c = a +:+ (b +:+ c).
Proof.
  induction a as [| x a IH]; [reflexivity |].
  change (String x ((a +:+ b) +:+ c) = String x (a +:+ (b +:+ c))).
  rewrite IH. reflexivity.
Qed.

Lemma string_app_nil_r (a : string) : a +:+ EmptyString = a.
Proof.
  induction a as [| x a IH]; [reflexivity |].
  change (String x (a +:+ EmptyString) = String x a). rewrite IH. reflexivity.
Qed.

Lemma joined_snoc (lines : list string) (log : string) :
  joined (lines ++ [log]) = joined lines +:+ (log +:+ newline).
Proof.
  unfold joined. induction lines as [| l lines IH]; simpl.
  - rewrite string_app_nil_r. reflexivity.
  - rewrite IH, !string_app_assoc. reflexivity.
Qed.

Lemma joined_app (lines1 lines2 : list string) :
  joined (lines1 ++ lines2) = joined lines1 +:+ joined lines2.
Proof.
  unfold joined. induction lines1 as [| l lines1 IH]; simpl; [reflexivity |].
  rewrite IH, !string_app_assoc. reflexivity.
Qed.

Lemma delivered_flush (text : string) (sent : list string) :
  delivered (mkCastState EmptyString (sent ++ [text])) = delivered (mkCastState text sent).
Proof.
  unfold delivered. simpl. induction sent as [| p sent IH]; simpl.
  - apply string_app_nil_r.
  - rewrite IH. reflexivity.
Qed.

Lemma delivered_more (text more : string) (sent : list string) :
  delivered (mkCastState (text +:+ more) sent) = delivered (mkCastState text sent) +:+ more.
Proof.
  unfold delivered. simpl. induction sent as [| p sent IH]; simpl.
  - reflexivity.
  - rewrite IH, string_app_assoc. reflexivity.
Qed.

(** The buffers of a trace with a handler are those of the trace of its
    steps. *)
Lemma cast_run_trace (buf_id : nat) (evs : list cast_event) (s : CastState * LogTrace) :
  snd (cast_run buf_id s evs) = log_run (snd s) (cast_log_events buf_id evs).
Proof.
  revert s. induction evs as [| e evs IH]; intros s; [reflexivity |].
  change (cast_run buf_id s (e :: evs)) with (cast_run buf_id (cast_step buf_id s e) evs).
  rewrite IH. destruct e; reflexivity.
Qed.

(** What a turn of the handler does to the buffers is the taking of a
    line that a trace records. *)
Lemma cast_turn_buffers (buf_id : nat) (due : bool) (hs : CastState) (t : LogTrace) :
  snd (cast_turn buf_id due hs (lt_buffers t))
  = lt_buffers (log_step t (EvConsume buf_id)).
Proof.
  unfold cast_turn, log_step.
  destruct (consume buf_id (lt_buffers t)) as [[log |] b']; reflexivity.
Qed.

Lemma cast_step_delivered (buf_id : nat) (s : CastState * LogTrace) (e : cast_event) :
  tracked buf_id (snd s) ->
  only_handler_takes buf_id [e] = true ->
  delivered (fst s) = joined (default [] (lt_taken (snd s) !! buf_id)) ->
  delivered (fst (cast_step buf_id s e))
  = joined (default [] (lt_taken (snd (cast_step buf_id s e)) !! buf_id)).
Proof.
  destruct s as [hs t]. cbn [fst snd]. intros Htracked Honly Hinv.
  destruct e as [due | e]; cbn [cast_step fst snd].
  - unfold cast_turn, log_step.
    assert (Hflush :
      delivered (if due && py_truthy_str (cast_cache hs)
                 then mkCastState EmptyString (cast_sent hs ++ [cast_cache hs])
                 else hs) = delivered hs).
    { destruct (due && py_truthy_str (cast_cache hs)); [| reflexivity].
      rewrite delivered_flush. destruct hs. reflexivity. }
    destruct (consume buf_id (lt_buffers t)) as [[log |] b'];
      cbn [fst snd lt_taken].
    + rewrite lookup_insert_eq. cbn [default from_option id].
      rewrite joined_snoc, <- Hinv, <- Hflush.
      destruct (due && py_truthy_str (cast_cache hs)); apply delivered_more.
    + rewrite Hflush. exact Hinv.
  - rewrite Hinv. f_equal. f_equal.
    destruct e as [output | | | | i | i | i]; cbn [log_step lt_taken]; try reflexivity.
    + destruct (lt_reader t); reflexivity.
    + destruct (lt_reader t) as [| output | output [| j bufs]]; reflexivity.
    + pose proof (tracked_next_id buf_id t Htracked) as Hne.
      rewrite lookup_delete_ne by exact Hne. reflexivity.
    + destruct (lt_copies t !! i); reflexivity.
    + simpl in Honly. rewrite andb_true_r in Honly.
      apply negb_true_iff, Nat.eqb_neq in Honly.
      destruct (consume i (lt_buffers t)) as [[log |] b']; cbn [lt_taken]; [| reflexivity].
      rewrite lookup_insert_ne by exact Honly. reflexivity.
Qed.

Lemma cast_run_delivered (buf_id : nat) (evs : list cast_event) (s : CastState * LogTrace) :
  tracked buf_id (snd s) ->
  stays_subscribed buf_id (cast_log_events buf_id evs) = true ->
  only_handler_takes buf_id evs = true ->
  delivered (fst s) = joined (default [] (lt_taken (snd s) !! buf_id)) ->
  Forall (fun text => text <> EmptyString) (cast_sent (fst s)) ->
  delivered (fst (cast_run buf_id s evs))
  = joined (default [] (lt_taken (snd (cast_run buf_id s evs)) !! buf_id))
  /\ Forall (fun text => text <> EmptyString) (cast_sent (fst (cast_run buf_id s evs))).
Proof.
  revert s. induction evs as [| e evs IH]; intros s Htracked Hstay Honly Hinv Hsent.
  - split; assumption.
  - change (cast_run buf_id s (e :: evs))
      with (cast_run buf_id (cast_step buf_id s e) evs).
    assert (Hstay1 : stays_subscribed buf_id (cast_log_events buf_id [e]) = true
                     /\ stays_subscribed buf_id (cast_log_events buf_id evs) = true).
    { destruct e as [due | []]; simpl in *; try (split; [reflexivity | assumption]).
      apply andb_true_iff in Hstay as [-> ?]. split; [reflexivity | assumption]. }
    assert (Honly1 : only_handler_takes buf_id [e] = true
                     /\ only_handler_takes buf_id evs = true).
    { destruct e as [due | []]; simpl in *; try (split; [reflexivity | assumption]).
      apply andb_true_iff in Honly as [-> ?]. split; [reflexivity | assumption]. }
    destruct Hstay1 as [Hs1 Hs2]. destruct Honly1 as [Ho1 Ho2].
    apply IH; [| exact Hs2 | exact Ho2 | apply cast_step_delivered; assumption |].
    + destruct e as [due | e]; cbn [cast_step snd].
      * apply log_step_tracked; [exact Htracked | reflexivity].
      * apply log_step_tracked; [exact Htracked | exact Hs1].
    + destruct e as [due | e]; cbn [cast_step fst]; [| exact Hsent].
      unfold cast_turn.
      assert (Hflushed :
        Forall (fun text => text <> EmptyString)
          (cast_sent (if due && py_truthy_str (cast_cache (fst s))
                      then mkCastState EmptyString
                             (cast_sent (fst s) ++ [cast_cache (fst s)])
                      else fst s))).
      { destruct (due && py_truthy_str (cast_cache (fst s))) eqn:Hdue; [| exact Hsent].
        apply andb_true_iff in Hdue as [_ Htruthy]. simpl.
        apply Forall_app. split; [exact Hsent |].
        apply Forall_singleton. intros Hempty. rewrite Hempty in Htruthy.
        discriminate. }
      destruct (consume buf_id (lt_buffers (snd s))) as [[log |] b']; exact Hflushed.
Qed.

(** X10. The handler of a subscription passes on what it takes, as it
    takes it. From the copy it makes on entering [get_logs], through the
    steps of the other threads, its registration and its turns, whatever
    the reader and the other subscribers do in between: at every moment
    the texts its callback was called with, followed by the text it holds
    for the next call, are the lines it took from its deque, in order,
    each followed by a newline; nothing is left out, repeated or
    reordered, however the clock falls, and the callback is never called
    with an empty text. *)
Theorem cast_delivers_in_order (t0 : LogTrace) (between : list log_event)
    (evs : list cast_event) :
  let buf_id := next_id t0 in
  let steps := handler_trace buf_id between evs in
  let s := cast_run buf_id (mkCastState EmptyString [], log_step t0 EvCopy) steps in
  stays_subscribed buf_id (cast_log_events buf_id steps) = true ->
  only_handler_takes buf_id steps = true ->
  delivered (fst s) = joined (default [] (lt_taken (snd s) !! buf_id))
  /\ Forall (fun text => text <> EmptyString) (cast_sent (fst s)).
Proof.
  cbn zeta. intros Hstay Honly.
  destruct (copy_tracked t0) as [Htracked [_ [Htaken _]]].
  apply cast_run_delivered; try assumption.
  - cbn [fst snd]. rewrite Htaken. reflexivity.
  - constructor.
Qed.

(** X11. From the ring to the callback. A handler makes its copy of the
    ring, registers it and takes its turns, its scope open, no one else
    taking from its deque, and its deque holding fewer than 100 lines
    whenever the reader appends to it. Then what its callback received,
    what it holds for the next call, what waits in its deque and the line
    the reader is just about to append to it are, put end to end, the
    copy of the ring followed by the lines whose fan-out began after the
    registration, in order, each followed by a newline. A line fanned out
    between the copy and the registration is not among them, and a line
    that was in the ring at the copy and is fanned out after the
    registration is there twice. *)
Theorem cast_end_to_end (t0 : LogTrace) (between : list log_event) (evs : list cast_event) :
  let buf_id := next_id t0 in
  let t1 := log_step t0 EvCopy in
  let steps := handler_trace buf_id between evs in
  let s := cast_run buf_id (mkCastState EmptyString [], t1) steps in
  in_order t1 (cast_log_events buf_id steps) = true ->
  stays_subscribed buf_id (cast_log_events buf_id steps) = true ->
  only_handler_takes buf_id steps = true ->
  keeps_up buf_id t1 (cast_log_events buf_id steps) = true ->
  delivered (fst s) +:+ joined (held buf_id (snd s) ++ owed buf_id (snd s))
  = joined (Deque.lastn 100 (_logs_buffer (lt_buffers t0))
            ++ fanned_out buf_id false (pending (lt_reader t0))
                 (cast_log_events buf_id steps)).
Proof.
  cbn zeta. intros Horder Hstay Honly Hkeep.
  destruct (copy_tracked t0) as [Htracked [Hflag [Htaken [Hheld Howed]]]].
  destruct (cast_run_delivered (next_id t0) (handler_trace (next_id t0) between evs)
              (mkCastState EmptyString [], log_step t0 EvCopy))
    as [Hdelivered _]; try assumption.
  { cbn [fst snd]. rewrite Htaken. reflexivity. }
  { constructor. }
  rewrite Hdelivered, <- joined_app, app_assoc.
  rewrite cast_run_trace. cbn [snd].
  pose proof (log_run_view (next_id t0) (cast_log_events _ (handler_trace _ between evs))
                (log_step t0 EvCopy) Htracked Horder Hstay Hkeep) as Hview.
  unfold view in Hview. rewrite Hview, Htaken, Hheld, Hflag, Howed, app_nil_r.
  reflexivity.
Qed.
(** ** More on the inbound filter and on the construction of a configuration *)

Lemma dict_set_set (key : string) (v v' : json) (d : dict) :
  dict_set key v (dict_set key v' d) = dict_set key v d.
Proof.
  induction d as [| [k v0] d IH]; simpl.
  - rewrite String.eqb_refl. reflexivity.
  - destruct (key_is key k) eqn:Hk; simpl; rewrite Hk; [reflexivity |].
    rewrite IH. reflexivity.
Qed.

Lemma filter_loop_all_allowed (tags : list string) (items acc : list json) :
  (forall x, x ∈ items -> exists entry, x = JObj entry /\ entry_allowed tags entry = true) ->
  filter_loop (Some tags) items acc = Ok (acc ++ items).
Proof.
  revert acc. induction items as [| item items IH]; intros acc Hall.
  - simpl. rewrite app_nil_r. reflexivity.
  - destruct (Hall item) as [entry [-> Hallowed]]; [apply list_elem_of_here |].
    cbn [filter_loop py_get result_bind].
    rewrite tag_allowed_entry, Hallowed, IH.
    + rewrite <- app_assoc. reflexivity.
    + intros x Hx. apply Hall. apply list_elem_of_further. exact Hx.
Qed.

Lemma apply_filters_stable (allow : option (list string)) (self self' : dict) :
  _apply_filters allow self = Ok self' ->
  _apply_filters allow self' = Ok self'.
Proof.
  unfold _apply_filters.
  destruct (no_inbound_filter allow) eqn:Hno; [intros [= <-]; reflexivity |].
  destruct allow as [[| tag tags] |]; try discriminate Hno.
  destruct (py_iter (dict_get "inbounds" (JArr []) self)) as [items | e];
    [| discriminate].
  cbn [result_bind].
  destruct (filter_loop (Some (tag :: tags)) items []) as [kept | e] eqn:Hloop;
    [| discriminate].
  cbn [result_bind]. intros [= <-].
  unfold dict_get. rewrite dict_lookup_set_eq. cbn [default from_option id py_iter result_bind].
  rewrite filter_loop_all_allowed.
  - cbn [app result_bind]. rewrite dict_set_set. reflexivity.
  - intros x Hx. destruct (filter_loop_kept _ _ _ _ Hloop x Hx) as [Hnil | Hentry].
    + apply elem_of_nil in Hnil. contradiction.
    + exact Hentry.
Qed.

(** X12. The filter is idempotent: a document it has accepted and
    filtered is accepted again and left as it is, and so is the document
    of every configuration that was built. *)
Theorem apply_filters_idempotent (allow : option (list string)) (self self' : dict) :
  _apply_filters allow self = Ok self' ->
  _apply_filters allow self' = Ok self'
  /\ forall cert key loads arg peer config,
       SingBoxConfig_init cert key allow loads arg peer = Ok config ->
       _apply_filters allow (cfg_items config) = Ok (cfg_items config).
Proof.
  intros Hok. split; [exact (apply_filters_stable _ _ _ Hok) |].
  intros cert key loads arg peer config. unfold SingBoxConfig_init.
  destruct arg as [raw | c]; [| discriminate].
  destruct (loads raw) as [v |]; [| discriminate].
  destruct (dict_init v) as [d |]; [| discriminate]. cbn [result_bind].
  destruct (_apply_filters allow d) as [d' |] eqn:Hfilter; [| discriminate].
  cbn [result_bind]. intros [= <-]. exact (apply_filters_stable _ _ _ Hfilter).
Qed.

Lemma apply_filters_idempotent_witness :
  _apply_filters (Some ["a"; "c"]) abcd_document
  = Ok [("log", JObj [("level", JStr "info")]);
        ("inbounds", JArr (map JObj [inbound "a"; inbound "c"]))]
  /\ _apply_filters (Some ["a"; "c"])
       [("log", JObj [("level", JStr "info")]);
        ("inbounds", JArr (map JObj [inbound "a"; inbound "c"]))]
     = Ok [("log", JObj [("level", JStr "info")]);
           ("inbounds", JArr (map JObj [inbound "a"; inbound "c"]))].
Proof.
  assert (Hfirst : _apply_filters (Some ["a"; "c"]) abcd_document
                   = Ok [("log", JObj [("level", JStr "info")]);
                         ("inbounds", JArr (map JObj [inbound "a"; inbound "c"]))])
    by reflexivity.
  split; [exact Hfirst |].
  exact (proj1 (apply_filters_idempotent _ _ _ Hfirst)).
Defined.

Lemma filter_loop_not_object (allow : option (list string)) (items acc : list json) :
  forallb json_object items = false ->
  filter_loop allow items acc = Raise AttributeError.
Proof.
  revert acc. induction items as [| item items IH]; intros acc Hsome; [discriminate |].
  simpl in Hsome. cbn [filter_loop].
  destruct item; simpl in *; try reflexivity.
  apply IH. exact Hsome.
Qed.

(** X13. With an allow list that is not empty the filter rejects a
    document whose inbounds hold an item that is not an object, with
    AttributeError, and one whose inbounds are null, a boolean or a
    number, with TypeError; without an allow list the same documents
    pass untouched. *)
Theorem apply_filters_rejects (tag : string) (tags : list string) (self : dict) :
  (forall items,
     dict_lookup "inbounds" self = Some (JArr items) ->
     forallb json_object items = false ->
     _apply_filters (Some (tag :: tags)) self = Raise AttributeError)
  /\ (forall v,
        dict_lookup "inbounds" self = Some v ->
        json_scalar v = true ->
        _apply_filters (Some (tag :: tags)) self = Raise TypeError)
  /\ _apply_filters None self = Ok self
  /\ _apply_filters (Some []) self = Ok self.
Proof.
  split; [| split; [| split; reflexivity]].
  - intros items Hin Hsome. unfold _apply_filters, dict_get. rewrite Hin.
    cbn [no_inbound_filter default from_option id py_iter result_bind].
    rewrite filter_loop_not_object by exact Hsome. reflexivity.
  - intros v Hin Hscalar. unfold _apply_filters, dict_get. rewrite Hin.
    cbn [no_inbound_filter default from_option id].
    destruct v; try discriminate Hscalar; reflexivity.
Qed.

Lemma apply_filters_rejects_witness :
  _apply_filters (Some ["a"]) [("inbounds", JArr [JObj (inbound "a"); JStr "b"])]
  = Raise AttributeError
  /\ _apply_filters (Some ["a"]) [("inbounds", JNull)] = Raise TypeError
  /\ _apply_filters None [("inbounds", JNull)] = Ok [("inbounds", JNull)].
Proof.
  split; [| split].
  - exact (proj1 (apply_filters_rejects "a" []
                    [("inbounds", JArr [JObj (inbound "a"); JStr "b"])])
             [JObj (inbound "a"); JStr "b"] eq_refl eq_refl).
  - exact (proj1 (proj2 (apply_filters_rejects "a" [] [("inbounds", JNull)]))
             JNull eq_refl eq_refl).
  - exact (proj1 (proj2 (proj2 (apply_filters_rejects "a" [] [("inbounds", JNull)])))).
Defined.

(** X14. The construction of a configuration: a text that does not parse
    gives the error of the parser; one that parses to null, a boolean or
    a number gives TypeError; one that parses to an empty list gives the
    empty document, which the filter completes with an empty list of
    inbounds when an allow list is set; and every configuration built
    carries the local certificate and key and the peer it was built
    for. *)
Theorem SingBoxConfig_init_cases (SSL_CERT_FILE SSL_KEY_FILE : string)
    (SINGBOX_INBOUNDS : option (list string)) (json_loads : string -> option json)
    (raw : string) (peer : option string) :
  let init := SingBoxConfig_init SSL_CERT_FILE SSL_KEY_FILE SINGBOX_INBOUNDS json_loads in
  (json_loads raw = None -> init (ArgStr raw) peer = Raise JSONDecodeError)
  /\ (forall v, json_loads raw = Some v -> json_scalar v = true ->
        init (ArgStr raw) peer = Raise TypeError)
  /\ (json_loads raw = Some (JArr []) ->
      init (ArgStr raw) peer
      = Ok (mkSingBoxConfig
              (if no_inbound_filter SINGBOX_INBOUNDS then [] else [("inbounds", JArr [])])
              SSL_CERT_FILE SSL_KEY_FILE peer))
  /\ (forall config, init (ArgStr raw) peer = Ok config ->
        ssl_cert config = SSL_CERT_FILE /\ ssl_key config = SSL_KEY_FILE
        /\ peer_ip config = peer).
Proof.
  cbn zeta. unfold SingBoxConfig_init.
  split; [| split; [| split]].
  - intros ->. reflexivity.
  - intros v -> Hscalar. destruct v; try discriminate Hscalar; reflexivity.
  - intros ->. cbn [dict_init py_iter dict_update_pairs result_bind].
    unfold _apply_filters.
    destruct (no_inbound_filter SINGBOX_INBOUNDS); reflexivity.
  - intros config. destruct (json_loads raw) as [v |]; [| discriminate].
    destruct (dict_init v) as [d |]; [| discriminate]. cbn [result_bind].
    destruct (_apply_filters SINGBOX_INBOUNDS d) as [d' |] eqn:Hfilter; [| discriminate].
    cbn [result_bind]. intros [= <-]. repeat split.
Qed.

Lemma SingBoxConfig_init_cases_witness :
  SingBoxConfig_init "cert.pem" "key.pem" (Some ["a"])
    (fun text => if String.eqb text "[]" then Some (JArr [])
                 else if String.eqb text "null" then Some JNull else None)
    (ArgStr "[]") (Some "10.0.0.1")
  = Ok (mkSingBoxConfig [("inbounds", JArr [])] "cert.pem" "key.pem" (Some "10.0.0.1"))
  /\ SingBoxConfig_init "cert.pem" "key.pem" (Some ["a"])
       (fun text => if String.eqb text "[]" then Some (JArr [])
                    else if String.eqb text "null" then Some JNull else None)
       (ArgStr "null") (Some "10.0.0.1")
     = Raise TypeError.
Proof.
  split.
  - exact (proj1 (proj2 (proj2 (SingBoxConfig_init_cases "cert.pem" "key.pem" (Some ["a"])
                                  _ "[]" (Some "10.0.0.1")))) eq_refl).
  - exact (proj1 (proj2 (SingBoxConfig_init_cases "cert.pem" "key.pem" (Some ["a"])
                           _ "null" (Some "10.0.0.1"))) JNull eq_refl eq_refl).
Defined.

(** ** More on the service *)

Section MoreService.

Context {XRayCore XRayConfig : Type}.
Variable xray : XrayModule XRayCore XRayConfig.
Variable SINGBOX_ENABLED : bool.
Variable SINGBOX_EXECUTABLE_PATH : string.
Variable SINGBOX_WORKING_DIR : string.
Variable SSL_CERT_FILE : string.
Variable SSL_KEY_FILE : string.
Variable SINGBOX_INBOUNDS : option (list string).
Variable json_loads : string -> option json.
Variable json_dumps : dict -> string.

Local Abbreviation the_start :=
  (singbox_start (XRayCore := XRayCore) SINGBOX_ENABLED SINGBOX_EXECUTABLE_PATH
     SINGBOX_WORKING_DIR SSL_CERT_FILE SSL_KEY_FILE SINGBOX_INBOUNDS json_loads json_dumps).

Local Abbreviation the_restart :=
  (singbox_restart (XRayCore := XRayCore) SINGBOX_ENABLED SINGBOX_EXECUTABLE_PATH
     SINGBOX_WORKING_DIR SSL_CERT_FILE SSL_KEY_FILE SINGBOX_INBOUNDS json_loads json_dumps).

Local Abbreviation the_init :=
  (SingBoxConfig_init SSL_CERT_FILE SSL_KEY_FILE SINGBOX_INBOUNDS json_loads).

(** X15. [singbox_restart] on a service that holds no Sing-box core
    never starts one: it hands the configuration it has built, not the
    text, to [singbox_start], whose parser raises TypeError; the world
    and the service are left as they were. *)
Theorem singbox_restart_without_core (w : World) (svc : XrayService XRayCore)
    (cid : nat) (controller : Connection) (peer : option string) (raw : string)
    (config : SingBoxConfig) :
  SINGBOX_ENABLED = true ->
  singbox_core svc = None ->
  connection svc = Some cid ->
  w_conns w !! cid = Some controller ->
  c_peer controller = Some peer ->
  the_init (ArgStr raw) peer = Ok config ->
  the_restart raw (w, svc) = (Raise TypeError, (w, svc)).
Proof.
  intros Henabled Hcore Hconn Hlookup Hpeer Hconfig.
  unfold singbox_restart. rewrite Henabled. cbn [negb].
  unfold bind at 1, connection_peer. cbn [fst snd]. rewrite Hconn.
  unfold conn_read at 1. cbn [fst snd]. rewrite Hlookup.
  unfold read_peer at 1. rewrite Hpeer.
  unfold bind at 1, lift_result at 1. rewrite Hconfig. cbn [fst snd]. rewrite Hcore.
  unfold singbox_start. cbn [negb].
  unfold bind at 1. cbn [fst snd]. rewrite Hcore.
  unfold logged, bind at 1, connection_peer. cbn [fst snd]. rewrite Hconn.
  unfold conn_read at 1. cbn [fst snd]. rewrite Hlookup.
  unfold read_peer. rewrite Hpeer. reflexivity.
Qed.

(** X16. When the executable is not there, [singbox_start] raises
    FileNotFoundError, launches nothing and starts no thread, but leaves
    behind the core it has built, without a version, with its callbacks
    and no process: the service holds a core from then on. *)
Theorem singbox_start_missing_executable (w : World) (svc : XrayService XRayCore)
    (cid : nat) (controller : Connection) (peer : option string) (raw : string)
    (config : SingBoxConfig) (items : dict) :
  SINGBOX_ENABLED = true ->
  singbox_core svc = None ->
  connection svc = Some cid ->
  w_conns w !! cid = Some controller ->
  c_peer controller = Some peer ->
  the_init (ArgStr raw) peer = Ok config ->
  normalize_log_level (cfg_items config) = Ok items ->
  existsb (fun e => String.eqb (fst e) SINGBOX_EXECUTABLE_PATH) (w_installed w) = false ->
  the_start (ArgStr raw) (w, svc)
  = (Raise FileNotFoundError,
     (w, set_singbox_core
           (Some (with_peer_hooks controller
                    (built_core SINGBOX_EXECUTABLE_PATH SINGBOX_WORKING_DIR None)))
           svc))
  /\ process (with_peer_hooks controller
                (built_core SINGBOX_EXECUTABLE_PATH SINGBOX_WORKING_DIR None)) = None.
Proof.
  intros Henabled Hcore Hconn Hlookup Hpeer Hconfig Hitems Hexe.
  assert (Hversion : get_version w SINGBOX_EXECUTABLE_PATH = Ok None).
  { unfold get_version, version_run.
    rewrite (executable_at_missing w SINGBOX_EXECUTABLE_PATH Hexe). reflexivity. }
  assert (Hnone : process (with_peer_hooks controller
                             (built_core SINGBOX_EXECUTABLE_PATH SINGBOX_WORKING_DIR None))
                  = None).
  { unfold with_peer_hooks.
    destruct (existsb (String.eqb "on_singbox_start") (c_root controller));
      destruct (existsb (String.eqb "on_singbox_stop") (c_root controller)); reflexivity. }
  assert (Hpath : executable_path
                    (with_peer_hooks controller
                       (built_core SINGBOX_EXECUTABLE_PATH SINGBOX_WORKING_DIR None))
                  = SINGBOX_EXECUTABLE_PATH).
  { unfold with_peer_hooks.
    destruct (existsb (String.eqb "on_singbox_start") (c_root controller));
      destruct (existsb (String.eqb "on_singbox_stop") (c_root controller)); reflexivity. }
  split; [| exact Hnone].
  rewrite (singbox_start_builds SINGBOX_ENABLED SINGBOX_EXECUTABLE_PATH SINGBOX_WORKING_DIR
             SSL_CERT_FILE SSL_KEY_FILE SINGBOX_INBOUNDS json_loads json_dumps
             w svc cid controller peer raw config None
             Henabled Hcore Hconn Hlookup Hpeer Hconfig Hversion).
  unfold on_singbox_core. cbn [fst snd singbox_core set_singbox_core].
  rewrite (start_no_executable json_dumps config items w _);
    [reflexivity
    | unfold started; rewrite Hnone; reflexivity
    | exact Hitems
    | rewrite Hpath; exact Hexe].
Qed.

(** X17. [singbox_stop] always returns normally and leaves the service
    without a Sing-box core; a process the core ran has exited, even when
    no thread could be started for its stop callbacks. *)
Theorem singbox_stop_always_clears (w : World) (svc : XrayService XRayCore) :
  let s' := snd (singbox_stop (w, svc)) in
  fst (singbox_stop (w, svc)) = Ok tt
  /\ singbox_core (snd s') = None
  /\ core (snd s') = core svc
  /\ connection (snd s') = connection svc
  /\ forall c pid, singbox_core svc = Some c -> process c = Some pid ->
       poll (fst s') pid <> None.
Proof.
  cbn zeta. unfold singbox_stop, bind, on_self, modify. cbn [fst snd].
  destruct (singbox_core svc) as [c |] eqn:Hcore.
  - unfold try_except, on_singbox_core. cbn [fst snd]. rewrite Hcore.
    destruct (started w c) eqn:Hstarted.
    + destruct (started_process w c Hstarted) as [pid [Hproc Hpoll]].
      rewrite (stop_running w c pid Hproc Hpoll).
      assert (Hdone : poll (start_threads
                              (map ThHook (take (w_thread_budget w) (_on_stop_funcs c)))
                              (signalled pid w)) pid <> None).
      { pose proof (poll_signalled w pid Hpoll) as Hafter.
        unfold poll, start_threads in *. simpl in *. rewrite Hafter. discriminate. }
      unfold hooks_outcome.
      destruct (length (_on_stop_funcs c) <=? w_thread_budget w)%nat; cbn [fst snd];
        (repeat split; try reflexivity;
         intros c0 pid0 [= <-] Hpid0; rewrite Hproc in Hpid0;
         injection Hpid0 as <-; exact Hdone).
    + rewrite (stop_not_started w c Hstarted). cbn [fst snd].
      repeat split; try reflexivity.
      intros c0 pid0 [= <-] Hpid0 Hpoll.
      unfold started in Hstarted. rewrite Hpid0, Hpoll in Hstarted. discriminate.
  - cbn [fst snd]. repeat split; try reflexivity.
    intros c pid Hsome. discriminate.
Qed.

(** X18. [on_disconnect] of the connection the service holds, on a
    service with a running Sing-box core and no Xray core, ends the process
    and returns the service to its initial state, given threads for the
    stop callbacks. *)
Theorem on_disconnect_ends_singbox (w : World) (svc : XrayService XRayCore)
    (conn : nat) (controller : Connection) (c : SingBoxCore) (pid : nat) :
  connection svc = Some conn ->
  w_conns w !! conn = Some controller ->
  c_peer controller <> None ->
  core svc = None ->
  singbox_core svc = Some c ->
  process c = Some pid ->
  poll w pid = None ->
  length (_on_stop_funcs c) <= w_thread_budget w ->
  on_disconnect xray conn (w, svc) = (Ok tt, (stopped_world pid c w, XrayService_init))
  /\ poll (stopped_world pid c w) pid <> None
  /\ w_threads (stopped_world pid c w) = w_threads w ++ map ThHook (_on_stop_funcs c).
Proof.
  intros Hconn Hlookup Hpeer Hcore Hsing Hproc Hpoll Hbudget.
  destruct (c_peer controller) as [peer |] eqn:Hp; [| congruence].
  split; [| split].
  - unfold on_disconnect. cbn [fst snd].
    rewrite bool_decide_eq_true_2 by exact Hconn.
    unfold bind at 1, connection_peer. cbn [fst snd]. rewrite Hconn.
    unfold conn_read. cbn [fst snd]. rewrite Hlookup. unfold read_peer. rewrite Hp.
    unfold bind at 1. cbn [fst snd]. rewrite Hcore.
    unfold bind at 1. cbn [fst snd]. rewrite Hsing.
    unfold on_singbox_core. cbn [fst snd]. rewrite Hsing.
    rewrite (stop_running w c pid Hproc Hpoll).
    unfold hooks_outcome.
    destruct (Nat.leb_spec (length (_on_stop_funcs c)) (w_thread_budget w)); [| lia].
    reflexivity.
  - pose proof (poll_signalled w pid Hpoll) as Hafter.
    unfold stopped_world, poll, start_threads in *. simpl in *.
    rewrite Hafter. discriminate.
  - unfold stopped_world, start_threads. simpl. rewrite take_ge by lia. reflexivity.
Qed.

(** X19. The first connection: on a service that holds none, a candidate
    whose socket gives a host and a port is admitted without a ping, and
    its host recorded; when the socket does not give a pair, as for an
    IPv6 peer, [on_connect] raises and the service holds no connection. *)
Theorem on_connect_first (w : World) (svc : XrayService XRayCore) (conn : nat)
    (candidate : Connection) :
  connection svc = None ->
  w_conns w !! conn = Some candidate ->
  (forall host port, c_sockaddr candidate = AddrInet host port ->
     on_connect conn (w, svc)
     = (Ok tt,
        (w_with_conns w (<[conn := c_with_peer candidate (Some host)]> (w_conns w)),
         set_connection (Some conn) svc)))
  /\ (forall host port flow scope, c_sockaddr candidate = AddrInet6 host port flow scope ->
        on_connect conn (w, svc) = (Raise ValueError, (w, svc))).
Proof.
  intros Hnone Hcand. split.
  - intros host port Haddr. unfold on_connect. cbn [fst snd]. rewrite Hnone.
    unfold bind at 1, ret at 1.
    unfold bind at 1, conn_read at 1. cbn [fst snd]. rewrite Hcand.
    unfold getpeername_host. rewrite Haddr.
    unfold bind at 1, on_self, modify, conn_update. cbn [fst snd].
    rewrite Hcand. reflexivity.
  - intros host port flow scope Haddr. unfold on_connect. cbn [fst snd]. rewrite Hnone.
    unfold bind at 1, ret at 1.
    unfold bind at 1, conn_read at 1. cbn [fst snd]. rewrite Hcand.
    unfold getpeername_host. rewrite Haddr. reflexivity.
Qed.

(** X20. Whatever [on_connect] does, the connection the service holds
    afterwards has its peer recorded, if the one it held before had: the
    read of [self.connection.peer] in the other methods does not fail on
    a connection admitted by [on_connect]. *)
Theorem on_connect_keeps_peer_recorded (w : World) (svc : XrayService XRayCore)
    (conn : nat) :
  peer_recorded w svc ->
  let s' := snd (on_connect conn (w, svc)) in
  peer_recorded (fst s') (snd s').
Proof.
  intros Hrec. cbn zeta.
  unfold on_connect, bind, try_except, conn_read, conn_update, read_peer,
    getpeername_host, ret, on_self, modify.
  cbn [fst snd].
  assert (Hkept : forall w' : World, w_conns w' = w_conns w ->
                    peer_recorded w' svc).
  { intros w' Hsame. unfold peer_recorded in *. rewrite Hsame. exact Hrec. }
  destruct (connection svc) as [cur |] eqn:Hconn; cbn [fst snd].
  - unfold peer_recorded in Hrec. rewrite Hconn in Hrec.
    destruct Hrec as [current [peer [Hcur Hpeer]]].
    rewrite Hcur. cbn [fst snd].
    destruct (c_ping current) as [[] | e]; cbn [fst snd].
    + rewrite Hcur, Hpeer. cbn [fst snd].
      destruct (w_conns w !! conn) as [candidate |] eqn:Hcand; cbn [fst snd];
        [| apply Hkept; reflexivity].
      unfold peer_recorded. rewrite Hconn. cbn [w_conns w_with_conns].
      destruct (decide (conn = cur)) as [-> | Hne].
      * rewrite lookup_insert_eq. rewrite Hcur in Hcand. injection Hcand as <-.
        eexists. eexists. split; [reflexivity | exact Hpeer].
      * rewrite lookup_insert_ne by exact Hne. eauto.
    + destruct (is_lost e); cbn [fst snd]; [| apply Hkept; reflexivity].
      destruct (w_conns w !! conn) as [candidate |] eqn:Hcand; cbn [fst snd];
        [| apply Hkept; reflexivity].
      destruct (c_sockaddr candidate); cbn [fst snd];
        try (apply Hkept; reflexivity).
      rewrite Hcand. cbn [fst snd]. unfold peer_recorded.
      cbn [connection set_connection w_conns w_with_conns].
      eexists. eexists. split; [apply lookup_insert_eq | reflexivity].
  - destruct (w_conns w !! conn) as [candidate |] eqn:Hcand; cbn [fst snd];
      [| apply Hkept; reflexivity].
    destruct (c_sockaddr candidate); cbn [fst snd];
      try (apply Hkept; reflexivity).
    rewrite Hcand. cbn [fst snd]. unfold peer_recorded.
    cbn [connection set_connection w_conns w_with_conns].
    eexists. eexists. split; [apply lookup_insert_eq | reflexivity].
Qed.

End MoreService.

(** ** The further properties on the sample node *)

Lemma stop_ends_process_witness :
  process (snd (snd (stop (fst singbox_running, running_core)))) = None
  /\ poll (fst (snd (stop (fst singbox_running, running_core)))) 0 = Some (-15)%Z
  /\ fst (stop (fst singbox_running, running_core)) = Ok tt.
Proof.
  destruct (stop_ends_process (fst singbox_running) running_core 0 eq_refl eq_refl)
    as [Hproc [Hpoll [_ Hok]]].
  split; [exact Hproc |]. split; [exact Hpoll |].
  apply Hok. vm_compute. lia.
Defined.

Lemma start_twice_raises_witness :
  fst (start sample_dumps empty_config (sample_world, new_core)) = Ok tt
  /\ (start sample_dumps empty_config ;;; start sample_dumps empty_config)
       (sample_world, new_core)
     = (Raise (RuntimeError "Sing-box is started already"),
        snd (start sample_dumps empty_config (sample_world, new_core))).
Proof.
  assert (Hfirst : fst (start sample_dumps empty_config (sample_world, new_core)) = Ok tt)
    by (vm_compute; reflexivity).
  split; [exact Hfirst |].
  exact (start_twice_raises sample_dumps empty_config empty_config sample_world new_core
           Hfirst).
Defined.

Lemma start_missing_executable_witness :
  start sample_dumps empty_config (bare_world, bare_core)
  = (Raise FileNotFoundError, (bare_world, bare_core)).
Proof.
  apply (start_missing_executable sample_dumps empty_config []); reflexivity.
Defined.

Lemma singbox_restart_without_core_witness :
  sample_singbox_restart "{}" (fst connected, snd connected)
  = (Raise TypeError, (fst connected, snd connected)).
Proof.
  apply (singbox_restart_without_core true SAMPLE_EXECUTABLE SAMPLE_WORKING_DIR
           "cert.pem" "key.pem" None sample_loads sample_dumps
           (fst connected) (snd connected) 1
           (c_with_peer first_controller (Some "10.0.0.1")) (Some "10.0.0.1") "{}"
           (mkSingBoxConfig [] "cert.pem" "key.pem" (Some "10.0.0.1")));
    reflexivity.
Defined.

Lemma singbox_start_missing_executable_witness :
  exists c,
    sample_singbox_start (ArgStr "{}") (fst (uninstalled connected), snd connected)
    = (Raise FileNotFoundError,
       (fst (uninstalled connected), set_singbox_core (Some c) (snd connected)))
    /\ process c = None
    /\ _on_start_funcs c = [PeerOnSingboxStart].
Proof.
  destruct (singbox_start_missing_executable true SAMPLE_EXECUTABLE SAMPLE_WORKING_DIR
              "cert.pem" "key.pem" None sample_loads sample_dumps
              (fst (uninstalled connected)) (snd connected) 1
              (c_with_peer first_controller (Some "10.0.0.1")) (Some "10.0.0.1") "{}"
              (mkSingBoxConfig [] "cert.pem" "key.pem" (Some "10.0.0.1")) []
              eq_refl eq_refl eq_refl eq_refl eq_refl eq_refl eq_refl eq_refl)
    as [Hstart Hproc].
  eexists. split; [exact Hstart |]. split; [exact Hproc | reflexivity].
Defined.

Lemma on_disconnect_ends_singbox_witness :
  sample_on_disconnect 1 (fst singbox_running, snd singbox_running)
  = (Ok tt, (stopped_world 0 running_core (fst singbox_running), XrayService_init))
  /\ poll (stopped_world 0 running_core (fst singbox_running)) 0 <> None
  /\ w_threads (stopped_world 0 running_core (fst singbox_running))
     = w_threads (fst singbox_running) ++ [ThHook PeerOnSingboxStop].
Proof.
  apply (on_disconnect_ends_singbox sample_xray (fst singbox_running) (snd singbox_running) 1
           (c_with_peer first_controller (Some "10.0.0.1")) running_core 0);
    try reflexivity.
  - discriminate.
  - vm_compute. lia.
Defined.

Lemma on_connect_first_witness :
  on_connect 1 (sample_world, sample_service)
  = (Ok tt,
     (w_with_conns sample_world
        (<[1 := c_with_peer first_controller (Some "10.0.0.1")]> (w_conns sample_world)),
      set_connection (Some 1) sample_service))
  /\ on_connect 3 (ipv6_world, sample_service) = (Raise ValueError, (ipv6_world, sample_service)).
Proof.
  split.
  - exact (proj1 (on_connect_first sample_world sample_service 1 first_controller
                    eq_refl eq_refl) "10.0.0.1" 62050%Z eq_refl).
  - exact (proj2 (on_connect_first ipv6_world sample_service 3 ipv6_controller
                    eq_refl eq_refl) "fd00::1" 62050%Z 0%Z 0%Z eq_refl).
Defined.

Lemma on_connect_keeps_peer_recorded_witness :
  peer_recorded (fst connected) (snd connected)
  /\ peer_recorded (fst (snd (on_connect 2 (loses 1 EOFError connected))))
       (snd (snd (on_connect 2 (loses 1 EOFError connected)))).
Proof.
  assert (Hbefore : peer_recorded (fst connected) (snd connected)).
  { exists (c_with_peer first_controller (Some "10.0.0.1")), (Some "10.0.0.1").
    split; reflexivity. }
  assert (Hlost : peer_recorded (fst (loses 1 EOFError connected)) (snd connected)).
  { eexists. exists (Some "10.0.0.1"). split; [vm_compute; reflexivity | reflexivity]. }
  split; [exact Hbefore |].
  exact (on_connect_keeps_peer_recorded (fst (loses 1 EOFError connected)) (snd connected)
           2 Hlost).
Defined.

Lemma cast_delivers_in_order_witness :
  let steps := handler_trace 0 handler_between handler_turns in
  let s := cast_run 0 (mkCastState EmptyString [], log_step warm_trace EvCopy) steps in
  (stays_subscribed 0 (cast_log_events 0 steps) = true /\ only_handler_takes 0 steps = true)
  /\ delivered (fst s) = joined ["zero"; "one"; "two"]
  /\ cast_sent (fst s) = [joined ["zero"]; joined ["one"]; joined ["two"]].
Proof.
  cbn zeta.
  split; [split; reflexivity |]. split; [| vm_compute; reflexivity].
  refine (eq_trans
            (proj1 (cast_delivers_in_order warm_trace handler_between handler_turns
                      eq_refl eq_refl)) _).
  vm_compute. reflexivity.
Defined.

Lemma cast_end_to_end_witness :
  let steps := handler_trace 0 handler_between handler_turns in
  let s := cast_run 0 (mkCastState EmptyString [], log_step warm_trace EvCopy) steps in
  (in_order (log_step warm_trace EvCopy) (cast_log_events 0 steps) = true
   /\ stays_subscribed 0 (cast_log_events 0 steps) = true
   /\ only_handler_takes 0 steps = true
   /\ keeps_up 0 (log_step warm_trace EvCopy) (cast_log_events 0 steps) = true)
  /\ _logs_buffer (lt_buffers (snd s)) = ["zero"; "lost"; "one"; "two"]
  /\ delivered (fst s) +:+ joined (held 0 (snd s) ++ owed 0 (snd s))
     = joined ["zero"; "one"; "two"].
Proof.
  cbn zeta. split; [repeat split; vm_compute; reflexivity |].
  split; [vm_compute; reflexivity |].
  refine (eq_trans
            (cast_end_to_end warm_trace handler_between handler_turns
               eq_refl eq_refl eq_refl eq_refl) _).
  vm_compute. reflexivity.
Defined.
